(** * Boundr: the background service worker's usage clock and lock/snooze
    state machine

    A shallow embedding of the service worker (RulesEngine, StorageManager,
    TimeKeeper and TwitterTimeLimitService, as they are inlined in the
    worker's single script) together with the properties of its natural
    language specification.

    Modelling conventions.
    - Times are [Z] milliseconds since the Unix epoch, as [Date.now()]
      returns them.  Every handler receives the instant [now] at which it
      runs; all clock reads of one handler invocation return that instant.
    - The worker runs on a single-threaded event loop.  A handler (a message,
      an alarm, a timer callback) is modelled as one atomic step: the
      interleaving of two handlers at their [await] points is outside the
      model.  The re-entrancy guards that a handler sets and releases before
      it returns are kept as fields so that the definitions read like the
      source.
    - [chrome.storage.local] is modelled by [Store]; a key that was never
      written is [None].  [StorageManager.cache] only ever holds the value
      last written to the store for a key (every writer updates both, or
      clears the cache), so reads through the cache and reads of the store
      agree and the cache is not a separate field.  Storage writes succeed.
    - A JavaScript object field that is absent, [undefined] or [false] and is
      only ever tested for truthiness is a [bool]; [frozenTimeUsed] and
      [passcodeHash] are options.
    - Messages to tabs, notifications and broadcasts to the popup are
      recorded in an effect log; the list of open tabs is abstracted. *)

From Stdlib Require Import ZArith List String Ascii Bool Lia.
Import ListNotations.
Local Open Scope string_scope.
Local Open Scope Z_scope.

(** ** Calendar dates

    [new Date(ms).toISOString().split('T')[0]]: the UTC calendar date of an
    instant, as "YYYY-MM-DD" (years 0000 to 9999). *)

Definition MS_PER_DAY : Z := 86400000.

(** Proleptic Gregorian date of a day number counted from 1970-01-01. *)
Definition civil_from_days (days : Z) : Z * Z * Z :=
  let z := days + 719468 in
  let era := z / 146097 in
  let doe := z - era * 146097 in
  let yoe := (doe - doe / 1460 + doe / 36524 - doe / 146096) / 365 in
  let y := yoe + era * 400 in
  let doy := doe - (365 * yoe + yoe / 4 - yoe / 100) in
  let mp := (5 * doy + 2) / 153 in
  let d := doy - (153 * mp + 2) / 5 + 1 in
  let m := if mp <? 10 then mp + 3 else mp - 9 in
  (if m <=? 2 then y + 1 else y, m, d).

Definition digit (d : Z) : ascii := ascii_of_nat (48 + Z.to_nat (d mod 10)).

Definition two_digits (n : Z) : string :=
  String (digit (n / 10)) (String (digit n) EmptyString).

Definition four_digits (n : Z) : string :=
  String (digit (n / 1000)) (String (digit (n / 100)) (two_digits n)).

Definition isoDate (ms : Z) : string :=
  let '(y, m, d) := civil_from_days (ms / MS_PER_DAY) in
  four_digits y ++ "-" ++ two_digits m ++ "-" ++ two_digits d.

(** [getDateKey()] at the instant [now]. *)
Definition getDateKey (now : Z) : string := isoDate now.


Definition orElse {A} (o : option A) (d : A) : A :=
  match o with Some v => v | None => d end.

(** ** Persisted records *)

Inductive Mode := softlock | close.

Record Settings := mkSettings {
  dailyLimitMin : Z;
  resetHourLocal : Z;
  mode : Mode;
  allowSnooze : bool;
  passcodeHash : option string;
  cooldownMin : Z;
  enabled : bool
}.

Record Usage := mkUsage {
  millisActive : Z;
  lastTickAt : Z;
  dateKey : string
}.

Record Flags := mkFlags {
  nudged : bool;
  locked : bool;
  pausedToday : bool;
  snoozed : bool;
  snoozeUsedToday : bool;
  frozenTimeUsed : option Z
}.

Definition DEFAULT_SETTINGS : Settings :=
  {| dailyLimitMin := 30; resetHourLocal := 4; mode := softlock;
     allowSnooze := true; passcodeHash := None; cooldownMin := 5;
     enabled := false |}.

(** [DEFAULT_USAGE] is evaluated once, when the script is loaded. *)
Definition DEFAULT_USAGE (loadTime : Z) : Usage :=
  {| millisActive := 0; lastTickAt := loadTime; dateKey := getDateKey loadTime |}.

Definition DEFAULT_FLAGS : Flags :=
  {| nudged := false; locked := false; pausedToday := false; snoozed := false;
     snoozeUsedToday := false; frozenTimeUsed := None |}.

Record Store := mkStore {
  st_settings : option Settings;
  st_usageToday : option Usage;
  st_flags : option Flags
}.

(** ** In-memory state of the two singletons *)

Record TimeKeeperState := mkTK {
  isActive : bool;
  lastTickTime : option Z;
  tickInterval : bool;          (* 'alarm' or null *)
  usageSaveInterval : Z;        (* 60000 + random below 30000 *)
  lastUsageSave : Z;
  currentUsageMs : Z;
  isInitialized : bool;
  isPaused : bool;
  isLocked : bool;
  lastActiveChange : Z;
  startInProgress : bool;
  stopInProgress : bool;
  writeBackoffUntil : Z
}.

Record ServiceState := mkSvc {
  isTracking : bool;
  lastPauseToggle : Z;
  lastSettingsUpdate : Z;
  updateTrackingInProgress : bool;
  pauseInProgress : bool;
  resetInProgress : bool;
  lastSnoozeRequest : Z;
  snoozeInProgress : bool;
  lastResetRequestAt : option Z;
  suppressStopUntil : option Z
}.

(** A pending [setTimeout] of [handleSnoozeRequest]: the instant it is due
    and the [cooldownDurationMillis] its closure captured. *)
Record SnoozeTimer := mkTimer { due : Z; cooldownMs : Z }.

Inductive Effect :=
| SHOW_NUDGE (timeLeft : Z)
| SHOW_SOFT_LOCK
| SHOW_CLOSE_COUNTDOWN
| HIDE_OVERLAY
| STATUS_LOCKED (usage : Z)
| NOTIFY (id : string).

Record State := mkState {
  store : Store;
  tk : TimeKeeperState;
  svc : ServiceState;
  timers : list SnoozeTimer;
  effects : list Effect;
  loadTime : Z
}.

(** Field updates. *)

Definition set_store (f : Store -> Store) (s : State) : State :=
  mkState (f (store s)) (tk s) (svc s) (timers s) (effects s) (loadTime s).
Definition set_tk (f : TimeKeeperState -> TimeKeeperState) (s : State) : State :=
  mkState (store s) (f (tk s)) (svc s) (timers s) (effects s) (loadTime s).
Definition set_svc (f : ServiceState -> ServiceState) (s : State) : State :=
  mkState (store s) (tk s) (f (svc s)) (timers s) (effects s) (loadTime s).
Definition set_timers (f : list SnoozeTimer -> list SnoozeTimer) (s : State) : State :=
  mkState (store s) (tk s) (svc s) (f (timers s)) (effects s) (loadTime s).
Definition add_effect (e : Effect) (s : State) : State :=
  mkState (store s) (tk s) (svc s) (timers s) (effects s ++ [e]) (loadTime s).

Definition with_settings (v : option Settings) (st : Store) : Store :=
  mkStore v (st_usageToday st) (st_flags st).
Definition with_usageToday (v : option Usage) (st : Store) : Store :=
  mkStore (st_settings st) v (st_flags st).
Definition with_flags (v : option Flags) (st : Store) : Store :=
  mkStore (st_settings st) (st_usageToday st) v.

Definition with_isActive v (t : TimeKeeperState) :=
  mkTK v (lastTickTime t) (tickInterval t) (usageSaveInterval t) (lastUsageSave t)
       (currentUsageMs t) (isInitialized t) (isPaused t) (isLocked t)
       (lastActiveChange t) (startInProgress t) (stopInProgress t) (writeBackoffUntil t).
Definition with_lastTickTime v (t : TimeKeeperState) :=
  mkTK (isActive t) v (tickInterval t) (usageSaveInterval t) (lastUsageSave t)
       (currentUsageMs t) (isInitialized t) (isPaused t) (isLocked t)
       (lastActiveChange t) (startInProgress t) (stopInProgress t) (writeBackoffUntil t).
Definition with_tickInterval v (t : TimeKeeperState) :=
  mkTK (isActive t) (lastTickTime t) v (usageSaveInterval t) (lastUsageSave t)
       (currentUsageMs t) (isInitialized t) (isPaused t) (isLocked t)
       (lastActiveChange t) (startInProgress t) (stopInProgress t) (writeBackoffUntil t).
Definition with_lastUsageSave v (t : TimeKeeperState) :=
  mkTK (isActive t) (lastTickTime t) (tickInterval t) (usageSaveInterval t) v
       (currentUsageMs t) (isInitialized t) (isPaused t) (isLocked t)
       (lastActiveChange t) (startInProgress t) (stopInProgress t) (writeBackoffUntil t).
Definition with_currentUsageMs v (t : TimeKeeperState) :=
  mkTK (isActive t) (lastTickTime t) (tickInterval t) (usageSaveInterval t) (lastUsageSave t)
       v (isInitialized t) (isPaused t) (isLocked t)
       (lastActiveChange t) (startInProgress t) (stopInProgress t) (writeBackoffUntil t).
Definition with_isInitialized v (t : TimeKeeperState) :=
  mkTK (isActive t) (lastTickTime t) (tickInterval t) (usageSaveInterval t) (lastUsageSave t)
       (currentUsageMs t) v (isPaused t) (isLocked t)
       (lastActiveChange t) (startInProgress t) (stopInProgress t) (writeBackoffUntil t).
Definition with_isPaused v (t : TimeKeeperState) :=
  mkTK (isActive t) (lastTickTime t) (tickInterval t) (usageSaveInterval t) (lastUsageSave t)
       (currentUsageMs t) (isInitialized t) v (isLocked t)
       (lastActiveChange t) (startInProgress t) (stopInProgress t) (writeBackoffUntil t).
Definition with_isLocked v (t : TimeKeeperState) :=
  mkTK (isActive t) (lastTickTime t) (tickInterval t) (usageSaveInterval t) (lastUsageSave t)
       (currentUsageMs t) (isInitialized t) (isPaused t) v
       (lastActiveChange t) (startInProgress t) (stopInProgress t) (writeBackoffUntil t).
Definition with_lastActiveChange v (t : TimeKeeperState) :=
  mkTK (isActive t) (lastTickTime t) (tickInterval t) (usageSaveInterval t) (lastUsageSave t)
       (currentUsageMs t) (isInitialized t) (isPaused t) (isLocked t)
       v (startInProgress t) (stopInProgress t) (writeBackoffUntil t).
Definition with_startInProgress v (t : TimeKeeperState) :=
  mkTK (isActive t) (lastTickTime t) (tickInterval t) (usageSaveInterval t) (lastUsageSave t)
       (currentUsageMs t) (isInitialized t) (isPaused t) (isLocked t)
       (lastActiveChange t) v (stopInProgress t) (writeBackoffUntil t).
Definition with_stopInProgress v (t : TimeKeeperState) :=
  mkTK (isActive t) (lastTickTime t) (tickInterval t) (usageSaveInterval t) (lastUsageSave t)
       (currentUsageMs t) (isInitialized t) (isPaused t) (isLocked t)
       (lastActiveChange t) (startInProgress t) v (writeBackoffUntil t).
Definition with_writeBackoffUntil v (t : TimeKeeperState) :=
  mkTK (isActive t) (lastTickTime t) (tickInterval t) (usageSaveInterval t) (lastUsageSave t)
       (currentUsageMs t) (isInitialized t) (isPaused t) (isLocked t)
       (lastActiveChange t) (startInProgress t) (stopInProgress t) v.

Definition with_isTracking v (c : ServiceState) :=
  mkSvc v (lastPauseToggle c) (lastSettingsUpdate c) (updateTrackingInProgress c)
        (pauseInProgress c) (resetInProgress c) (lastSnoozeRequest c)
        (snoozeInProgress c) (lastResetRequestAt c) (suppressStopUntil c).
Definition with_lastPauseToggle v (c : ServiceState) :=
  mkSvc (isTracking c) v (lastSettingsUpdate c) (updateTrackingInProgress c)
        (pauseInProgress c) (resetInProgress c) (lastSnoozeRequest c)
        (snoozeInProgress c) (lastResetRequestAt c) (suppressStopUntil c).
Definition with_lastSettingsUpdate v (c : ServiceState) :=
  mkSvc (isTracking c) (lastPauseToggle c) v (updateTrackingInProgress c)
        (pauseInProgress c) (resetInProgress c) (lastSnoozeRequest c)
        (snoozeInProgress c) (lastResetRequestAt c) (suppressStopUntil c).
Definition with_updateTrackingInProgress v (c : ServiceState) :=
  mkSvc (isTracking c) (lastPauseToggle c) (lastSettingsUpdate c) v
        (pauseInProgress c) (resetInProgress c) (lastSnoozeRequest c)
        (snoozeInProgress c) (lastResetRequestAt c) (suppressStopUntil c).
Definition with_pauseInProgress v (c : ServiceState) :=
  mkSvc (isTracking c) (lastPauseToggle c) (lastSettingsUpdate c) (updateTrackingInProgress c)
        v (resetInProgress c) (lastSnoozeRequest c)
        (snoozeInProgress c) (lastResetRequestAt c) (suppressStopUntil c).
Definition with_resetInProgress v (c : ServiceState) :=
  mkSvc (isTracking c) (lastPauseToggle c) (lastSettingsUpdate c) (updateTrackingInProgress c)
        (pauseInProgress c) v (lastSnoozeRequest c)
        (snoozeInProgress c) (lastResetRequestAt c) (suppressStopUntil c).
Definition with_lastSnoozeRequest v (c : ServiceState) :=
  mkSvc (isTracking c) (lastPauseToggle c) (lastSettingsUpdate c) (updateTrackingInProgress c)
        (pauseInProgress c) (resetInProgress c) v
        (snoozeInProgress c) (lastResetRequestAt c) (suppressStopUntil c).
Definition with_snoozeInProgress v (c : ServiceState) :=
  mkSvc (isTracking c) (lastPauseToggle c) (lastSettingsUpdate c) (updateTrackingInProgress c)
        (pauseInProgress c) (resetInProgress c) (lastSnoozeRequest c)
        v (lastResetRequestAt c) (suppressStopUntil c).
Definition with_lastResetRequestAt v (c : ServiceState) :=
  mkSvc (isTracking c) (lastPauseToggle c) (lastSettingsUpdate c) (updateTrackingInProgress c)
        (pauseInProgress c) (resetInProgress c) (lastSnoozeRequest c)
        (snoozeInProgress c) v (suppressStopUntil c).
Definition with_suppressStopUntil v (c : ServiceState) :=
  mkSvc (isTracking c) (lastPauseToggle c) (lastSettingsUpdate c) (updateTrackingInProgress c)
        (pauseInProgress c) (resetInProgress c) (lastSnoozeRequest c)
        (snoozeInProgress c) (lastResetRequestAt c) v.

Definition with_nudged v (f : Flags) :=
  mkFlags v (locked f) (pausedToday f) (snoozed f) (snoozeUsedToday f) (frozenTimeUsed f).
Definition with_locked v (f : Flags) :=
  mkFlags (nudged f) v (pausedToday f) (snoozed f) (snoozeUsedToday f) (frozenTimeUsed f).
Definition with_pausedToday v (f : Flags) :=
  mkFlags (nudged f) (locked f) v (snoozed f) (snoozeUsedToday f) (frozenTimeUsed f).
Definition with_snoozed v (f : Flags) :=
  mkFlags (nudged f) (locked f) (pausedToday f) v (snoozeUsedToday f) (frozenTimeUsed f).
Definition with_snoozeUsedToday v (f : Flags) :=
  mkFlags (nudged f) (locked f) (pausedToday f) (snoozed f) v (frozenTimeUsed f).
Definition with_frozenTimeUsed v (f : Flags) :=
  mkFlags (nudged f) (locked f) (pausedToday f) (snoozed f) (snoozeUsedToday f) v.

(** ** The monad of handlers: state passing with JavaScript exceptions *)

Inductive JsError := ReferenceError (name : string).

Inductive Outcome (A : Type) :=
| Ok (a : A) (s : State)
| Throw (e : JsError) (s : State).
Arguments Ok {A} a s.
Arguments Throw {A} e s.

Definition M (A : Type) : Type := State -> Outcome A.

Definition ret {A} (a : A) : M A := fun s => Ok a s.
Definition bind {A B} (m : M A) (k : A -> M B) : M B :=
  fun s => match m s with
           | Ok a s' => k a s'
           | Throw e s' => Throw e s'
           end.
Definition throw {A} (e : JsError) : M A := fun s => Throw e s.
Definition gets {A} (f : State -> A) : M A := fun s => Ok (f s) s.
Definition modify (f : State -> State) : M unit := fun s => Ok tt (f s).
Definition when (b : bool) (m : M unit) : M unit := if b then m else ret tt.

(** [try { m } finally { f }] *)
Definition try_finally {A} (m : M A) (f : M unit) : M A :=
  fun s => match m s with
           | Ok a s' => match f s' with
                        | Ok _ s'' => Ok a s''
                        | Throw e s'' => Throw e s''
                        end
           | Throw e s' => match f s' with
                           | Ok _ s'' => Throw e s''
                           | Throw e' s'' => Throw e' s''
                           end
           end.

(** [try { m } catch (error) { h }] *)
Definition try_catch {A} (m : M A) (h : JsError -> M A) : M A :=
  fun s => match m s with
           | Ok a s' => Ok a s'
           | Throw e s' => h e s'
           end.

Declare Scope js_scope.
Delimit Scope js_scope with js.
Notation "x <- c ;; k" := (bind c (fun x => k))
  (at level 61, c at next level, right associativity) : js_scope.
Notation "c ;; k" := (bind c (fun _ => k))
  (at level 61, right associativity) : js_scope.
Local Open Scope js_scope.

(** The final state of a run, whether it returned or threw. *)
Definition state_of {A} (o : Outcome A) : State :=
  match o with Ok _ s => s | Throw _ s => s end.
Definition exec {A} (m : M A) (s : State) : State := state_of (m s).

Definition emit (e : Effect) : M unit := modify (add_effect e).
Definition tkSet (f : TimeKeeperState -> TimeKeeperState) : M unit := modify (set_tk f).
Definition svcSet (f : ServiceState -> ServiceState) : M unit := modify (set_svc f).

(** ** StorageManager *)

Module StorageManager.

(** [get(key)]: the stored value, or the default, which is then written. *)
Definition getSettings : M Settings := fun s =>
  match st_settings (store s) with
  | Some v => Ok v s
  | None => Ok DEFAULT_SETTINGS (set_store (with_settings (Some DEFAULT_SETTINGS)) s)
  end.

Definition getUsageToday : M Usage := fun s =>
  match st_usageToday (store s) with
  | Some v => Ok v s
  | None => let d := DEFAULT_USAGE (loadTime s) in
            Ok d (set_store (with_usageToday (Some d)) s)
  end.

Definition getFlags : M Flags := fun s =>
  match st_flags (store s) with
  | Some v => Ok v s
  | None => Ok DEFAULT_FLAGS (set_store (with_flags (Some DEFAULT_FLAGS)) s)
  end.

(** [set(key, value)] *)
Definition setSettings (v : Settings) : M unit :=
  modify (set_store (with_settings (Some v))).
Definition setUsageToday (v : Usage) : M unit :=
  modify (set_store (with_usageToday (Some v))).
Definition setFlags (v : Flags) : M unit :=
  modify (set_store (with_flags (Some v))).

(** [update(key, updates)]: the object spread [{...current, ...updates}]
    is the function [upd] applied to the current value. *)
Definition updateUsageToday (upd : Usage -> Usage) : M Usage :=
  current <- getUsageToday ;;
  let updated := upd current in
  setUsageToday updated ;;
  ret updated.

Definition updateFlags (upd : Flags -> Flags) : M Flags :=
  current <- getFlags ;;
  let updated := upd current in
  setFlags updated ;;
  ret updated.

Definition clear : M unit :=
  modify (set_store (fun _ => mkStore None None None)).

Definition checkDailyReset (now : Z) : M bool :=
  usage <- getUsageToday ;;
  let currentDateKey := getDateKey now in
  if negb (String.eqb (dateKey usage) currentDateKey) then
    ls <- gets loadTime ;;
    setUsageToday (mkUsage (millisActive (DEFAULT_USAGE ls))
                           (lastTickAt (DEFAULT_USAGE ls)) currentDateKey) ;;
    setFlags DEFAULT_FLAGS ;;
    ret true
  else ret false.

(** [usage.millisActive / 1000 / 60 > newSettings.dailyLimitMin], on
    exact numbers. *)
Definition handleSettingsChange (oldSettings newSettings : Settings) (now : Z)
  : M bool :=
  if negb (dailyLimitMin oldSettings =? dailyLimitMin newSettings) then
    usage <- getUsageToday ;;
    if dailyLimitMin newSettings * 60000 <? millisActive usage then
      setUsageToday (mkUsage 0 now (getDateKey now)) ;;
      setFlags (mkFlags false false false false false None) ;;
      ret true
    else ret false
  else ret false.

Definition updateSettings (upd : Settings -> Settings) (now : Z) : M Settings :=
  oldSettings <- getSettings ;;
  current <- getSettings ;;
  let newSettings := upd current in
  setSettings newSettings ;;
  handleSettingsChange oldSettings newSettings now ;;
  ret newSettings.

End StorageManager.

Module storage := StorageManager.

(** ** RulesEngine *)

Module RulesEngine.

(** JavaScript truthiness of [settings.passcodeHash]: [null] and the empty
    string are falsy. *)
Definition passcodeConfigured (st : Settings) : bool :=
  match passcodeHash st with
  | None => false
  | Some h => negb (String.eqb h "")
  end.

Definition validatePasscode (inputPasscode : string) : M bool :=
  settings <- storage.getSettings ;;
  if negb (passcodeConfigured settings) then ret false
  else ret (match passcodeHash settings with
            | Some h => String.eqb h inputPasscode
            | None => false
            end).

Definition setPasscode (passcode : string) (now : Z) : M unit :=
  storage.updateSettings
    (fun st => mkSettings (dailyLimitMin st) (resetHourLocal st) (mode st)
                          (allowSnooze st) (Some passcode) (cooldownMin st)
                          (enabled st)) now ;;
  ret tt.

End RulesEngine.

Module rules := RulesEngine.

(** ** TimeKeeper *)

Inductive IdleState := idle_active | idle_idle | idle_locked.

(** [(settings.cooldownMin || 5)]: zero is falsy. *)
Definition cooldownMinutes (st : Settings) : Z :=
  if cooldownMin st =? 0 then 5 else cooldownMin st.

(** The limit in force: the cooldown budget during a snooze, the daily budget
    otherwise. *)
Definition effectiveLimitMillis (st : Settings) (fl : Flags) : Z :=
  if snoozed fl then cooldownMinutes st * 60 * 1000
  else dailyLimitMin st * 60 * 1000.

Definition tickBuffer : Z := 2000.

(** Truthiness of [this.lastTickTime]: [null] and [0] are falsy. *)
Definition truthyTime (t : option Z) : bool :=
  match t with
  | Some v => negb (v =? 0)
  | None => false
  end.

Module TimeKeeper.

Definition syncWithStorage : M unit :=
  t <- gets tk ;;
  if negb (isInitialized t) then
    usage <- storage.getUsageToday ;;
    flags <- storage.getFlags ;;
    tkSet (with_currentUsageMs (millisActive usage)) ;;
    tkSet (with_isPaused (pausedToday flags)) ;;
    tkSet (with_isLocked (locked flags)) ;;
    tkSet (with_isInitialized true) ;;
    when (millisActive usage =? 0) (tkSet (with_lastTickTime None))
  else ret tt.

Definition getFreshData : M (Settings * Flags * Usage) :=
  settings <- storage.getSettings ;;
  flags <- storage.getFlags ;;
  usage <- storage.getUsageToday ;;
  ret (settings, flags, usage).

Definition getCurrentRealTimeUsage (now : Z) (t : TimeKeeperState) : Z :=
  if isPaused t then currentUsageMs t
  else if isActive t && truthyTime (lastTickTime t) then
    match lastTickTime t with
    | Some l => currentUsageMs t + (now - l)
    | None => currentUsageMs t
    end
  else currentUsageMs t.

Definition start (now : Z) : M unit :=
  t <- gets tk ;;
  if tickInterval t || startInProgress t then ret tt
  else if isLocked t then ret tt
  else
    tkSet (with_startInProgress true) ;;
    syncWithStorage ;;
    t1 <- gets tk ;;
    if isLocked t1 then tkSet (with_startInProgress false)
    else
      when (negb (tickInterval t1))
           (tkSet (with_lastTickTime (Some now)) ;;
            tkSet (with_tickInterval true)) ;;
      tkSet (with_startInProgress false).

Definition stop (now : Z) : M unit :=
  t <- gets tk ;;
  if stopInProgress t then ret tt
  else
    tkSet (with_stopInProgress true) ;;
    when (tickInterval t) (tkSet (with_tickInterval false)) ;;
    when (0 <? currentUsageMs t)
         (usage <- storage.getUsageToday ;;
          storage.updateUsageToday
            (fun _ => mkUsage (currentUsageMs t) now (dateKey usage)) ;;
          ret tt) ;;
    tkSet (with_isActive false) ;;
    tkSet (with_lastTickTime None) ;;
    tkSet (with_stopInProgress false).

Definition setActive (active : bool) (now : Z) : M unit :=
  t <- gets tk ;;
  if Bool.eqb (isActive t) active then ret tt
  else if now - lastActiveChange t <? 200 then ret tt
  else if isLocked t && active then ret tt
  else
    tkSet (with_lastActiveChange now) ;;
    tkSet (with_isActive active) ;;
    when active (tkSet (with_lastTickTime (Some now))).

Definition triggerNudge : M unit :=
  settings <- storage.getSettings ;;
  flags <- storage.getFlags ;;
  if negb (enabled settings) || negb (allowSnooze settings) || nudged flags
     || pausedToday flags || snoozed flags || locked flags
  then ret tt
  else
    usage <- storage.getUsageToday ;;
    storage.updateFlags (with_nudged true) ;;
    t <- gets tk ;;
    currentFlags <- storage.getFlags ;;
    let limit := effectiveLimitMillis settings currentFlags in
    let realTimeLeft := Z.max 0 (limit - currentUsageMs t) in
    emit (SHOW_NUDGE realTimeLeft).

Definition triggerLimit (now : Z) : M unit :=
  settings <- storage.getSettings ;;
  flags <- storage.getFlags ;;
  if negb (enabled settings) || locked flags || pausedToday flags then ret tt
  else
    let limit := effectiveLimitMillis settings flags in
    t <- gets tk ;;
    let effectiveLimitWithBuffer := limit - tickBuffer in
    if effectiveLimitWithBuffer <=? currentUsageMs t then
      storage.updateFlags
        (fun f => with_frozenTimeUsed (Some limit)
                    (with_nudged false (with_locked true f))) ;;
      tkSet (with_isLocked true) ;;
      stop now ;;
      emit (STATUS_LOCKED limit) ;;
      match mode settings with
      | close => emit SHOW_CLOSE_COUNTDOWN
      | softlock => emit SHOW_SOFT_LOCK
      end
    else ret tt.

(** The nudge threshold [effectiveLimitMillis * 0.8] is compared on exact
    numbers: [usage >= 0.8 * limit] is [4 * limit <= 5 * usage]. *)
Definition checkLimits (usage : Usage) (now : Z) : M unit :=
  fresh <- getFreshData ;;
  let '(settings, flags, _) := fresh in
  if negb (enabled settings) || pausedToday flags || locked flags then ret tt
  else
    let limit := effectiveLimitMillis settings flags in
    (if snoozed flags then ret tt
     else when (negb (nudged flags) && (4 * limit <=? 5 * millisActive usage))
               triggerNudge) ;;
    when (limit - tickBuffer <=? millisActive usage) (triggerLimit now).

Definition tick (now : Z) (idleState : IdleState) : M unit :=
  t <- gets tk ;;
  if negb (isActive t) || negb (truthyTime (lastTickTime t)) then ret tt
  else
    let deltaTime := now - orElse (lastTickTime t) 0 in
    if deltaTime <? 100 then ret tt
    else
      fresh <- getFreshData ;;
      let '(settings, flags, usage) := fresh in
      if isLocked t || negb (enabled settings) || locked flags || pausedToday flags
      then tkSet (with_lastTickTime (Some now))
      else
        match idleState with
        | idle_idle | idle_locked => tkSet (with_lastTickTime (Some now))
        | idle_active =>
            tkSet (with_currentUsageMs (currentUsageMs t + deltaTime)) ;;
            let newUsage :=
              mkUsage (currentUsageMs t + deltaTime) now (dateKey usage) in
            when ((writeBackoffUntil t <=? now)
                  && (usageSaveInterval t <=? now - lastUsageSave t))
                 (tkSet (with_lastUsageSave now) ;;
                  storage.updateUsageToday (fun _ => newUsage) ;;
                  tkSet (with_writeBackoffUntil 0)) ;;
            tkSet (with_lastTickTime (Some now)) ;;
            checkLimits newUsage now
        end.

End TimeKeeper.

Module timekeeper := TimeKeeper.

(** ** TwitterTimeLimitService *)

(** What the tab and window queries of a handler report. *)
Record TabEnv := mkEnv {
  activeXTabInFocusedWindow : bool;
  activeXTabAnywhere : bool;
  popupOpen : bool
}.

(** The [settings] object of an UPDATE_SETTINGS message: a partial
    [Settings]; an absent field is [None]. *)
Record SettingsPatch := mkPatch {
  p_dailyLimitMin : option Z;
  p_resetHourLocal : option Z;
  p_mode : option Mode;
  p_allowSnooze : option bool;
  p_cooldownMin : option Z;
  p_enabled : option bool
}.

(** [{...oldSettings, ...patch}] *)
Definition applyPatch (p : SettingsPatch) (st : Settings) : Settings :=
  mkSettings (orElse (p_dailyLimitMin p) (dailyLimitMin st))
             (orElse (p_resetHourLocal p) (resetHourLocal st))
             (orElse (p_mode p) (mode st))
             (orElse (p_allowSnooze p) (allowSnooze st))
             (passcodeHash st)
             (orElse (p_cooldownMin p) (cooldownMin st))
             (orElse (p_enabled p) (enabled st)).

(** The value [handleSnoozeRequest] returns: [undefined] when the snooze is
    granted, [{ success: false, error }] otherwise. *)
Inductive SnoozeResult := Granted | Rejected (error : string).

Inductive Response :=
| RSuccess
| RDebounced
| RRejected (error : string)     (* { success: false, error } *)
| RError (message : string)      (* { error } *)
| RNone.                         (* alarms and timers answer nobody *)

Definition errorMessage (e : JsError) : string :=
  match e with ReferenceError n => n ++ " is not defined" end.

Module TwitterTimeLimitService.

(** The body of [updateTrackingImmediate]'s [try].  The overlay messages it
    sends to tabs that do not show one yet, and the status broadcasts to the
    popup, are left out of the effect log. *)
Definition updateTrackingBody (now : Z) (env : TabEnv) : M unit :=
  c <- gets svc ;;
  let wasTracking := isTracking c in
  settings <- storage.getSettings ;;
  flags <- storage.getFlags ;;
  t <- gets tk ;;
  let suppressStops :=
    match suppressStopUntil c with
    | Some u => negb (u =? 0) && (now <? u)
    | None => false
    end in
  let allowDueToPopup := popupOpen env && activeXTabAnywhere env in
  let shouldTrack0 :=
    (activeXTabInFocusedWindow env || allowDueToPopup)
    && enabled settings && negb (pausedToday flags)
    && negb (locked flags) && negb (isLocked t) in
  let shouldTrack :=
    if negb shouldTrack0 && suppressStops then wasTracking || allowDueToPopup
    else shouldTrack0 in
  svcSet (with_isTracking shouldTrack) ;;
  if pausedToday flags then ret tt
  else if locked flags then timekeeper.stop now
  else if shouldTrack then
    when (negb (tickInterval t))
         (when (negb (locked flags) && negb (isLocked t)) (timekeeper.start now)) ;;
    t1 <- gets tk ;;
    when (negb (isPaused t1) && negb (locked flags) && negb (isLocked t1))
         (timekeeper.setActive true now)
  else if negb shouldTrack && wasTracking then
    when (negb suppressStops) (timekeeper.stop now)
  else ret tt.

Definition updateTrackingImmediate (now : Z) (env : TabEnv) : M unit :=
  c <- gets svc ;;
  if updateTrackingInProgress c then ret tt
  else
    svcSet (with_updateTrackingInProgress true) ;;
    try_finally (updateTrackingBody now env)
                (svcSet (with_updateTrackingInProgress false)).

(** The callback of the [setTimeout] that a granted snooze schedules. *)
Definition snoozeTimerCallback (cooldownMs : Z) (now : Z) : M unit :=
  storage.updateFlags
    (fun f => with_frozenTimeUsed (Some cooldownMs)
                (with_nudged false (with_locked true (with_snoozed false f)))) ;;
  tkSet (with_isLocked true) ;;
  timekeeper.stop now ;;
  emit (STATUS_LOCKED cooldownMs) ;;
  emit SHOW_SOFT_LOCK ;;
  svcSet (with_snoozeInProgress false).

Definition handleSnoozeRequest (now : Z) : M SnoozeResult :=
  c <- gets svc ;;
  if snoozeInProgress c then ret (Rejected "Snooze in progress")
  else
    svcSet (with_snoozeInProgress true) ;;
    if now - lastSnoozeRequest c <? 2000 then
      ret (Rejected "Please wait before requesting snooze again")
    else
      svcSet (with_lastSnoozeRequest now) ;;
      settings <- storage.getSettings ;;
      if negb (allowSnooze settings) then ret (Rejected "Snooze not allowed")
      else
        flags <- storage.getFlags ;;
        if snoozed flags || snoozeUsedToday flags then
          ret (Rejected "Snooze already used today")
        else
          let cooldownDurationMillis := cooldownMinutes settings * 60 * 1000 in
          timekeeper.stop now ;;
          storage.updateUsageToday (fun _ => mkUsage 0 now (getDateKey now)) ;;
          tkSet (with_currentUsageMs 0) ;;
          tkSet (with_isInitialized true) ;;
          tkSet (with_isPaused false) ;;
          tkSet (with_isLocked false) ;;
          tkSet (with_lastTickTime (Some now)) ;;
          tkSet (with_lastUsageSave 0) ;;
          storage.updateFlags
            (fun f => with_frozenTimeUsed None
                        (with_nudged false
                           (with_locked false
                              (with_snoozeUsedToday true (with_snoozed true f))))) ;;
          emit HIDE_OVERLAY ;;
          modify (set_timers
                    (fun l => (l ++ [mkTimer (now + cooldownDurationMillis)
                                             cooldownDurationMillis])%list)) ;;
          emit (NOTIFY "snooze_confirmation") ;;
          ret Granted.

(** The method [clearLockedState] of the service. *)
Definition clearLockedState : M unit :=
  try_catch
    (flags <- storage.getFlags ;;
     when (locked flags)
          (storage.updateFlags
             (fun f => with_frozenTimeUsed None (with_locked false f)) ;;
           tkSet (with_isLocked false)))
    (fun _ => ret tt).

(** [handleBypassRequest] calls [clearLockedState()] as a free identifier,
    not as [this.clearLockedState()].  The worker's script declares no
    function or variable of that name at top level (the method above is
    only reachable through the instance), so evaluating the call raises a
    ReferenceError. *)
Definition global_clearLockedState : M unit :=
  throw (ReferenceError "clearLockedState").

Definition handleBypassRequest (passcode : string) : M unit :=
  isValid <- rules.validatePasscode passcode ;;
  when (negb isValid) (emit (NOTIFY "invalid_passcode")) ;;
  global_clearLockedState ;;
  emit (NOTIFY "access_granted").

(** The body of [togglePause]'s [try].  On resume, [checkActiveTabs] only
    schedules the debounced tracking update, which arrives later as an
    [UPDATE_TRACKING] event. *)
Definition togglePauseBody (now : Z) (env : TabEnv) : M unit :=
  flags <- storage.getFlags ;;
  let newPausedState := negb (pausedToday flags) in
  when (negb (Bool.eqb (pausedToday flags) newPausedState))
       (storage.updateFlags (with_pausedToday newPausedState) ;; ret tt) ;;
  tkSet (with_isPaused newPausedState) ;;
  if newPausedState then
    flags' <- storage.getFlags ;;
    when (snoozed flags')
         (storage.updateFlags
            (fun f => with_pausedToday true
                        (with_locked false (with_snoozed false f))) ;;
          ret tt) ;;
    emit HIDE_OVERLAY ;;
    timekeeper.stop now ;;
    emit (NOTIFY "extension_paused")
  else
    svcSet (with_suppressStopUntil (Some (now + 1200))) ;;
    when (popupOpen env)
         (when (activeXTabAnywhere env)
               (t <- gets tk ;;
                when (negb (tickInterval t)) (timekeeper.start now) ;;
                timekeeper.setActive true now)) ;;
    c <- gets svc ;;
    when (isTracking c)
         (t <- gets tk ;;
          when (negb (tickInterval t)) (timekeeper.start now) ;;
          timekeeper.setActive true now) ;;
    emit (NOTIFY "extension_resumed").

Definition togglePause (now : Z) (env : TabEnv) : M unit :=
  c <- gets svc ;;
  if now - lastPauseToggle c <? 1000 then ret tt
  else
    svcSet (with_lastPauseToggle now) ;;
    if pauseInProgress c then ret tt
    else
      svcSet (with_pauseInProgress true) ;;
      try_finally (try_catch (togglePauseBody now env) (fun _ => ret tt))
                  (svcSet (with_pauseInProgress false)).

(** The body of [manualReset]'s [try].  The delayed tracking update it
    schedules arrives later as an [UPDATE_TRACKING] event. *)
Definition manualResetBody (now : Z) (env : TabEnv) : M unit :=
  timekeeper.stop now ;;
  tkSet (with_currentUsageMs 0) ;;
  tkSet (with_isInitialized true) ;;
  tkSet (with_isLocked false) ;;
  tkSet (with_isPaused false) ;;
  tkSet (with_lastTickTime None) ;;
  storage.setUsageToday (mkUsage 0 now (getDateKey now)) ;;
  storage.setFlags (mkFlags false false false false false None) ;;
  emit HIDE_OVERLAY ;;
  storage.getSettings ;;
  svcSet (with_suppressStopUntil (Some (now + 1500))) ;;
  updateTrackingImmediate now env.

Definition manualReset (now : Z) (env : TabEnv) : M unit :=
  c <- gets svc ;;
  if match lastResetRequestAt c with
     | Some l => negb (l =? 0) && (now - l <? 1500)
     | None => false
     end
  then ret tt
  else
    svcSet (with_lastResetRequestAt (Some now)) ;;
    if resetInProgress c then ret tt
    else
      svcSet (with_resetInProgress true) ;;
      try_finally (manualResetBody now env)
                  (svcSet (with_resetInProgress false)).

End TwitterTimeLimitService.

Module service := TwitterTimeLimitService.

(** ** Message dispatch *)

Module Messages.

(** The first block of the UPDATE_SETTINGS case: a changed daily limit
    that the usage counter already reaches (within the tick buffer) locks
    at once.  Returns [shouldLockImmediately] and the pending
    [storageUpdates[FLAGS]]. *)
Definition dailyLimitChange (now : Z) (oldSettings : Settings)
    (patch : SettingsPatch) : M (bool * option Flags) :=
  match p_dailyLimitMin patch with
  | Some newLimitMin =>
      if negb (dailyLimitMin oldSettings =? newLimitMin) then
        t <- gets tk ;;
        let newLimitMs := newLimitMin * 60 * 1000 in
        if newLimitMs - tickBuffer <=? currentUsageMs t then
          tkSet (with_isLocked true) ;;
          timekeeper.stop now ;;
          currentFlags <- storage.getFlags ;;
          emit (STATUS_LOCKED (currentUsageMs t)) ;;
          ret (true, Some (with_frozenTimeUsed (Some newLimitMs)
                             (with_locked true currentFlags)))
        else ret (false, None)
      else ret (false, None)
  | None => ret (false, None)
  end.

(** The second block: a changed cooldown resets the counter and cancels
    the lock of the first block.  Returns the pending
    [storageUpdates[USAGE_TODAY]] and [storageUpdates[FLAGS]]. *)
Definition cooldownChange (now : Z) (oldSettings : Settings)
    (patch : SettingsPatch) (shouldLockImmediately : bool)
    (flagsUpdate : option Flags) : M (option Usage * option Flags) :=
  match p_cooldownMin patch with
  | Some newCooldown =>
      if negb (cooldownMin oldSettings =? newCooldown) then
        tkSet (with_currentUsageMs 0) ;;
        tkSet (with_isInitialized true) ;;
        tkSet (with_isPaused false) ;;
        let usageUpdate := Some (mkUsage 0 now (getDateKey now)) in
        if shouldLockImmediately then
          tkSet (with_isLocked false) ;;
          ret (usageUpdate, None)
        else ret (usageUpdate, flagsUpdate)
      else ret (None, flagsUpdate)
  | None => ret (None, flagsUpdate)
  end.

(** [chrome.storage.local.set(storageUpdates)] *)
Definition writeUpdates (newSettings : Settings) (usageUpdate : option Usage)
    (flagsUpdate : option Flags) : M unit :=
  storage.setSettings newSettings ;;
  match usageUpdate with Some u => storage.setUsageToday u | None => ret tt end ;;
  match flagsUpdate with Some f => storage.setFlags f | None => ret tt end.

(** The body of the UPDATE_SETTINGS case.  The notification settings of the
    message, the tab reloads and the messages to tabs that follow the write
    are left out. *)
Definition updateSettingsBody (now : Z) (patch : SettingsPatch)
    (resetUsage : bool) : M Response :=
  c <- gets svc ;;
  if now - lastSettingsUpdate c <? 1000 then ret RDebounced
  else
    svcSet (with_lastSettingsUpdate now) ;;
    oldSettings <- storage.getSettings ;;
    r1 <- dailyLimitChange now oldSettings patch ;;
    let '(shouldLockImmediately, flagsUpdate1) := r1 in
    r2 <- cooldownChange now oldSettings patch shouldLockImmediately flagsUpdate1 ;;
    let '(usageUpdate2, flagsUpdate2) := r2 in
    let newSettings := applyPatch patch oldSettings in
    r3 <- (if resetUsage then
             currentFlags <- storage.getFlags ;;
             tkSet (with_isLocked false) ;;
             ret (Some (mkUsage 0 now (getDateKey now)),
                  Some (with_frozenTimeUsed None
                          (with_snoozed false
                             (with_locked false
                                (with_nudged false currentFlags)))))
           else ret (usageUpdate2, flagsUpdate2)) ;;
    let '(usageUpdate, flagsUpdate) := r3 in
    writeUpdates newSettings usageUpdate flagsUpdate ;;
    when (match flagsUpdate with Some f => locked f | None => false end)
         (t <- gets tk ;;
          emit (STATUS_LOCKED (currentUsageMs t)) ;;
          emit SHOW_SOFT_LOCK) ;;
    ret RSuccess.

Definition updateSettings (now : Z) (patch : SettingsPatch)
    (resetUsage : bool) : M Response :=
  try_catch (updateSettingsBody now patch resetUsage)
            (fun e => ret (RRejected (errorMessage e))).

End Messages.

(** ** Events of the worker

    The messages [handleMessage] switches on, the alarms of the
    [chrome.alarms.onAlarm] listener, the pending snooze timer, and the
    tracking recomputation that tab, window and popup listeners (and the
    debounce timers the handlers leave behind) trigger. *)

Inductive Event :=
| SNOOZE_REQUEST (now : Z)
| BYPASS_REQUEST (passcode : string)
| PAUSE_TOGGLE (now : Z) (env : TabEnv)
| MANUAL_RESET (now : Z) (env : TabEnv)
| UPDATE_SETTINGS (now : Z) (patch : SettingsPatch) (resetUsage : bool)
| RESET_SETTINGS
| SET_PASSCODE (now : Z) (passcode : string)
| CLEAR_LOCK
| USER_ACTIVITY (now : Z)
| UPDATE_TRACKING (now : Z) (env : TabEnv)
| ALARM_timekeeper_tick (now : Z) (idleState : IdleState)
| ALARM_daily_reset (now : Z)
| SNOOZE_TIMEOUT (now : Z).

(** A pending timer fires once its delay has elapsed: the first timer that
    is due at [now] is removed and its callback run. *)
Fixpoint takeDue (now : Z) (l : list SnoozeTimer)
  : option (SnoozeTimer * list SnoozeTimer) :=
  match l with
  | [] => None
  | x :: r =>
      if due x <=? now then Some (x, r)
      else match takeDue now r with
           | Some (y, r') => Some (y, x :: r')
           | None => None
           end
  end.

Definition fireSnoozeTimer (now : Z) : M unit :=
  l <- gets timers ;;
  match takeDue now l with
  | Some (x, r) =>
      modify (set_timers (fun _ => r)) ;;
      service.snoozeTimerCallback (cooldownMs x) now
  | None => ret tt
  end.

Definition handleEvent (ev : Event) : M Response :=
  match ev with
  | SNOOZE_REQUEST now =>
      r <- service.handleSnoozeRequest now ;;
      ret (match r with Granted => RSuccess | Rejected e => RRejected e end)
  | BYPASS_REQUEST passcode =>
      service.handleBypassRequest passcode ;; ret RSuccess
  | PAUSE_TOGGLE now env => service.togglePause now env ;; ret RSuccess
  | MANUAL_RESET now env => service.manualReset now env ;; ret RSuccess
  | UPDATE_SETTINGS now patch resetUsage =>
      Messages.updateSettings now patch resetUsage
  | RESET_SETTINGS => storage.clear ;; ret RSuccess
  | SET_PASSCODE now passcode => rules.setPasscode passcode now ;; ret RSuccess
  | CLEAR_LOCK => service.clearLockedState ;; ret RSuccess
  | USER_ACTIVITY now =>
      t <- gets tk ;;
      when (negb (isPaused t))
           (tkSet (with_lastActiveChange (now - 300)) ;;
            timekeeper.setActive true now) ;;
      ret RSuccess
  | UPDATE_TRACKING now env => service.updateTrackingImmediate now env ;; ret RNone
  | ALARM_timekeeper_tick now idleState => timekeeper.tick now idleState ;; ret RNone
  | ALARM_daily_reset now => storage.checkDailyReset now ;; ret RNone
  | SNOOZE_TIMEOUT now => fireSnoozeTimer now ;; ret RNone
  end.

(** [handleMessage] wraps the switch in [try ... catch (error)
    { sendResponse({ error: error.message }) }]. *)
Definition step (ev : Event) (s : State) : Response * State :=
  match handleEvent ev s with
  | Ok r s' => (r, s')
  | Throw e s' => (RError (errorMessage e), s')
  end.

Definition next (s : State) (ev : Event) : State := snd (step ev s).

(** Running a sequence of events. *)
Definition run (s : State) (evs : list Event) : State := fold_left next evs s.

(** The worker right after its script was loaded at [loadTime] over the
    persisted storage [st]: the constructors have run, no timer is pending.
    ([init()] then runs [checkDailyReset], the handler of the daily alarm.) *)
Definition workerLoaded (st : Store) (loadTime : Z) (saveInterval : Z) : State :=
  mkState st
          (mkTK false None false saveInterval 0 0 false false false 0 false false 0)
          (mkSvc false 0 0 false false false 0 false None None)
          [] [] loadTime.

(** The states one session of the worker can be in. *)
Inductive reachable : State -> Prop :=
| reach_load st loadTime saveInterval :
    reachable (workerLoaded st loadTime saveInterval)
| reach_step s ev : reachable s -> reachable (next s ev).

(** ** Views of the persisted records

    What [storage.get] returns for a key: the stored value, or the default
    when the key was never written. *)

Arguments orElse {A} o d : simpl nomatch.

Definition settingsOf (s : State) : Settings :=
  orElse (st_settings (store s)) DEFAULT_SETTINGS.
Definition flagsOf (s : State) : Flags :=
  orElse (st_flags (store s)) DEFAULT_FLAGS.
Definition usageOf (s : State) : Usage :=
  orElse (st_usageToday (store s)) (DEFAULT_USAGE (loadTime s)).

(** The state [TimeKeeper.stop] leaves when no other [stop] is in flight:
    the alarm is cleared, a positive counter is flushed to storage, the
    clock is inactive and has no tick anchor. *)
Definition stopped (now : Z) (s : State) : State :=
  set_tk (fun t => with_lastTickTime None
                     (with_isActive false (with_tickInterval false t)))
         (set_store
            (with_usageToday
               (if 0 <? currentUsageMs (tk s)
                then Some (mkUsage (currentUsageMs (tk s)) now (dateKey (usageOf s)))
                else st_usageToday (store s)))
            s).

(** The number of nudges sent so far. *)
Fixpoint nudgeCount (l : list Effect) : nat :=
  match l with
  | [] => 0%nat
  | SHOW_NUDGE _ :: r => S (nudgeCount r)
  | _ :: r => nudgeCount r
  end.

(** ** Derived definitions used by the statements below *)

Definition nudgeGuard (st : Settings) (fl : Flags) : bool :=
  enabled st && allowSnooze st && negb (nudged fl) && negb (pausedToday fl)
  && negb (snoozed fl) && negb (locked fl).

Definition limitGuard (st : Settings) (fl : Flags) (used : Z) : bool :=
  enabled st && negb (locked fl) && negb (pausedToday fl)
  && (effectiveLimitMillis st fl - tickBuffer <=? used).

Definition lockedFlags (st : Settings) (fl : Flags) : Flags :=
  with_frozenTimeUsed (Some (effectiveLimitMillis st fl))
    (with_nudged false (with_locked true fl)).

Definition nudgeFires (st : Settings) (fl : Flags) (used : Z) : bool :=
  negb (snoozed fl) && negb (nudged fl)
  && (4 * effectiveLimitMillis st fl <=? 5 * used) && allowSnooze st.

Definition limitReached (st : Settings) (fl : Flags) (used : Z) : bool :=
  effectiveLimitMillis st fl - tickBuffer <=? used.

(** The flags after a limit check at usage [used], from flags that are
    neither locked nor paused, with the extension enabled. *)
Definition flagsAfterCheck (st : Settings) (fl : Flags) (used : Z) : Flags :=
  let fl1 := if nudgeFires st fl used then with_nudged true fl else fl in
  if limitReached st fl used then lockedFlags st fl1 else fl1.

Definition accumulates (s : State) (now : Z) (idleState : IdleState) : bool :=
  isActive (tk s) && truthyTime (lastTickTime (tk s))
  && (100 <=? now - orElse (lastTickTime (tk s)) 0)
  && negb (isLocked (tk s)) && enabled (settingsOf s)
  && negb (locked (flagsOf s)) && negb (pausedToday (flagsOf s))
  && match idleState with idle_active => true | _ => false end.

(** A run of tick alarms: each with the instant it fires at and what
    [chrome.idle.queryState] reports then. *)
Definition tickEvents (ticks : list (Z * IdleState)) : list Event :=
  map (fun p => ALARM_timekeeper_tick (fst p) (snd p)) ticks.


(** ** Concrete scenarios

    A worker loaded on 2024-01-01T00:00:00Z over a store that holds only
    the settings, with the extension enabled. *)

Definition exampleLoad : Z := 1704067200000.

Definition exampleSettings (limitMin cooldown : Z) (snooze : bool) : Settings :=
  mkSettings limitMin 4 softlock snooze None cooldown true.

Definition exampleWorker (st : Settings) : State :=
  workerLoaded (mkStore (Some st) None None) exampleLoad 60000.

(** An X tab is active in the focused window. *)
Definition onX : TabEnv := mkEnv true true false.

(** [n] ticks, [period] milliseconds apart, the first one [period] after
    [from], with the user active. *)
Definition ticksFrom (from period : Z) (n : nat) : list (Z * IdleState) :=
  map (fun i => (from + period * Z.of_nat i, idle_active)) (seq 1 n).

(** The worker tracking an X tab, one second after it was loaded. *)
Definition tracking (st : Settings) : State :=
  run (exampleWorker st)
      [ALARM_daily_reset exampleLoad; UPDATE_TRACKING (exampleLoad + 1000) onX].

(** ** The snooze guard and the pending timers

    [sameSnoozeState s s']: going from [s] to [s'] left the in-progress
    guard of the snooze and the pending snooze timers as they were;
    [keeps m]: the computation [m] always does. *)

Definition sameSnoozeState (s s' : State) : Prop :=
  timers s' = timers s /\
  snoozeInProgress (svc s') = snoozeInProgress (svc s).

Definition keeps {A} (m : M A) : Prop :=
  forall s, sameSnoozeState s (state_of (m s)).

(** The events that neither request a snooze nor fire its timer. *)
Definition otherEvent (ev : Event) : bool :=
  match ev with
  | SNOOZE_REQUEST _ | SNOOZE_TIMEOUT _ => false
  | _ => true
  end.

(** ** The answer of a snooze request

    What [handleSnoozeRequest] returns, read off its guards in order. *)
Definition snoozeVerdict (s : State) (now : Z) : SnoozeResult :=
  if snoozeInProgress (svc s) then Rejected "Snooze in progress"
  else if now - lastSnoozeRequest (svc s) <? 2000 then
    Rejected "Please wait before requesting snooze again"
  else if negb (allowSnooze (settingsOf s)) then Rejected "Snooze not allowed"
  else if snoozed (flagsOf s) || snoozeUsedToday (flagsOf s) then
    Rejected "Snooze already used today"
  else Granted.

(** The flags a granted snooze writes, and those its timer writes. *)
Definition snoozedFlags (fl : Flags) : Flags :=
  with_frozenTimeUsed None
    (with_nudged false
       (with_locked false (with_snoozeUsedToday true (with_snoozed true fl)))).

Definition cooldownElapsedFlags (cooldownMs : Z) (fl : Flags) : Flags :=
  with_frozenTimeUsed (Some cooldownMs)
    (with_nudged false (with_locked true (with_snoozed false fl))).

(** The invariant of a session: at most one snooze timer is pending, and
    while one is the in-progress guard is held. *)
Definition timerInv (s : State) : Prop :=
  timers s = [] \/
  (snoozeInProgress (svc s) = true /\ exists x, timers s = [x]).

(** ** The library copy of the daily reset

    [src/lib/storage.js] keeps its own [checkDailyReset], which also resets
    the in-memory counter when a global [timekeeper] exists
    ([timekeeperDefined]).  It is modelled with no write back-off in force,
    where the library's [get] and [set] behave as the worker's. *)
Module LibStorage.

Definition checkDailyReset (timekeeperDefined : bool) (now : Z) : M bool :=
  usage <- storage.getUsageToday ;;
  let currentDateKey := getDateKey now in
  if negb (String.eqb (dateKey usage) currentDateKey) then
    ls <- gets loadTime ;;
    storage.setUsageToday (mkUsage (millisActive (DEFAULT_USAGE ls))
                                   (lastTickAt (DEFAULT_USAGE ls)) currentDateKey) ;;
    storage.setFlags
      (with_pausedToday false
         (with_nudged false
            (with_locked false
               (with_snoozed false (with_snoozeUsedToday false DEFAULT_FLAGS))))) ;;
    when timekeeperDefined
         (tkSet (with_currentUsageMs 0) ;;
          tkSet (with_isInitialized true)) ;;
    ret true
  else ret false.

End LibStorage.

(** Whether an UPDATE_SETTINGS message changes the cooldown:
    [message.settings.cooldownMin !== undefined &&
     oldSettings.cooldownMin !== message.settings.cooldownMin]. *)
Definition cooldownChanged (patch : SettingsPatch) (st : Settings) : bool :=
  match p_cooldownMin patch with
  | Some c => negb (cooldownMin st =? c)
  | None => false
  end.

(** A message that sets only the daily limit, or the daily limit and the
    cooldown. *)
Definition limitPatch (n : Z) : SettingsPatch :=
  mkPatch (Some n) None None None None None.
Definition limitAndCooldownPatch (n c : Z) : SettingsPatch :=
  mkPatch (Some n) None None None (Some c) None.

(** ** Runs of ticks with the user active *)

(** Each instant is at least 100 ms after the one before, the first one
    after [a]. *)
Fixpoint spacedFrom (a : Z) (ts : list Z) : Prop :=
  match ts with
  | [] => True
  | t :: r => 100 <= t - a /\ spacedFrom t r
  end.

Definition activeTicks (ts : list Z) : list (Z * IdleState) :=
  map (fun t => (t, idle_active)) ts.

(** ** What the clock's operations leave alone

    [sameCounter s s']: going from [s] to [s'] left the stored records, the
    usage counter and the in-memory pause and lock as they were; only the
    running state of the clock (active, anchor, alarm, debounce stamps) and
    the service's bookkeeping may differ. *)
Definition sameCounter (s s' : State) : Prop :=
  settingsOf s' = settingsOf s /\ flagsOf s' = flagsOf s /\
  usageOf s' = usageOf s /\
  currentUsageMs (tk s') = currentUsageMs (tk s) /\
  isPaused (tk s') = isPaused (tk s) /\
  isLocked (tk s') = isLocked (tk s) /\
  isInitialized (tk s') = isInitialized (tk s).

(** ** The time remaining of a status report *)

(** The [timeRemaining] object; [limit] and [frozen] are absent from the
    object returned while paused. *)
Record TimeRemaining := mkTimeRemaining {
  remaining : Z;
  used : Z;
  limit : option Z;
  frozen : option bool
}.

(** [TwitterTimeLimitService.getTimeRemainingWithRealTime] *)
Definition getTimeRemainingWithRealTime (realTimeUsage : Z)
    (settings : Settings) (flags : Flags) : TimeRemaining :=
  if pausedToday flags then
    mkTimeRemaining (dailyLimitMin settings * 60 * 1000) 0 None None
  else
    let effectiveLimitMillis :=
      if snoozed flags then cooldownMinutes settings * 60 * 1000
      else dailyLimitMin settings * 60 * 1000 in
    let remaining := Z.max 0 (effectiveLimitMillis - realTimeUsage) in
    if locked flags then
      mkTimeRemaining remaining realTimeUsage (Some effectiveLimitMillis)
                      (Some true)
    else
      mkTimeRemaining remaining realTimeUsage (Some effectiveLimitMillis)
                      (Some false).

(** [TimeKeeper.getTimeRemaining]: the same report over the stored usage. *)
Definition getTimeRemaining : M TimeRemaining :=
  fresh <- timekeeper.getFreshData ;;
  let '(settings, flags, usage) := fresh in
  if pausedToday flags then
    ret (mkTimeRemaining (dailyLimitMin settings * 60 * 1000) 0 None None)
  else
    let effectiveLimitMillis :=
      if snoozed flags then cooldownMinutes settings * 60 * 1000
      else dailyLimitMin settings * 60 * 1000 in
    let remaining := Z.max 0 (effectiveLimitMillis - millisActive usage) in
    if locked flags then
      ret (mkTimeRemaining remaining (millisActive usage)
                           (Some effectiveLimitMillis) (Some true))
    else
      ret (mkTimeRemaining remaining (millisActive usage)
                           (Some effectiveLimitMillis) (Some false)).

(** The [timeRemaining] that [getStatus] computes at [now] when its 100 ms
    cache does not answer. *)
Definition getStatus_timeRemaining (now : Z) : M TimeRemaining :=
  settings <- storage.getSettings ;;
  storage.getUsageToday ;;
  flags <- storage.getFlags ;;
  t <- gets tk ;;
  ret (getTimeRemainingWithRealTime
         (timekeeper.getCurrentRealTimeUsage now t) settings flags).

(** ** Delivery of a message to a tab

    [ensureContentScriptAndSendMessage]: what the tab does is given by the
    outcome of each [chrome.tabs.sendMessage] attempt and of the two
    injection calls; the function's own steps are logged as actions. *)

Module Delivery.

Inductive SendResult :=
| Delivered
| NoReceivingEnd     (* rejected: 'Receiving end does not exist' *)
| OtherError.

Inductive Action :=
| Delay (ms : Z)
| SendMessage
| ExecuteScript
| InsertCSS.

Record Tab := mkTab {
  sendResult : nat -> SendResult;
  executeScriptOk : bool;
  insertCSSOk : bool
}.

Definition maxRetries : nat := 3.
Definition delays : list Z := [0; 1000; 2000].

(** The inner [try] of the [catch] block: the wait follows only when both
    injection calls succeed. *)
Definition inject (tab : Tab) : list Action :=
  ExecuteScript ::
  (if executeScriptOk tab
   then InsertCSS :: (if insertCSSOk tab then [Delay 1000] else [])
   else []).

(** The [for] loop from index [i], with [n] iterations left; the boolean
    tells whether the message was delivered. *)
Fixpoint attempts (tab : Tab) (n i : nat) : list Action * bool :=
  match n with
  | O => ([], false)
  | S n' =>
      let d := nth i delays 0 in
      let wait := if 0 <? d then [Delay d] else [] in
      match sendResult tab i with
      | Delivered => ((wait ++ [SendMessage])%list, true)
      | r =>
          let injected :=
            match r, i with
            | NoReceivingEnd, O => inject tab
            | _, _ => []
            end in
          let '(rest, ok) := attempts tab n' (S i) in
          ((wait ++ SendMessage :: injected ++ rest)%list, ok)
      end
  end.

(** [pendingMessages], a set of keys [tabId-type]. *)
Definition has (key : string) (pending : list string) : bool :=
  existsb (String.eqb key) pending.
Definition add (key : string) (pending : list string) : list string :=
  if has key pending then pending else (pending ++ [key])%list.
Definition delete (key : string) (pending : list string) : list string :=
  filter (fun k => negb (String.eqb key k)) pending.

Definition ensureContentScriptAndSendMessage (tab : Tab) (key : string)
    (pending : list string) : list Action * bool * list string :=
  if has key pending then ([], false, pending)
  else
    let pending1 := add key pending in
    let '(actions, ok) := attempts tab maxRetries 0 in
    (actions, ok, delete key pending1).

Fixpoint countSends (l : list Action) : nat :=
  match l with
  | [] => O
  | SendMessage :: r => S (countSends r)
  | _ :: r => countSends r
  end.

Fixpoint countInjections (l : list Action) : nat :=
  match l with
  | [] => O
  | ExecuteScript :: r => S (countInjections r)
  | _ :: r => countInjections r
  end.

Fixpoint totalDelay (l : list Action) : Z :=
  match l with
  | [] => 0
  | Delay ms :: r => ms + totalDelay r
  | _ :: r => totalDelay r
  end.

End Delivery.

(** ** Consistency of the stored flags

    [flagsOk]: a lock comes with the frozen usage the popup displays for it,
    and a running snooze is marked as the day's snooze.  [hoare m Q]: from a
    state whose flags are consistent, [m] ends, by return or by exception, in
    a state whose flags are consistent, and a returned value satisfies [Q]. *)
Definition flagsOk (fl : Flags) : Prop :=
  (locked fl = true -> frozenTimeUsed fl <> None) /\
  (snoozed fl = true -> snoozeUsedToday fl = true).

Definition flagsInv (s : State) : Prop := flagsOk (flagsOf s).

Definition hoare {A} (m : M A) (Q : A -> Prop) : Prop :=
  forall s, flagsInv s ->
    match m s with
    | Ok a s' => flagsInv s' /\ Q a
    | Throw _ s' => flagsInv s'
    end.

(** The flags a settings update is about to write are consistent. *)
Definition pendingOk {A} (r : A * option Flags) : Prop :=
  forall f, snd r = Some f -> flagsOk f.

(** * Properties *)

(** ** Symbolic execution of handlers *)

Lemma getSettings_eq s :
  storage.getSettings s
  = Ok (settingsOf s) (set_store (with_settings (Some (settingsOf s))) s).
Proof. destruct s as [[[x|] ? ?] ? ? ? ? ?]; reflexivity. Qed.

Lemma getFlags_eq s :
  storage.getFlags s
  = Ok (flagsOf s) (set_store (with_flags (Some (flagsOf s))) s).
Proof. destruct s as [[? ? [x|]] ? ? ? ? ?]; reflexivity. Qed.

Lemma getUsageToday_eq s :
  storage.getUsageToday s
  = Ok (usageOf s) (set_store (with_usageToday (Some (usageOf s))) s).
Proof. destruct s as [[? [x|] ?] ? ? ? ? ?]; reflexivity. Qed.

Ltac bool_to_prop :=
  repeat match goal with
  | H : (_ <? _) = true |- _ => apply Z.ltb_lt in H
  | H : (_ <? _) = false |- _ => apply Z.ltb_ge in H
  | H : (_ <=? _) = true |- _ => apply Z.leb_le in H
  | H : (_ <=? _) = false |- _ => apply Z.leb_gt in H
  | H : (_ =? _) = true |- _ => apply Z.eqb_eq in H
  | H : (_ =? _) = false |- _ => apply Z.eqb_neq in H
  end.

(** Reduction of the monad's combinators and of record projections over
    record updates; arithmetic is left alone. *)
Ltac red_fields :=
  cbn [store tk svc timers effects loadTime st_settings st_usageToday st_flags
       set_store set_tk set_svc set_timers add_effect
       with_settings with_usageToday with_flags
       isActive lastTickTime tickInterval usageSaveInterval lastUsageSave
       currentUsageMs isInitialized isPaused isLocked lastActiveChange
       startInProgress stopInProgress writeBackoffUntil
       with_isActive with_lastTickTime with_tickInterval with_lastUsageSave
       with_currentUsageMs with_isInitialized with_isPaused with_isLocked
       with_lastActiveChange with_startInProgress with_stopInProgress
       with_writeBackoffUntil
       isTracking lastPauseToggle lastSettingsUpdate updateTrackingInProgress
       pauseInProgress resetInProgress lastSnoozeRequest snoozeInProgress
       lastResetRequestAt suppressStopUntil
       with_isTracking with_lastPauseToggle with_lastSettingsUpdate
       with_updateTrackingInProgress with_pauseInProgress with_resetInProgress
       with_lastSnoozeRequest with_snoozeInProgress with_lastResetRequestAt
       with_suppressStopUntil
       nudged locked pausedToday snoozed snoozeUsedToday frozenTimeUsed
       with_nudged with_locked with_pausedToday with_snoozed
       with_snoozeUsedToday with_frozenTimeUsed
       millisActive lastTickAt dateKey
       dailyLimitMin resetHourLocal mode allowSnooze passcodeHash cooldownMin enabled
       due cooldownMs fst snd
       orElse negb andb orb stopped].

Ltac red_monad :=
  cbv beta iota delta [bind ret gets modify when tkSet svcSet emit throw
                       try_catch try_finally exec state_of
                       storage.updateFlags storage.updateUsageToday
                       storage.setFlags storage.setUsageToday storage.setSettings];
  red_fields.

Ltac getters :=
  repeat first [ rewrite getSettings_eq | rewrite getFlags_eq
               | rewrite getUsageToday_eq ].

Ltac hyp_rewrite :=
  repeat match goal with
  | H : ?x = ?v |- context [?x] =>
      lazymatch v with
      | true => idtac | false => idtac | Some _ => idtac | None => idtac
      end;
      lazymatch x with
      | true => fail | false => fail | Some _ => fail | None => fail
      | _ => rewrite H
      end
  end.

Ltac views := unfold settingsOf, flagsOf, usageOf in *.

Ltac js := views; repeat (progress (red_monad; getters; views; hyp_rewrite)).

(** Settle a comparison from the arithmetic hypotheses. *)
Ltac decide_cmp :=
  repeat match goal with
  | |- context [?a <? ?b] =>
      first [ replace (a <? b) with true by (symmetry; apply Z.ltb_lt; lia)
            | replace (a <? b) with false by (symmetry; apply Z.ltb_ge; lia) ]
  | |- context [?a <=? ?b] =>
      first [ replace (a <=? b) with true by (symmetry; apply Z.leb_le; lia)
            | replace (a <=? b) with false by (symmetry; apply Z.leb_gt; lia) ]
  | |- context [?a =? ?b] =>
      first [ replace (a =? b) with true by (symmetry; apply Z.eqb_eq; lia)
            | replace (a =? b) with false by (symmetry; apply Z.eqb_neq; lia) ]
  end.

Lemma stop_eq now s :
  stopInProgress (tk s) = false ->
  timekeeper.stop now s = Ok tt (stopped now s).
Proof.
  destruct s as [[se us fl] t c tm ef lt].
  destruct t as [ia ltt ti usi lus cur ini pau lck lac sip stp wbu].
  cbn; intros ->.
  unfold timekeeper.stop, stopped; js.
  destruct ti; destruct (0 <? cur); js; reflexivity.
Qed.

Lemma stop_busy now s :
  stopInProgress (tk s) = true -> timekeeper.stop now s = Ok tt s.
Proof. intros H. unfold timekeeper.stop; js. reflexivity. Qed.

Lemma nudgeCount_app l e :
  nudgeCount (l ++ [e])
  = (nudgeCount l + match e with SHOW_NUDGE _ => 1 | _ => 0 end)%nat.
Proof.
  induction l as [|x l IH]; cbn [app nudgeCount].
  - destruct e; reflexivity.
  - destruct x; rewrite IH; reflexivity.
Qed.

(** *** TimeKeeper.triggerNudge *)

Lemma triggerNudge_spec s :
  exists s',
    timekeeper.triggerNudge s = Ok tt s' /\
    settingsOf s' = settingsOf s /\ usageOf s' = usageOf s /\
    tk s' = tk s /\ svc s' = svc s /\ timers s' = timers s /\
    flagsOf s' = (if nudgeGuard (settingsOf s) (flagsOf s)
                  then with_nudged true (flagsOf s) else flagsOf s) /\
    nudgeCount (effects s')
    = (nudgeCount (effects s)
       + if nudgeGuard (settingsOf s) (flagsOf s) then 1 else 0)%nat.
Proof.
  unfold timekeeper.triggerNudge, nudgeGuard. js.
  set (st := orElse (st_settings (store s)) DEFAULT_SETTINGS).
  set (fl := orElse (st_flags (store s)) DEFAULT_FLAGS).
  assert (G : negb (enabled st) || negb (allowSnooze st) || nudged fl
              || pausedToday fl || snoozed fl || locked fl
              = negb (enabled st && allowSnooze st && negb (nudged fl)
                      && negb (pausedToday fl) && negb (snoozed fl)
                      && negb (locked fl))).
  { destruct (enabled st), (allowSnooze st), (nudged fl), (pausedToday fl),
      (snoozed fl), (locked fl); reflexivity. }
  rewrite G; clear G.
  destruct (enabled st && allowSnooze st && negb (nudged fl)
            && negb (pausedToday fl) && negb (snoozed fl) && negb (locked fl));
    js; eexists; (split; [reflexivity|]); js;
    rewrite ?nudgeCount_app, ?Nat.add_0_r; repeat split; reflexivity.
Qed.

(** *** TimeKeeper.triggerLimit *)

Lemma triggerLimit_spec now s :
  let go := limitGuard (settingsOf s) (flagsOf s) (currentUsageMs (tk s)) in
  exists s',
    timekeeper.triggerLimit now s = Ok tt s' /\
    settingsOf s' = settingsOf s /\
    svc s' = svc s /\ timers s' = timers s /\
    nudgeCount (effects s') = nudgeCount (effects s) /\
    currentUsageMs (tk s') = currentUsageMs (tk s) /\
    flagsOf s' = (if go then lockedFlags (settingsOf s) (flagsOf s) else flagsOf s) /\
    isLocked (tk s') = (if go then true else isLocked (tk s)) /\
    (go = true -> stopInProgress (tk s) = false ->
       tickInterval (tk s') = false /\ isActive (tk s') = false
       /\ lastTickTime (tk s') = None) /\
    (go = false -> tk s' = tk s).
Proof.
  unfold timekeeper.triggerLimit, limitGuard, lockedFlags. js.
  set (st := orElse (st_settings (store s)) DEFAULT_SETTINGS).
  set (fl := orElse (st_flags (store s)) DEFAULT_FLAGS).
  assert (G : negb (enabled st) || locked fl || pausedToday fl
              = negb (enabled st && negb (locked fl) && negb (pausedToday fl))).
  { destruct (enabled st), (locked fl), (pausedToday fl); reflexivity. }
  rewrite G; clear G.
  destruct (enabled st && negb (locked fl) && negb (pausedToday fl)); js.
  2:{ eexists; (split; [reflexivity|]); js. repeat split; try reflexivity; discriminate. }
  destruct (effectiveLimitMillis st fl - tickBuffer <=? currentUsageMs (tk s)); js.
  2:{ eexists; (split; [reflexivity|]); js. repeat split; try reflexivity; discriminate. }
  destruct (stopInProgress (tk s)) eqn:Hs.
  - rewrite stop_busy by (red_fields; assumption). js.
    destruct (mode st); js; eexists; (split; [reflexivity|]); js;
      rewrite ?nudgeCount_app, ?Nat.add_0_r; repeat split; try reflexivity;
      discriminate.
  - rewrite stop_eq by (red_fields; assumption). js.
    destruct (mode st); js; eexists; (split; [reflexivity|]); js;
      rewrite ?nudgeCount_app, ?Nat.add_0_r; repeat split; try reflexivity;
      discriminate.
Qed.

(** *** TimeKeeper.checkLimits and TimeKeeper.tick *)

Lemma effectiveLimit_nudged st fl b :
  effectiveLimitMillis st (with_nudged b fl) = effectiveLimitMillis st fl.
Proof. reflexivity. Qed.

Lemma checkLimits_spec usage now s :
  enabled (settingsOf s) = true ->
  pausedToday (flagsOf s) = false ->
  locked (flagsOf s) = false ->
  currentUsageMs (tk s) = millisActive usage ->
  exists s',
    timekeeper.checkLimits usage now s = Ok tt s' /\
    settingsOf s' = settingsOf s /\
    svc s' = svc s /\ timers s' = timers s /\
    currentUsageMs (tk s') = currentUsageMs (tk s) /\
    flagsOf s' = flagsAfterCheck (settingsOf s) (flagsOf s) (millisActive usage) /\
    nudgeCount (effects s')
    = (nudgeCount (effects s)
       + if nudgeFires (settingsOf s) (flagsOf s) (millisActive usage)
         then 1 else 0)%nat /\
    isLocked (tk s')
    = (if limitReached (settingsOf s) (flagsOf s) (millisActive usage)
       then true else isLocked (tk s)) /\
    (limitReached (settingsOf s) (flagsOf s) (millisActive usage) = true ->
     stopInProgress (tk s) = false ->
       tickInterval (tk s') = false /\ isActive (tk s') = false
       /\ lastTickTime (tk s') = None) /\
    (limitReached (settingsOf s) (flagsOf s) (millisActive usage) = false ->
     tk s' = tk s).
Proof.
  intros He Hp Hl Hu.
  unfold timekeeper.checkLimits, timekeeper.getFreshData, flagsAfterCheck,
    limitReached.
  js.
  set (st := orElse (st_settings (store s)) DEFAULT_SETTINGS) in *.
  set (fl := orElse (st_flags (store s)) DEFAULT_FLAGS) in *.
  set (s0 := set_store _ (set_store _ (set_store _ s))).
  assert (Hs0 : settingsOf s0 = st /\ flagsOf s0 = fl /\ tk s0 = tk s
                /\ svc s0 = svc s /\ timers s0 = timers s
                /\ effects s0 = effects s).
  { subst s0; repeat split. }
  destruct Hs0 as (Hst & Hfl & Htk & Hsvc & Htm & Hef).
  clearbody s0.
  set (fires := nudgeFires st fl (millisActive usage)).
  (* the nudge *)
  assert (N : exists s1,
             (if snoozed fl then ret tt
              else when (negb (nudged fl)
                         && (4 * effectiveLimitMillis st fl <=? 5 * millisActive usage))
                        timekeeper.triggerNudge) s0 = Ok tt s1 /\
             settingsOf s1 = st /\ tk s1 = tk s /\ svc s1 = svc s
             /\ timers s1 = timers s /\
             flagsOf s1 = (if fires then with_nudged true fl else fl) /\
             nudgeCount (effects s1)
             = (nudgeCount (effects s) + if fires then 1 else 0)%nat).
  { subst fires; unfold nudgeFires.
    destruct (snoozed fl) eqn:Hsn.
    - exists s0. cbn [negb andb]. rewrite Nat.add_0_r, Hef. repeat split; auto.
    - cbn [negb andb]. unfold when.
      destruct (negb (nudged fl)) eqn:Hn; cbn [andb].
      2:{ exists s0. rewrite Nat.add_0_r, Hef. repeat split; auto. }
      destruct (4 * effectiveLimitMillis st fl <=? 5 * millisActive usage); cbn [andb].
      2:{ exists s0. rewrite Nat.add_0_r, Hef. repeat split; auto. }
      destruct (triggerNudge_spec s0) as (s1 & E & A1 & A2 & A3 & A4 & A5 & A6 & A7).
      exists s1. rewrite E, A1, A3, A4, A5, A6, A7, Hst, Hfl, Htk, Hsvc, Htm, Hef.
      unfold nudgeGuard. rewrite He, Hp, Hl, Hsn.
      apply negb_true_iff in Hn. rewrite Hn. cbn [negb andb].
      destruct (allowSnooze st); repeat split. }
  destruct N as (s1 & E1 & B1 & B2 & B3 & B4 & B5 & B6).
  cbv beta iota delta [ret when] in E1. rewrite E1. cbv beta iota.
  destruct (effectiveLimitMillis st fl - tickBuffer <=? millisActive usage) eqn:Hlim.
  - destruct (triggerLimit_spec now s1)
      as (s2 & E2 & C1 & C2 & C3 & C4 & C5 & C6 & C7 & C8 & C9).
    assert (G : limitGuard (settingsOf s1) (flagsOf s1) (currentUsageMs (tk s1)) = true).
    { unfold limitGuard. rewrite B1, B5, B2, Hu, He.
      destruct fires; red_fields; rewrite ?effectiveLimit_nudged, Hl, Hp, Hlim;
        reflexivity. }
    rewrite G in *. views.
    exists s2. rewrite E2, C1, C2, C3, C4, C5, C6, C7, B1, B2, B3, B4, B5, B6.
    repeat split; auto; try discriminate;
      try (apply C8; [reflexivity | rewrite B2; assumption]).
  - views. exists s1. rewrite B1, B2, B3, B4, B5, B6.
    repeat split; auto; discriminate.
Qed.



Lemma tick_accumulate now idleState s :
  accumulates s now idleState = true ->
  let used := currentUsageMs (tk s) + (now - orElse (lastTickTime (tk s)) 0) in
  exists s',
    timekeeper.tick now idleState s = Ok tt s' /\
    settingsOf s' = settingsOf s /\
    svc s' = svc s /\ timers s' = timers s /\
    currentUsageMs (tk s') = used /\
    flagsOf s' = flagsAfterCheck (settingsOf s) (flagsOf s) used /\
    nudgeCount (effects s')
    = (nudgeCount (effects s)
       + if nudgeFires (settingsOf s) (flagsOf s) used then 1 else 0)%nat /\
    isLocked (tk s') = limitReached (settingsOf s) (flagsOf s) used /\
    (limitReached (settingsOf s) (flagsOf s) used = true ->
     stopInProgress (tk s) = false ->
       tickInterval (tk s') = false /\ isActive (tk s') = false
       /\ lastTickTime (tk s') = None).
Proof.
  unfold accumulates. intros H.
  repeat (apply andb_true_iff in H; destruct H as [H ?]).
  destruct idleState; try discriminate.
  match goal with X : negb (isLocked _) = true |- _ => apply negb_true_iff in X end.
  match goal with X : negb (locked _) = true |- _ => apply negb_true_iff in X end.
  match goal with X : negb (pausedToday _) = true |- _ => apply negb_true_iff in X end.
  match goal with X : (100 <=? _) = true |- _ =>
    assert (D : (now - orElse (lastTickTime (tk s)) 0 <? 100) = false)
      by (apply Z.ltb_ge; apply Z.leb_le in X; exact X) end.
  unfold timekeeper.tick, timekeeper.getFreshData. js.
  set (st := orElse (st_settings (store s)) DEFAULT_SETTINGS) in *.
  set (fl := orElse (st_flags (store s)) DEFAULT_FLAGS) in *.
  destruct ((writeBackoffUntil (tk s) <=? now)
            && (usageSaveInterval (tk s) <=? now - lastUsageSave (tk s))); js.
  all: match goal with |- context [timekeeper.checkLimits ?u ?n ?s0] =>
         destruct (checkLimits_spec u n s0)
           as (s1 & E & A);
         [ views; red_fields; first [assumption | reflexivity] .. | ]
       end.
  all: rewrite E; exists s1; revert A; views; red_fields; fold st; fold fl.
  all: match goal with X : isLocked _ = false |- _ => rewrite ?X end.
  all: intros (A1 & A2 & A3 & A4 & A5 & A6 & A7 & A8 & A9).
  all: rewrite A1, A2, A3, A4, A5, A6, A7.
  all: repeat split; auto.
  all: try (apply A8; assumption).
  all: destruct (limitReached st fl _); reflexivity.
Qed.

Lemma tick_skip now idleState s :
  accumulates s now idleState = false ->
  exists s',
    timekeeper.tick now idleState s = Ok tt s' /\
    settingsOf s' = settingsOf s /\ flagsOf s' = flagsOf s /\
    usageOf s' = usageOf s /\
    svc s' = svc s /\ timers s' = timers s /\ effects s' = effects s /\
    (tk s' = tk s \/ tk s' = with_lastTickTime (Some now) (tk s)).
Proof.
  unfold accumulates. intros H.
  unfold timekeeper.tick, timekeeper.getFreshData. js.
  destruct (isActive (tk s)); js.
  2:{ eexists; split; [reflexivity|]. repeat split; auto. }
  destruct (truthyTime (lastTickTime (tk s))); js.
  2:{ eexists; split; [reflexivity|]. repeat split; auto. }
  destruct (now - orElse (lastTickTime (tk s)) 0 <? 100) eqn:D; js.
  { eexists; split; [reflexivity|]. repeat split; auto. }
  assert (D' : (100 <=? now - orElse (lastTickTime (tk s)) 0) = true)
    by (apply Z.leb_le; apply Z.ltb_ge in D; exact D).
  rewrite D' in H. cbn [andb] in H.
  destruct (isLocked (tk s)); js.
  { eexists; split; [reflexivity|]. js. repeat split; auto. }
  destruct (enabled (orElse (st_settings (store s)) DEFAULT_SETTINGS)); js.
  2:{ eexists; split; [reflexivity|]. js. repeat split; auto. }
  destruct (locked (orElse (st_flags (store s)) DEFAULT_FLAGS)); js.
  { eexists; split; [reflexivity|]. js. repeat split; auto. }
  destruct (pausedToday (orElse (st_flags (store s)) DEFAULT_FLAGS)); js.
  { eexists; split; [reflexivity|]. js. repeat split; auto. }
  cbn [negb andb] in H.
  destruct idleState; try discriminate;
    (eexists; split; [reflexivity|]; js; repeat split; auto).
Qed.

(** Discharging the hypotheses of a statement at a concrete input, by
    evaluation. *)
Ltac discharge H :=
  repeat match type of H with
  | ?A -> _ =>
      let X := fresh in
      assert (X : A) by (vm_compute; first [reflexivity | discriminate]);
      specialize (H X); clear X
  end.

(** *** Runs of ticks *)

Lemma next_tick s now idleState :
  next s (ALARM_timekeeper_tick now idleState)
  = exec (timekeeper.tick now idleState) s.
Proof.
  unfold next, step, handleEvent, exec, bind, ret.
  destruct (timekeeper.tick now idleState s); reflexivity.
Qed.

Lemma accumulates_delta s now idleState :
  accumulates s now idleState = true ->
  100 <= now - orElse (lastTickTime (tk s)) 0.
Proof.
  unfold accumulates. intros H.
  repeat (apply andb_true_iff in H; destruct H as [H ?]).
  match goal with X : (100 <=? _) = true |- _ => apply Z.leb_le in X; exact X end.
Qed.




(** *** C3: the lock at the effective limit *)

(** C3.  Whenever a tick brings the accumulated usage to the effective limit
    minus the 2000 ms tick buffer (extension enabled, not paused, not already
    locked, the user not idle), the limit check of that tick locks: the
    [locked] flag is set, the frozen usage is exactly the effective limit and
    the clock is stopped.  For a daily limit of one minute outside a snooze
    the frozen value is 60000. *)
Theorem C3_tick_locks_at_effective_limit (s : State) (now l : Z) :
  enabled (settingsOf s) = true ->
  pausedToday (flagsOf s) = false ->
  locked (flagsOf s) = false ->
  isLocked (tk s) = false ->
  isActive (tk s) = true ->
  lastTickTime (tk s) = Some l -> l <> 0 ->
  100 <= now - l ->
  effectiveLimitMillis (settingsOf s) (flagsOf s) - tickBuffer
    <= currentUsageMs (tk s) + (now - l) ->
  exists s',
    timekeeper.tick now idle_active s = Ok tt s' /\
    locked (flagsOf s') = true /\
    frozenTimeUsed (flagsOf s')
    = Some (effectiveLimitMillis (settingsOf s) (flagsOf s)) /\
    isLocked (tk s') = true /\
    currentUsageMs (tk s') = currentUsageMs (tk s) + (now - l) /\
    (stopInProgress (tk s) = false ->
       tickInterval (tk s') = false /\ isActive (tk s') = false) /\
    (dailyLimitMin (settingsOf s) = 1 -> snoozed (flagsOf s) = false ->
       frozenTimeUsed (flagsOf s') = Some 60000).
Proof.
  intros He Hp Hl Hil Ha Hlt Hl0 Hd Hlim.
  assert (Hacc : accumulates s now idle_active = true).
  { unfold accumulates. rewrite Ha, Hlt, Hil, He, Hl, Hp. cbn [truthyTime orElse].
    apply Z.eqb_neq in Hl0. rewrite Hl0.
    apply Z.leb_le in Hd. rewrite Hd. reflexivity. }
  destruct (tick_accumulate now idle_active s Hacc)
    as (s' & E & A1 & A2 & A3 & A4 & A5 & A6 & A7 & A8).
  rewrite Hlt in *. cbn [orElse] in *.
  assert (Hreach : limitReached (settingsOf s) (flagsOf s)
                     (currentUsageMs (tk s) + (now - l)) = true)
    by (apply Z.leb_le; exact Hlim).
  exists s'. rewrite A5, A7, A4. unfold flagsAfterCheck. rewrite Hreach.
  assert (Hfrozen :
    frozenTimeUsed
      (lockedFlags (settingsOf s)
         (if nudgeFires (settingsOf s) (flagsOf s) (currentUsageMs (tk s) + (now - l))
          then with_nudged true (flagsOf s) else flagsOf s))
    = Some (effectiveLimitMillis (settingsOf s) (flagsOf s))).
  { destruct (nudgeFires _ _ _); reflexivity. }
  rewrite Hfrozen.
  split; [exact E|]. do 4 (split; [reflexivity|]). split.
  - intros Hs. split; apply (A8 Hreach Hs).
  - intros H1 Hsn. unfold effectiveLimitMillis. rewrite Hsn, H1. reflexivity.
Qed.

(** A one minute limit, 57 s on the counter, and a tick one second later. *)
Lemma C3_witness :
  exists s',
    timekeeper.tick (exampleLoad + 59000) idle_active
      (run (tracking (exampleSettings 1 5 true))
           (tickEvents (ticksFrom (exampleLoad + 1000) 1000 57)))
    = Ok tt s' /\
    locked (flagsOf s') = true /\ frozenTimeUsed (flagsOf s') = Some 60000.
Proof.
  pose proof (C3_tick_locks_at_effective_limit
              (run (tracking (exampleSettings 1 5 true))
                   (tickEvents (ticksFrom (exampleLoad + 1000) 1000 57)))
              (exampleLoad + 59000) (exampleLoad + 58000)) as H.
  discharge H.
  destruct H as (s' & E & A1 & A2 & A3 & A4 & A5 & A6).
  exists s'. split; [exact E|]. split; [exact A1|].
  apply A6; vm_compute; reflexivity.
Defined.

(** The scenario of the specification, run from a freshly loaded worker:
    58 one-second ticks under a one minute limit. *)
Example one_minute_limit_run :
  let s := run (tracking (exampleSettings 1 5 true))
               (tickEvents (ticksFrom (exampleLoad + 1000) 1000 58)) in
  currentUsageMs (tk s) = 58000 /\ locked (flagsOf s) = true
  /\ frozenTimeUsed (flagsOf s) = Some 60000 /\ isLocked (tk s) = true
  /\ tickInterval (tk s) = false.
Proof. vm_compute. repeat split. Qed.

(** *** C8: the nudge *)




(** *** Handlers that leave the snooze guard and the timers alone *)

Lemma sameSnoozeState_refl s : sameSnoozeState s s.
Proof. split; reflexivity. Qed.

Lemma sameSnoozeState_trans s1 s2 s3 :
  sameSnoozeState s1 s2 -> sameSnoozeState s2 s3 -> sameSnoozeState s1 s3.
Proof. intros [A B] [C D]. split; congruence. Qed.

Lemma keeps_ret {A} (a : A) : keeps (ret a).
Proof. intro s. apply sameSnoozeState_refl. Qed.

Lemma keeps_throw {A} e : keeps (@throw A e).
Proof. intro s. apply sameSnoozeState_refl. Qed.

Lemma keeps_gets {A} (f : State -> A) : keeps (gets f).
Proof. intro s. apply sameSnoozeState_refl. Qed.

Lemma keeps_bind {A B} (m : M A) (k : A -> M B) :
  keeps m -> (forall a, keeps (k a)) -> keeps (bind m k).
Proof.
  intros Hm Hk s. unfold bind. specialize (Hm s).
  destruct (m s) as [a s1 | e s1]; cbn [state_of] in *.
  - eapply sameSnoozeState_trans; [exact Hm | apply Hk].
  - exact Hm.
Qed.

Lemma keeps_when b m : keeps m -> keeps (when b m).
Proof. intros H. destruct b; [exact H | apply keeps_ret]. Qed.

Lemma keeps_try_catch {A} (m : M A) h :
  keeps m -> (forall e, keeps (h e)) -> keeps (try_catch m h).
Proof.
  intros Hm Hh s. unfold try_catch. specialize (Hm s).
  destruct (m s) as [a s1 | e s1]; cbn [state_of] in *.
  - exact Hm.
  - eapply sameSnoozeState_trans; [exact Hm | apply Hh].
Qed.

Lemma keeps_try_finally {A} (m : M A) f :
  keeps m -> keeps f -> keeps (try_finally m f).
Proof.
  intros Hm Hf s. unfold try_finally. specialize (Hm s).
  destruct (m s) as [a s1 | e s1]; cbn [state_of] in *;
    specialize (Hf s1); destruct (f s1); cbn [state_of] in *;
    eapply sameSnoozeState_trans; eassumption.
Qed.

Lemma keeps_tkSet f : keeps (tkSet f).
Proof. intro s. split; reflexivity. Qed.

Lemma keeps_emit e : keeps (emit e).
Proof. intro s. split; reflexivity. Qed.

Lemma keeps_set_store f : keeps (modify (set_store f)).
Proof. intro s. split; reflexivity. Qed.

Lemma keeps_svcSet f :
  (forall c, snoozeInProgress (f c) = snoozeInProgress c) -> keeps (svcSet f).
Proof. intros H s. split; [reflexivity | apply H]. Qed.

Lemma keeps_getSettings : keeps storage.getSettings.
Proof. intro s. rewrite getSettings_eq. split; reflexivity. Qed.

Lemma keeps_getFlags : keeps storage.getFlags.
Proof. intro s. rewrite getFlags_eq. split; reflexivity. Qed.

Lemma keeps_getUsageToday : keeps storage.getUsageToday.
Proof. intro s. rewrite getUsageToday_eq. split; reflexivity. Qed.

Create HintDb keeps.
#[local] Hint Resolve keeps_getSettings keeps_getFlags keeps_getUsageToday : keeps.

(** One step through the syntax of a handler. *)
Ltac keeps_step :=
  lazymatch goal with
  | |- keeps (bind _ _) => apply keeps_bind; [| intro]
  | |- keeps (ret _) => apply keeps_ret
  | |- keeps (throw _) => apply keeps_throw
  | |- keeps (gets _) => apply keeps_gets
  | |- keeps (when _ _) => apply keeps_when
  | |- keeps (try_catch _ _) => apply keeps_try_catch; [| intro]
  | |- keeps (try_finally _ _) => apply keeps_try_finally
  | |- keeps (tkSet _) => apply keeps_tkSet
  | |- keeps (emit _) => apply keeps_emit
  | |- keeps (svcSet _) => apply keeps_svcSet; intro; reflexivity
  | |- keeps (modify (set_store _)) => apply keeps_set_store
  | |- keeps (if ?b then _ else _) => destruct b
  | |- keeps (match ?x with _ => _ end) => destruct x
  | |- keeps _ => solve [auto with keeps]
  end.

Ltac keeps_tac := repeat keeps_step.

Lemma keeps_setSettings v : keeps (storage.setSettings v).
Proof. unfold storage.setSettings. keeps_tac. Qed.
Lemma keeps_setUsageToday v : keeps (storage.setUsageToday v).
Proof. unfold storage.setUsageToday. keeps_tac. Qed.
Lemma keeps_setFlags v : keeps (storage.setFlags v).
Proof. unfold storage.setFlags. keeps_tac. Qed.
#[local] Hint Resolve keeps_setSettings keeps_setUsageToday keeps_setFlags : keeps.

Lemma keeps_updateUsageToday f : keeps (storage.updateUsageToday f).
Proof. unfold storage.updateUsageToday. keeps_tac. Qed.
Lemma keeps_updateFlags f : keeps (storage.updateFlags f).
Proof. unfold storage.updateFlags. keeps_tac. Qed.
Lemma keeps_clear : keeps storage.clear.
Proof. unfold storage.clear. keeps_tac. Qed.
Lemma keeps_checkDailyReset now : keeps (storage.checkDailyReset now).
Proof. unfold storage.checkDailyReset. keeps_tac. Qed.
Lemma keeps_handleSettingsChange o n now :
  keeps (storage.handleSettingsChange o n now).
Proof. unfold storage.handleSettingsChange. keeps_tac. Qed.
#[local] Hint Resolve keeps_updateUsageToday keeps_updateFlags keeps_clear
  keeps_checkDailyReset keeps_handleSettingsChange : keeps.

Lemma keeps_storage_updateSettings f now : keeps (storage.updateSettings f now).
Proof. unfold storage.updateSettings. keeps_tac. Qed.
#[local] Hint Resolve keeps_storage_updateSettings : keeps.

Lemma keeps_validatePasscode p : keeps (rules.validatePasscode p).
Proof. unfold rules.validatePasscode. keeps_tac. Qed.
Lemma keeps_setPasscode p now : keeps (rules.setPasscode p now).
Proof. unfold rules.setPasscode. keeps_tac. Qed.
#[local] Hint Resolve keeps_validatePasscode keeps_setPasscode : keeps.

Lemma keeps_syncWithStorage : keeps timekeeper.syncWithStorage.
Proof. unfold timekeeper.syncWithStorage. keeps_tac. Qed.
Lemma keeps_getFreshData : keeps timekeeper.getFreshData.
Proof. unfold timekeeper.getFreshData. keeps_tac. Qed.
Lemma keeps_stop now : keeps (timekeeper.stop now).
Proof. unfold timekeeper.stop. keeps_tac. Qed.
Lemma keeps_setActive a now : keeps (timekeeper.setActive a now).
Proof. unfold timekeeper.setActive. keeps_tac. Qed.
#[local] Hint Resolve keeps_syncWithStorage keeps_getFreshData keeps_stop
  keeps_setActive : keeps.

Lemma keeps_start now : keeps (timekeeper.start now).
Proof. unfold timekeeper.start. keeps_tac. Qed.
Lemma keeps_triggerNudge : keeps timekeeper.triggerNudge.
Proof. unfold timekeeper.triggerNudge. keeps_tac. Qed.
Lemma keeps_triggerLimit now : keeps (timekeeper.triggerLimit now).
Proof. unfold timekeeper.triggerLimit. keeps_tac. Qed.
#[local] Hint Resolve keeps_start keeps_triggerNudge keeps_triggerLimit : keeps.

Lemma keeps_checkLimits u now : keeps (timekeeper.checkLimits u now).
Proof. unfold timekeeper.checkLimits. keeps_tac. Qed.
#[local] Hint Resolve keeps_checkLimits : keeps.

Lemma keeps_tick now idleState : keeps (timekeeper.tick now idleState).
Proof. unfold timekeeper.tick. keeps_tac. Qed.
#[local] Hint Resolve keeps_tick : keeps.

Lemma keeps_updateTrackingImmediate now env :
  keeps (service.updateTrackingImmediate now env).
Proof.
  unfold service.updateTrackingImmediate, service.updateTrackingBody. keeps_tac.
Qed.
Lemma keeps_clearLockedState : keeps service.clearLockedState.
Proof. unfold service.clearLockedState. keeps_tac. Qed.
Lemma keeps_handleBypassRequest p : keeps (service.handleBypassRequest p).
Proof.
  unfold service.handleBypassRequest, service.global_clearLockedState. keeps_tac.
Qed.
#[local] Hint Resolve keeps_updateTrackingImmediate keeps_clearLockedState
  keeps_handleBypassRequest : keeps.

Lemma keeps_togglePause now env : keeps (service.togglePause now env).
Proof. unfold service.togglePause, service.togglePauseBody. keeps_tac. Qed.
Lemma keeps_manualReset now env : keeps (service.manualReset now env).
Proof. unfold service.manualReset, service.manualResetBody. keeps_tac. Qed.
Lemma keeps_updateSettings now patch r : keeps (Messages.updateSettings now patch r).
Proof.
  unfold Messages.updateSettings, Messages.updateSettingsBody,
    Messages.dailyLimitChange, Messages.cooldownChange, Messages.writeUpdates.
  keeps_tac.
Qed.
#[local] Hint Resolve keeps_togglePause keeps_manualReset keeps_updateSettings : keeps.

(** Every event but a snooze request and the snooze timer leaves the guard
    and the pending timers as they are. *)
Lemma otherEvent_keeps ev s :
  otherEvent ev = true -> sameSnoozeState s (next s ev).
Proof.
  intros H.
  assert (K : keeps (handleEvent ev)).
  { destruct ev; try discriminate; cbn [handleEvent]; keeps_tac. }
  specialize (K s). unfold next, step.
  destruct (handleEvent ev s); exact K.
Qed.

(** *** handleSnoozeRequest and its timer *)

Lemma handleSnoozeRequest_rejected s now e :
  snoozeVerdict s now = Rejected e ->
  exists s',
    service.handleSnoozeRequest now s = Ok (Rejected e) s' /\
    settingsOf s' = settingsOf s /\ flagsOf s' = flagsOf s /\
    usageOf s' = usageOf s /\ tk s' = tk s /\
    timers s' = timers s /\ effects s' = effects s /\
    snoozeInProgress (svc s') = true.
Proof.
  unfold snoozeVerdict, service.handleSnoozeRequest. views. intros H. js.
  destruct (snoozeInProgress (svc s)) eqn:G; js.
  { eexists; split; [exact (f_equal (fun r => Ok r s) H)|]. repeat split. exact G. }
  destruct (now - lastSnoozeRequest (svc s) <? 2000); js.
  { eexists; split; [exact (f_equal (fun r => Ok r _) H)|]. repeat split. }
  destruct (allowSnooze (orElse (st_settings (store s)) DEFAULT_SETTINGS)); js;
    cbn [negb] in H.
  2:{ eexists; split; [exact (f_equal (fun r => Ok r _) H)|]. repeat split. }
  destruct (snoozed (orElse (st_flags (store s)) DEFAULT_FLAGS)
            || snoozeUsedToday (orElse (st_flags (store s)) DEFAULT_FLAGS)); js.
  { eexists; split; [exact (f_equal (fun r => Ok r _) H)|]. repeat split. }
  discriminate.
Qed.

Lemma snoozeVerdict_granted s now :
  snoozeVerdict s now = Granted ->
  snoozeInProgress (svc s) = false /\
  (now - lastSnoozeRequest (svc s) <? 2000) = false /\
  allowSnooze (settingsOf s) = true /\
  snoozed (flagsOf s) = false /\ snoozeUsedToday (flagsOf s) = false.
Proof.
  unfold snoozeVerdict.
  destruct (snoozeInProgress (svc s)); [discriminate|].
  destruct (now - lastSnoozeRequest (svc s) <? 2000); [discriminate|].
  destruct (allowSnooze (settingsOf s)); [|discriminate].
  destruct (snoozed (flagsOf s)); [discriminate|].
  destruct (snoozeUsedToday (flagsOf s)); [discriminate|].
  repeat split.
Qed.

Lemma handleSnoozeRequest_granted s now :
  snoozeVerdict s now = Granted ->
  exists s',
    service.handleSnoozeRequest now s = Ok Granted s' /\
    settingsOf s' = settingsOf s /\
    flagsOf s' = snoozedFlags (flagsOf s) /\
    usageOf s' = mkUsage 0 now (getDateKey now) /\
    currentUsageMs (tk s') = 0 /\ isLocked (tk s') = false /\
    isPaused (tk s') = false /\ lastTickTime (tk s') = Some now /\
    stopInProgress (tk s') = stopInProgress (tk s) /\
    timers s'
    = (timers s
       ++ [mkTimer (now + cooldownMinutes (settingsOf s) * 60 * 1000)
                   (cooldownMinutes (settingsOf s) * 60 * 1000)])%list /\
    snoozeInProgress (svc s') = true /\ lastSnoozeRequest (svc s') = now.
Proof.
  intros H. destruct (snoozeVerdict_granted s now H) as (G & R & A & S1 & S2).
  unfold service.handleSnoozeRequest, snoozedFlags. views. js. cbn [orb]. js.
  destruct (stopInProgress (tk s)) eqn:Hs.
  - rewrite stop_busy by (red_fields; assumption). js.
    eexists; split; [reflexivity|]. js. repeat split; auto.
  - rewrite stop_eq by (red_fields; assumption). js.
    eexists; split; [reflexivity|]. js. repeat split; auto.
Qed.

Lemma snoozeTimerCallback_spec cooldownMs now s :
  exists s',
    service.snoozeTimerCallback cooldownMs now s = Ok tt s' /\
    settingsOf s' = settingsOf s /\
    flagsOf s' = cooldownElapsedFlags cooldownMs (flagsOf s) /\
    isLocked (tk s') = true /\
    currentUsageMs (tk s') = currentUsageMs (tk s) /\
    (stopInProgress (tk s) = false ->
       tickInterval (tk s') = false /\ isActive (tk s') = false) /\
    timers s' = timers s /\
    snoozeInProgress (svc s') = false.
Proof.
  unfold service.snoozeTimerCallback, cooldownElapsedFlags. js.
  destruct (stopInProgress (tk s)) eqn:Hs.
  - rewrite stop_busy by (red_fields; assumption). js.
    eexists; split; [reflexivity|]. js. repeat split; discriminate.
  - rewrite stop_eq by (red_fields; assumption). js.
    eexists; split; [reflexivity|]. js. repeat split.
Qed.

(** A snooze request through the message handler. *)
Lemma step_snooze_rejected s now e :
  snoozeVerdict s now = Rejected e ->
  fst (step (SNOOZE_REQUEST now) s) = RRejected e /\
  flagsOf (next s (SNOOZE_REQUEST now)) = flagsOf s /\
  timers (next s (SNOOZE_REQUEST now)) = timers s /\
  snoozeInProgress (svc (next s (SNOOZE_REQUEST now))) = true.
Proof.
  intros H.
  destruct (handleSnoozeRequest_rejected s now e H)
    as (s' & E & A1 & A2 & A3 & A4 & A5 & A6 & A7).
  unfold next, step, handleEvent, bind, ret. rewrite E. cbn [fst snd].
  auto.
Qed.

Lemma step_snooze_granted s now :
  snoozeVerdict s now = Granted ->
  fst (step (SNOOZE_REQUEST now) s) = RSuccess /\
  flagsOf (next s (SNOOZE_REQUEST now)) = snoozedFlags (flagsOf s) /\
  timers (next s (SNOOZE_REQUEST now))
  = (timers s
     ++ [mkTimer (now + cooldownMinutes (settingsOf s) * 60 * 1000)
                 (cooldownMinutes (settingsOf s) * 60 * 1000)])%list /\
  snoozeInProgress (svc (next s (SNOOZE_REQUEST now))) = true.
Proof.
  intros H.
  destruct (handleSnoozeRequest_granted s now H)
    as (s' & E & A1 & A2 & A3 & A4 & A5 & A6 & A7 & A8 & A9 & A10 & A11).
  unfold next, step, handleEvent, bind, ret. rewrite E. cbn [fst snd].
  auto.
Qed.

Lemma snooze_busy s now :
  snoozeInProgress (svc s) = true ->
  step (SNOOZE_REQUEST now) s = (RRejected "Snooze in progress", s).
Proof.
  intros G. unfold step, handleEvent, service.handleSnoozeRequest. js.
  reflexivity.
Qed.

(** The timer event. *)
Lemma timeout_idle s now :
  takeDue now (timers s) = None -> next s (SNOOZE_TIMEOUT now) = s.
Proof.
  intros H. unfold next, step, handleEvent, fireSnoozeTimer. js. reflexivity.
Qed.

Lemma timeout_fires s now x r :
  takeDue now (timers s) = Some (x, r) ->
  let s' := next s (SNOOZE_TIMEOUT now) in
  settingsOf s' = settingsOf s /\
  flagsOf s' = cooldownElapsedFlags (cooldownMs x) (flagsOf s) /\
  isLocked (tk s') = true /\
  timers s' = r /\
  snoozeInProgress (svc s') = false.
Proof.
  intros H. unfold next, step, handleEvent, fireSnoozeTimer. js.
  match goal with |- context [service.snoozeTimerCallback ?c ?n ?s0] =>
    destruct (snoozeTimerCallback_spec c n s0)
      as (s1 & E & A1 & A2 & A3 & A4 & A5 & A6 & A7) end.
  rewrite E. cbn [fst snd]. revert A1 A2 A6. views. red_fields.
  intros A1 A2 A6. auto.
Qed.

(** *** C4: a granted snooze *)

(** C4.  A snooze request that passes its guards is granted: it resets the
    usage counter (in memory and in storage) to 0, clears [locked] and
    [nudged], sets [snoozed] and [snoozeUsedToday], and schedules one timer,
    due [cooldownMinutes] minutes later.  The timer does not fire before it
    is due; when it fires the state is locked with the frozen usage equal to
    [cooldownMinutes * 60 * 1000], and no timer is left. *)
Theorem C4_granted_snooze (s : State) (now : Z) :
  snoozeInProgress (svc s) = false ->
  2000 <= now - lastSnoozeRequest (svc s) ->
  allowSnooze (settingsOf s) = true ->
  snoozed (flagsOf s) = false ->
  snoozeUsedToday (flagsOf s) = false ->
  timers s = [] ->
  let cooldown := cooldownMinutes (settingsOf s) * 60 * 1000 in
  exists s1,
    service.handleSnoozeRequest now s = Ok Granted s1 /\
    s1 = next s (SNOOZE_REQUEST now) /\
    currentUsageMs (tk s1) = 0 /\ millisActive (usageOf s1) = 0 /\
    locked (flagsOf s1) = false /\ nudged (flagsOf s1) = false /\
    snoozed (flagsOf s1) = true /\ snoozeUsedToday (flagsOf s1) = true /\
    timers s1 = [mkTimer (now + cooldown) cooldown] /\
    (forall t, t < now + cooldown -> next s1 (SNOOZE_TIMEOUT t) = s1) /\
    (forall t, now + cooldown <= t ->
       let s2 := next s1 (SNOOZE_TIMEOUT t) in
       locked (flagsOf s2) = true /\
       frozenTimeUsed (flagsOf s2) = Some cooldown /\
       snoozed (flagsOf s2) = false /\ isLocked (tk s2) = true /\
       timers s2 = []).
Proof.
  intros G R A S1 S2 T cooldown.
  assert (V : snoozeVerdict s now = Granted).
  { unfold snoozeVerdict. rewrite G, A, S1, S2.
    replace (now - lastSnoozeRequest (svc s) <? 2000) with false
      by (symmetry; apply Z.ltb_ge; lia).
    reflexivity. }
  destruct (handleSnoozeRequest_granted s now V)
    as (s1 & E & A1 & A2 & A3 & A4 & A5 & A6 & A7 & A8 & A9 & A10 & A11).
  exists s1. rewrite T in A9. cbn [app] in A9. fold cooldown in A9.
  split; [exact E|].
  split. { unfold next, step, handleEvent, bind, ret. rewrite E. reflexivity. }
  rewrite A2, A3, A4, A9. unfold snoozedFlags. red_fields.
  do 7 (split; [reflexivity|]). split.
  - intros t Ht. apply timeout_idle. rewrite A9. cbn [takeDue due].
    replace (now + cooldown <=? t) with false
      by (symmetry; apply Z.leb_gt; lia).
    reflexivity.
  - intros t Ht. set (s2 := next s1 (SNOOZE_TIMEOUT t)).
    assert (D : takeDue t (timers s1)
                = Some (mkTimer (now + cooldown) cooldown, [])).
    { rewrite A9. cbn [takeDue due].
      replace (now + cooldown <=? t) with true
        by (symmetry; apply Z.leb_le; lia).
      reflexivity. }
    destruct (timeout_fires s1 t _ _ D) as (B1 & B2 & B3 & B4 & B5).
    fold s2 in B1, B2, B3, B4, B5.
    rewrite B2, B3, B4. unfold cooldownElapsedFlags. red_fields.
    repeat split.
Qed.

(** The scenario of the specification: a cooldown of five minutes. *)
Lemma C4_witness :
  let s := tracking (exampleSettings 30 5 true) in
  let s1 := next s (SNOOZE_REQUEST (exampleLoad + 5000)) in
  let s2 := next s1 (SNOOZE_TIMEOUT (exampleLoad + 305000)) in
  snoozed (flagsOf s1) = true /\ currentUsageMs (tk s1) = 0 /\
  locked (flagsOf s2) = true /\ frozenTimeUsed (flagsOf s2) = Some 300000.
Proof.
  intros s s1 s2.
  pose proof (C4_granted_snooze s (exampleLoad + 5000)) as H.
  discharge H.
  destruct H as (s1' & E & N & A1 & A2 & A3 & A4 & A5 & A6 & A7 & A8 & A9).
  fold s1 in N. subst s1'.
  split; [exact A5|]. split; [exact A1|].
  assert (D : exampleLoad + 5000 + cooldownMinutes (settingsOf s) * 60 * 1000
              <= exampleLoad + 305000) by (vm_compute; discriminate).
  destruct (A9 _ D) as (B1 & B2 & B3 & B4 & B5).
  fold s2 in B1, B2. split; [exact B1|]. rewrite B2. vm_compute. reflexivity.
Defined.

(** *** C5: one snooze a day *)

(** One request, in a state whose flags carry [snoozeUsedToday]: it is not
    granted and does not fault; it returns a typed failure and leaves the
    flags and the timers alone.  The reason is 'Snooze in progress' while
    the in-progress guard is held, and 'Snooze already used today' for a
    request that finds the guard clear, comes at least 2 s after the previous
    one and finds snooze allowed.  After a day rollover has reset the flags,
    a request that passes those three checks is granted. *)
Lemma used_snooze_is_rejected (s : State) (now d now' : Z) :
  snoozeUsedToday (flagsOf s) = true ->
  dateKey (usageOf s) <> getDateKey d ->
  (exists e s',
     service.handleSnoozeRequest now s = Ok (Rejected e) s' /\
     flagsOf s' = flagsOf s /\ timers s' = timers s /\
     (snoozeInProgress (svc s) = true -> e = "Snooze in progress") /\
     (snoozeInProgress (svc s) = false ->
      2000 <= now - lastSnoozeRequest (svc s) ->
      allowSnooze (settingsOf s) = true ->
      e = "Snooze already used today")) /\
  let s1 := next s (ALARM_daily_reset d) in
  flagsOf s1 = DEFAULT_FLAGS /\
  (snoozeInProgress (svc s1) = false ->
   2000 <= now' - lastSnoozeRequest (svc s1) ->
   allowSnooze (settingsOf s1) = true ->
   exists s2,
     service.handleSnoozeRequest now' s1 = Ok Granted s2 /\
     snoozed (flagsOf s2) = true /\ snoozeUsedToday (flagsOf s2) = true).
Proof.
  intros U Hd. split.
  - assert (V : exists e, snoozeVerdict s now = Rejected e /\
                  (snoozeInProgress (svc s) = true -> e = "Snooze in progress") /\
                  (snoozeInProgress (svc s) = false ->
                   2000 <= now - lastSnoozeRequest (svc s) ->
                   allowSnooze (settingsOf s) = true ->
                   e = "Snooze already used today")).
    { unfold snoozeVerdict. rewrite U, orb_true_r.
      destruct (snoozeInProgress (svc s)).
      { eexists; split; [reflexivity|]. split; [reflexivity | discriminate]. }
      destruct (Z.ltb_spec (now - lastSnoozeRequest (svc s)) 2000).
      { eexists; split; [reflexivity|]. split; [discriminate | intros; lia]. }
      destruct (allowSnooze (settingsOf s)); cbn [negb].
      - eexists; split; [reflexivity|]. split; [discriminate | reflexivity].
      - eexists; split; [reflexivity|]. split; discriminate. }
    destruct V as (e & V & V1 & V2).
    destruct (handleSnoozeRequest_rejected s now e V)
      as (s' & E & A1 & A2 & A3 & A4 & A5 & A6 & A7).
    exists e, s'. auto.
  - intros s1.
    assert (R : flagsOf s1 = DEFAULT_FLAGS /\ svc s1 = svc s
                /\ settingsOf s1 = settingsOf s).
    { subst s1. unfold next, step, handleEvent, storage.checkDailyReset.
      apply String.eqb_neq in Hd. views. js. cbn [negb]. js. cbn [snd]. js.
      repeat split. }
    destruct R as (R1 & R2 & R3). split; [exact R1|].
    intros G Hr A.
    assert (V : snoozeVerdict s1 now' = Granted).
    { unfold snoozeVerdict. rewrite G, A, R1.
      replace (now' - lastSnoozeRequest (svc s1) <? 2000) with false
        by (symmetry; apply Z.ltb_ge; lia).
      reflexivity. }
    destruct (handleSnoozeRequest_granted s1 now' V)
      as (s2 & E & A1 & A2 & _).
    exists s2. rewrite A2, R1. repeat split. exact E.
Qed.

(** A snooze was granted and its cooldown has elapsed; a request later that
    day is answered 'Snooze already used today', and one after the rollover
    of the next day is granted. *)
Lemma used_snooze_is_rejected_example :
  let s := run (tracking (exampleSettings 30 5 true))
               [SNOOZE_REQUEST (exampleLoad + 5000);
                SNOOZE_TIMEOUT (exampleLoad + 305000)] in
  let d := exampleLoad + MS_PER_DAY in
  (exists s',
     service.handleSnoozeRequest (exampleLoad + 400000) s
     = Ok (Rejected "Snooze already used today") s') /\
  (exists s2,
     service.handleSnoozeRequest (d + 1000) (next s (ALARM_daily_reset d))
     = Ok Granted s2).
Proof.
  intros s d.
  pose proof (used_snooze_is_rejected s (exampleLoad + 400000) d
                (d + 1000)) as H.
  discharge H.
  destruct H as [(e & s' & E & _ & _ & _ & A) (_ & B)].
  split.
  - exists s'. rewrite E. f_equal. f_equal. apply A; vm_compute;
      first [reflexivity | discriminate].
  - discharge B. destruct B as (s2 & E2 & _).
    exists s2. exact E2.
Defined.

(** C5 (the code departs from it).  All on 2024-01-01: a snooze is
    granted; a second request ten seconds later, while the snooze runs, is
    answered 'Snooze in progress' and not 'Snooze already used today' (the
    check of [flags.snoozed || flags.snoozeUsedToday] that would give that
    answer for a running snooze is never reached, the in-progress guard
    being held until the cooldown timer fires); the timer fires; a manual
    reset writes the flags without [snoozeUsedToday]; and a third request is
    granted: a second snooze on the same [dateKey]. *)
Lemma C5_second_snooze_on_the_same_day :
  let s0 := tracking (exampleSettings 30 5 true) in
  let t0 := exampleLoad + 5000 in
  let t1 := t0 + 315000 in
  let s1 := next s0 (SNOOZE_REQUEST t0) in
  let s2 := run s1 [SNOOZE_REQUEST (t0 + 10000);
                    SNOOZE_TIMEOUT (t0 + 300000);
                    MANUAL_RESET (t0 + 305000) onX] in
  let s3 := next s2 (SNOOZE_REQUEST t1) in
  reachable s3 /\
  fst (step (SNOOZE_REQUEST t0) s0) = RSuccess /\
  snoozed (flagsOf s1) = true /\ snoozeUsedToday (flagsOf s1) = true /\
  fst (step (SNOOZE_REQUEST (t0 + 10000)) s1) = RRejected "Snooze in progress" /\
  snoozeUsedToday (flagsOf s2) = false /\
  dateKey (usageOf s1) = getDateKey t0 /\
  dateKey (usageOf s2) = getDateKey t0 /\ getDateKey t1 = getDateKey t0 /\
  fst (step (SNOOZE_REQUEST t1) s2) = RSuccess /\
  snoozed (flagsOf s3) = true /\ currentUsageMs (tk s3) = 0 /\
  timers s3 = [mkTimer (t1 + 300000) 300000].
Proof.
  intros s0 t0 t1 s1 s2 s3. split.
  - unfold s3, s2, s1, s0, tracking, exampleWorker, run. cbn [fold_left].
    repeat apply reach_step. apply reach_load.
  - vm_compute. repeat split.
Qed.

(** *** C6: the snooze timer is never cancelled *)

(** No handler cancels a pending snooze timer: a pause toggle, a manual
    reset and the daily reset alarm leave every pending timer in place, and
    a pending timer that has come due fires in whatever state the worker is
    in by then, setting [locked], clearing [snoozed] and freezing the usage
    at the cooldown it was scheduled with. *)
Lemma snooze_timer_survives_and_fires (s : State) (ev : Event) :
  match ev with
  | PAUSE_TOGGLE _ _ | MANUAL_RESET _ _ | ALARM_daily_reset _ => True
  | _ => False
  end ->
  timers (next s ev) = timers s /\
  forall now x r,
    takeDue now (timers (next s ev)) = Some (x, r) ->
    let s' := next (next s ev) (SNOOZE_TIMEOUT now) in
    locked (flagsOf s') = true /\
    frozenTimeUsed (flagsOf s') = Some (cooldownMs x) /\
    snoozed (flagsOf s') = false /\
    isLocked (tk s') = true /\ timers s' = r.
Proof.
  intros Hev.
  assert (O : otherEvent ev = true) by (destruct ev; try contradiction; reflexivity).
  destruct (otherEvent_keeps ev s O) as [T _].
  split; [exact T|].
  intros now x r D.
  destruct (timeout_fires (next s ev) now x r D) as (B1 & B2 & B3 & B4 & B5).
  cbv zeta. rewrite B2, B3, B4. unfold cooldownElapsedFlags. red_fields.
  repeat split.
Qed.

(** C6 (the code departs from it).  The timer of a granted snooze fires
    after the snooze was superseded, in each of the three ways.  A pause five
    seconds into the snooze ends it ([snoozed] and [locked] cleared, the
    extension paused) and leaves the timer pending; when the cooldown has
    elapsed the timer locks the paused extension with the frozen cooldown
    value and shows the lock overlay, after the pause had announced the tabs
    accessible.  The same after a manual reset, which had written every flag
    back to false.  And a snooze granted at 23:59 survives the rollover of
    midnight: the daily reset writes the defaults for the new day, and four
    minutes into it the timer locks. *)
Lemma C6_snooze_timer_fires_after_pause_reset_and_rollover :
  let s0 := tracking (exampleSettings 30 5 true) in
  let t0 := exampleLoad + 5000 in
  let s1 := next s0 (SNOOZE_REQUEST t0) in
  let paused := next s1 (PAUSE_TOGGLE (t0 + 5000) onX) in
  let paused' := next paused (SNOOZE_TIMEOUT (t0 + 300000)) in
  let reset := next s1 (MANUAL_RESET (t0 + 5000) onX) in
  let reset' := next reset (SNOOZE_TIMEOUT (t0 + 300000)) in
  let tn := exampleLoad + MS_PER_DAY - 60000 in
  let midnight := exampleLoad + MS_PER_DAY in
  let rolled := run s0 [SNOOZE_REQUEST tn; ALARM_daily_reset midnight] in
  let rolled' := next rolled (SNOOZE_TIMEOUT (tn + 300000)) in
  (reachable paused' /\ reachable reset' /\ reachable rolled') /\
  (snoozed (flagsOf paused) = false /\ locked (flagsOf paused) = false /\
   pausedToday (flagsOf paused) = true /\
   timers paused = [mkTimer (t0 + 300000) 300000] /\
   locked (flagsOf paused') = true /\
   frozenTimeUsed (flagsOf paused') = Some 300000 /\
   pausedToday (flagsOf paused') = true /\ isLocked (tk paused') = true /\
   effects paused'
   = (effects s1 ++ [HIDE_OVERLAY; NOTIFY "extension_paused";
                     STATUS_LOCKED 300000; SHOW_SOFT_LOCK])%list) /\
  (flagsOf reset = mkFlags false false false false false None /\
   timers reset = [mkTimer (t0 + 300000) 300000] /\
   locked (flagsOf reset') = true /\
   frozenTimeUsed (flagsOf reset') = Some 300000) /\
  (dateKey (usageOf rolled) = getDateKey midnight /\
   getDateKey tn <> getDateKey midnight /\
   flagsOf rolled = DEFAULT_FLAGS /\
   timers rolled = [mkTimer (tn + 300000) 300000] /\
   getDateKey (tn + 300000) = getDateKey midnight /\
   locked (flagsOf rolled') = true /\
   frozenTimeUsed (flagsOf rolled') = Some 300000).
Proof.
  intros s0 t0 s1 paused paused' reset reset' tn midnight rolled rolled'.
  split.
  - unfold paused', paused, reset', reset, rolled', rolled, s1, s0, tracking,
      exampleWorker, run. cbn [fold_left].
    repeat split; repeat apply reach_step; apply reach_load.
  - vm_compute. repeat split; discriminate.
Qed.

(** *** C9: the stuck in-progress guard *)

Lemma timerInv_loaded st loadTime saveInterval :
  timerInv (workerLoaded st loadTime saveInterval).
Proof. left. reflexivity. Qed.

Lemma takeDue_single now x :
  takeDue now [x] = if due x <=? now then Some (x, []) else None.
Proof. cbn [takeDue]. destruct (due x <=? now); reflexivity. Qed.

Lemma snoozeVerdict_cases s now :
  snoozeVerdict s now = Granted \/ exists e, snoozeVerdict s now = Rejected e.
Proof. destruct (snoozeVerdict s now); [left | right; eexists]; reflexivity. Qed.

Lemma snoozeVerdict_busy s now :
  snoozeInProgress (svc s) = true ->
  snoozeVerdict s now = Rejected "Snooze in progress".
Proof. intros G. unfold snoozeVerdict. rewrite G. reflexivity. Qed.

Lemma snoozeVerdict_own_reason s now e :
  snoozeVerdict s now = Rejected e -> e <> "Snooze in progress" ->
  snoozeInProgress (svc s) = false.
Proof.
  intros V N. destruct (snoozeInProgress (svc s)) eqn:G; [|reflexivity].
  rewrite (snoozeVerdict_busy s now G) in V. congruence.
Qed.

Lemma timerInv_step s ev : timerInv s -> timerInv (next s ev).
Proof.
  intros J.
  destruct (otherEvent ev) eqn:O.
  - destruct (otherEvent_keeps ev s O) as [T G]. unfold timerInv.
    rewrite T, G. exact J.
  - destruct ev; try discriminate.
    + (* a snooze request *)
      destruct (snoozeVerdict_cases s now) as [V | [e V]].
      * destruct (snoozeVerdict_granted s now V) as (G & _).
        destruct (step_snooze_granted s now V) as (_ & _ & T & G').
        destruct J as [J | (G0 & _)]; [| congruence].
        right. split; [exact G'|]. rewrite T, J. eexists. reflexivity.
      * destruct (step_snooze_rejected s now e V) as (_ & _ & T & G').
        unfold timerInv. rewrite T, G'.
        destruct J as [J | (_ & J)]; [left; exact J | right; split; auto].
    + (* the timer *)
      destruct J as [J | (G & x & J)].
      * rewrite timeout_idle by (rewrite J; reflexivity). left. exact J.
      * destruct (due x <=? now) eqn:D.
        -- assert (T : takeDue now (timers s) = Some (x, []))
             by (rewrite J, takeDue_single, D; reflexivity).
           destruct (timeout_fires s now x [] T) as (_ & _ & _ & T' & _).
           left. exact T'.
        -- rewrite timeout_idle by (rewrite J, takeDue_single, D; reflexivity).
           right. split; [exact G | exists x; exact J].
Qed.

Lemma reachable_timerInv s : reachable s -> timerInv s.
Proof.
  induction 1 as [st l i | s ev _ IH].
  - apply timerInv_loaded.
  - apply timerInv_step. exact IH.
Qed.

(** With the guard held and no timer pending nothing releases the guard. *)
Lemma stuck_step s ev :
  snoozeInProgress (svc s) = true -> timers s = [] ->
  snoozeInProgress (svc (next s ev)) = true /\ timers (next s ev) = [].
Proof.
  intros G T.
  destruct (otherEvent ev) eqn:O.
  - destruct (otherEvent_keeps ev s O) as [T' G']. rewrite T', G'. auto.
  - destruct ev; try discriminate.
    + unfold next. rewrite snooze_busy by exact G. auto.
    + rewrite timeout_idle by (rewrite T; reflexivity). auto.
Qed.

Lemma stuck_run evs : forall s,
  snoozeInProgress (svc s) = true -> timers s = [] ->
  snoozeInProgress (svc (run s evs)) = true /\ timers (run s evs) = [].
Proof.
  induction evs as [|ev evs IH]; intros s G T.
  - auto.
  - destruct (stuck_step s ev G T) as [G' T']. exact (IH _ G' T').
Qed.

(** The guard is released by nothing but a snooze timer that fires. *)
Lemma guard_released_by_timer_only s ev :
  snoozeInProgress (svc s) = true ->
  snoozeInProgress (svc (next s ev)) = false ->
  exists now x r, ev = SNOOZE_TIMEOUT now /\ takeDue now (timers s) = Some (x, r).
Proof.
  intros G G'.
  destruct (otherEvent ev) eqn:O.
  - destruct (otherEvent_keeps ev s O) as [_ K]. congruence.
  - destruct ev; try discriminate.
    + unfold next in G'. rewrite snooze_busy in G' by exact G.
      cbn [snd] in G'. congruence.
    + destruct (takeDue now (timers s)) as [[x r]|] eqn:D.
      * exists now, x, r. auto.
      * rewrite timeout_idle in G' by exact D. congruence.
Qed.

(** A snooze is granted; a request ten seconds later fails ('Snooze in
    progress'); the timer fires; the next request is answered with its own
    reason, 'Snooze already used today'. *)
Lemma C9_counterexample :
  let s1 := next (tracking (exampleSettings 30 5 true))
                 (SNOOZE_REQUEST (exampleLoad + 5000)) in
  let s2 := run s1 [SNOOZE_REQUEST (exampleLoad + 15000);
                    SNOOZE_TIMEOUT (exampleLoad + 305000)] in
  fst (step (SNOOZE_REQUEST (exampleLoad + 15000)) s1)
  = RRejected "Snooze in progress" /\
  fst (step (SNOOZE_REQUEST (exampleLoad + 400000)) s2)
  = RRejected "Snooze already used today" /\
  fst (step (SNOOZE_REQUEST (exampleLoad + 400000)) s2)
  <> RRejected "Snooze in progress".
Proof. vm_compute. repeat split. discriminate. Qed.

(** C9 (amended).  The in-progress guard of the snooze is released by
    nothing but the cooldown timer of a granted snooze.  Hence, in a session
    of the worker, once a snooze request is rejected with a reason of its own
    (rate limit, not allowed, already used today), the guard stays held
    through every later event and every later snooze request is answered
    'Snooze in progress'. *)
Theorem C9_failed_snooze_blocks_later_requests
    (s : State) (now : Z) (e : string) :
  reachable s ->
  fst (step (SNOOZE_REQUEST now) s) = RRejected e ->
  e <> "Snooze in progress" ->
  (forall evs now',
     snoozeInProgress (svc (run (next s (SNOOZE_REQUEST now)) evs)) = true /\
     fst (step (SNOOZE_REQUEST now') (run (next s (SNOOZE_REQUEST now)) evs))
     = RRejected "Snooze in progress") /\
  (forall s' ev,
     snoozeInProgress (svc s') = true ->
     snoozeInProgress (svc (next s' ev)) = false ->
     exists t x r, ev = SNOOZE_TIMEOUT t /\ takeDue t (timers s') = Some (x, r)).
Proof.
  intros R E N. split; [| exact guard_released_by_timer_only].
  assert (V : snoozeVerdict s now = Rejected e).
  { destruct (snoozeVerdict_cases s now) as [V | [e' V]].
    - destruct (step_snooze_granted s now V) as (F & _). congruence.
    - destruct (step_snooze_rejected s now e' V) as (F & _). congruence. }
  pose proof (snoozeVerdict_own_reason s now e V N) as G.
  destruct (step_snooze_rejected s now e V) as (_ & _ & T & G').
  assert (T0 : timers s = []).
  { destruct (reachable_timerInv s R) as [J | (G0 & _)]; [exact J | congruence]. }
  rewrite T0 in T.
  intros evs now'.
  destruct (stuck_run evs _ G' T) as [G2 T2].
  split; [exact G2|].
  rewrite snooze_busy by exact G2. reflexivity.
Qed.

(** After the cooldown of a granted snooze a request is rejected as already
    used; the day rolls over and resets the flags; the request of the new
    day is still answered 'Snooze in progress'. *)
Lemma C9_witness :
  let s := run (tracking (exampleSettings 30 5 true))
               [SNOOZE_REQUEST (exampleLoad + 5000);
                SNOOZE_TIMEOUT (exampleLoad + 305000)] in
  let d := exampleLoad + MS_PER_DAY in
  fst (step (SNOOZE_REQUEST (d + 1000))
            (run (next s (SNOOZE_REQUEST (exampleLoad + 400000)))
                 [ALARM_daily_reset d]))
  = RRejected "Snooze in progress".
Proof.
  intros s d.
  assert (R : reachable s).
  { subst s. unfold tracking, exampleWorker, run. cbn [fold_left].
    repeat apply reach_step. apply reach_load. }
  pose proof (C9_failed_snooze_blocks_later_requests s (exampleLoad + 400000)
                "Snooze already used today" R) as H.
  discharge H.
  destruct H as [H _].
  exact (proj2 (H [ALARM_daily_reset d] (d + 1000))).
Defined.

(** *** C1: locked and snoozed *)

Lemma reachable_run evs : forall s, reachable s -> reachable (run s evs).
Proof.
  induction evs as [|ev evs IH]; intros s R.
  - exact R.
  - apply (IH (next s ev)). apply reach_step. exact R.
Qed.

(** C1 (the code departs from it).  A snooze is granted, the user keeps
    browsing, and 298 s later the tick's limit check reaches the cooldown
    budget: [triggerLimit] sets [locked] and leaves [snoozed] set, while the
    snooze timer is still pending.  Both flags are true in a reachable
    state. *)
Lemma C1_lock_during_snooze_keeps_snoozed :
  let t0 := exampleLoad + 5000 in
  let s := run (tracking (exampleSettings 30 5 true))
               ([SNOOZE_REQUEST t0; UPDATE_TRACKING (t0 + 1000) onX]
                ++ tickEvents (ticksFrom (t0 + 1000) 1000 298)) in
  reachable s /\
  locked (flagsOf s) = true /\ snoozed (flagsOf s) = true /\
  frozenTimeUsed (flagsOf s) = Some 300000 /\
  timers s = [mkTimer (t0 + 300000) 300000].
Proof.
  intros t0 s. split.
  - apply reachable_run. unfold tracking. apply reachable_run. apply reach_load.
  - vm_compute. repeat split.
Qed.

(** *** C2: the bypass request *)

(** [handleBypassRequest] always ends in the ReferenceError of its call to
    [clearLockedState], before anything was written to the flags or to the
    clock. *)
Lemma handleBypassRequest_faults s passcode :
  exists s',
    service.handleBypassRequest passcode s
    = Throw (ReferenceError "clearLockedState") s' /\
    settingsOf s' = settingsOf s /\ flagsOf s' = flagsOf s /\
    usageOf s' = usageOf s /\ tk s' = tk s /\ svc s' = svc s /\
    timers s' = timers s.
Proof.
  unfold service.handleBypassRequest, service.global_clearLockedState,
    rules.validatePasscode. js.
  destruct (RulesEngine.passcodeConfigured _); js.
  - destruct (match passcodeHash _ with Some h => (h =? passcode)%string | None => false end);
      js; eexists; (split; [reflexivity|]); js; repeat split.
  - eexists; (split; [reflexivity|]); js; repeat split.
Qed.

(** C2.  With a passcode configured and a candidate that differs from it,
    the bypass request changes neither the flags (so a locked state stays
    locked, with its frozen usage) nor the clock's in-memory lock.  This is
    the contrapositive of "the request leaves the Locked state only if the
    passcode validates or none is configured". *)
Theorem C2_invalid_passcode_keeps_lock (s : State) (passcode h : string) :
  passcodeHash (settingsOf s) = Some h ->
  h <> "" ->
  h <> passcode ->
  (exists s0, rules.validatePasscode passcode s = Ok false s0) /\
  let s' := next s (BYPASS_REQUEST passcode) in
  flagsOf s' = flagsOf s /\
  isLocked (tk s') = isLocked (tk s) /\
  (locked (flagsOf s) = true -> locked (flagsOf s') = true) /\
  fst (step (BYPASS_REQUEST passcode) s) = RError "clearLockedState is not defined".
Proof.
  intros Hh Hne Hp. split.
  - unfold rules.validatePasscode, RulesEngine.passcodeConfigured. views. js.
    apply String.eqb_neq in Hne, Hp. rewrite Hne, Hp. js.
    eexists. reflexivity.
  - destruct (handleBypassRequest_faults s passcode)
      as (s1 & E & A1 & A2 & A3 & A4 & A5 & A6).
    unfold next, step, handleEvent, bind. rewrite E. cbn [fst snd errorMessage].
    rewrite A2, A4. repeat split; auto.
Qed.

Lemma C2_witness :
  let s := run (tracking (exampleSettings 1 5 true))
               (SET_PASSCODE (exampleLoad + 1500) "1234"
                :: tickEvents (ticksFrom (exampleLoad + 1000) 1000 58)) in
  locked (flagsOf s) = true /\
  locked (flagsOf (next s (BYPASS_REQUEST "0000"))) = true /\
  frozenTimeUsed (flagsOf (next s (BYPASS_REQUEST "0000"))) = Some 60000.
Proof.
  intros s.
  pose proof (C2_invalid_passcode_keeps_lock s "0000" "1234") as H.
  assert (H1 : passcodeHash (settingsOf s) = Some "1234") by (vm_compute; reflexivity).
  assert (H2 : "1234" <> "") by discriminate.
  assert (H3 : "1234" <> "0000") by discriminate.
  destruct (H H1 H2 H3) as (_ & A1 & A2 & A3 & A4).
  assert (L : locked (flagsOf s) = true) by (vm_compute; reflexivity).
  split; [exact L|]. split; [exact (A3 L)|].
  rewrite A1. vm_compute. reflexivity.
Defined.

(** *** C7: the daily reset *)








(** *** C10: a settings update that lowers the limit *)

Lemma next_updateSettings s now patch resetUsage :
  next s (UPDATE_SETTINGS now patch resetUsage)
  = exec (Messages.updateSettingsBody now patch resetUsage) s.
Proof.
  unfold next, step, handleEvent, Messages.updateSettings, try_catch, exec.
  destruct (Messages.updateSettingsBody now patch resetUsage s); reflexivity.
Qed.

(** The usage counter reads 100 s and the options page lowers the limit
    from 30 minutes to 1: it sends [resetUsage: true] with the change, and
    the reset branch overwrites the lock that the limit branch prepared. *)
Lemma C10_counterexample :
  let s := run (tracking (exampleSettings 30 5 true))
               (tickEvents (ticksFrom (exampleLoad + 1000) 1000 100)) in
  let s' := next s (UPDATE_SETTINGS (exampleLoad + 200000) (limitPatch 1) true) in
  currentUsageMs (tk s) = 100000 /\
  dailyLimitMin (settingsOf s) = 30 /\ dailyLimitMin (settingsOf s') = 1 /\
  locked (flagsOf s') = false /\ isLocked (tk s') = false /\
  frozenTimeUsed (flagsOf s') = None.
Proof. vm_compute. repeat split. Qed.

(** C10 (amended).  An UPDATE_SETTINGS message that is not debounced, does
    not ask for a usage reset and changes [dailyLimitMin] to a value whose
    budget the counter already reaches (within the 2000 ms buffer) locks at
    once: [locked] is set, the frozen usage is the new limit in milliseconds
    and the clock is stopped.  If the same message also changes
    [cooldownMin], the counter is reset to 0 instead, in memory and in
    storage, the in-memory lock is released and the flags are left as they
    were. *)
Theorem C10_lowered_limit_locks_at_once
    (s : State) (now : Z) (patch : SettingsPatch) (n : Z) :
  1000 <= now - lastSettingsUpdate (svc s) ->
  p_dailyLimitMin patch = Some n ->
  n <> dailyLimitMin (settingsOf s) ->
  n * 60 * 1000 - tickBuffer <= currentUsageMs (tk s) ->
  let s' := next s (UPDATE_SETTINGS now patch false) in
  dailyLimitMin (settingsOf s') = n /\
  (cooldownChanged patch (settingsOf s) = false ->
     locked (flagsOf s') = true /\
     frozenTimeUsed (flagsOf s') = Some (n * 60 * 1000) /\
     isLocked (tk s') = true /\
     currentUsageMs (tk s') = currentUsageMs (tk s) /\
     (stopInProgress (tk s) = false ->
        tickInterval (tk s') = false /\ isActive (tk s') = false)) /\
  (cooldownChanged patch (settingsOf s) = true ->
     currentUsageMs (tk s') = 0 /\ millisActive (usageOf s') = 0 /\
     isLocked (tk s') = false /\ flagsOf s' = flagsOf s).
Proof.
  intros Hdeb Hp Hn Hlim. cbv zeta. rewrite next_updateSettings.
  assert (E1 : (now - lastSettingsUpdate (svc s) <? 1000) = false)
    by (apply Z.ltb_ge; lia).
  assert (E2 : (dailyLimitMin (settingsOf s) =? n) = false)
    by (apply Z.eqb_neq; congruence).
  assert (E3 : (n * 60 * 1000 - tickBuffer <=? currentUsageMs (tk s)) = true)
    by (apply Z.leb_le; exact Hlim).
  unfold cooldownChanged.
  unfold Messages.updateSettingsBody, Messages.dailyLimitChange,
    Messages.cooldownChange, Messages.writeUpdates, applyPatch. views. js.
  cbn [negb]. js.
  destruct (stopInProgress (tk s)) eqn:Hs.
  - rewrite stop_busy by (red_fields; assumption). js.
    destruct (p_cooldownMin patch) as [c|]; js.
    + destruct (cooldownMin (orElse (st_settings (store s)) DEFAULT_SETTINGS) =? c);
        cbn [negb]; js; cbn [p_dailyLimitMin orElse]; rewrite ?Hp; cbn [orElse];
        repeat split; try reflexivity; try discriminate.
    + cbn [p_dailyLimitMin orElse]; rewrite ?Hp; cbn [orElse];
        repeat split; try reflexivity; try discriminate.
  - rewrite stop_eq by (red_fields; assumption). js.
    destruct (p_cooldownMin patch) as [c|]; js.
    + destruct (cooldownMin (orElse (st_settings (store s)) DEFAULT_SETTINGS) =? c);
        cbn [negb]; js; cbn [p_dailyLimitMin orElse]; rewrite ?Hp; cbn [orElse];
        repeat split; try reflexivity; try discriminate.
    + cbn [p_dailyLimitMin orElse]; rewrite ?Hp; cbn [orElse];
        repeat split; try reflexivity; try discriminate.
Qed.

(** The counter reads 100 s; lowering the limit to one minute locks with
    60000 frozen, and lowering it while also changing the cooldown resets the
    counter and locks nothing. *)
Lemma C10_witness :
  let s := run (tracking (exampleSettings 30 5 true))
               (tickEvents (ticksFrom (exampleLoad + 1000) 1000 100)) in
  let now := exampleLoad + 200000 in
  let sA := next s (UPDATE_SETTINGS now (limitPatch 1) false) in
  let sB := next s (UPDATE_SETTINGS now (limitAndCooldownPatch 1 10) false) in
  (locked (flagsOf sA) = true /\ frozenTimeUsed (flagsOf sA) = Some 60000 /\
   tickInterval (tk sA) = false) /\
  (currentUsageMs (tk sB) = 0 /\ isLocked (tk sB) = false /\
   locked (flagsOf sB) = false).
Proof.
  intros s now sA sB. split.
  - pose proof (C10_lowered_limit_locks_at_once s now (limitPatch 1) 1) as H.
    discharge H. destruct H as (_ & H & _).
    destruct (H eq_refl) as (A1 & A2 & A3 & A4 & A5).
    fold sA in A1, A2, A5.
    split; [exact A1|]. split; [exact A2|].
    apply A5. vm_compute. reflexivity.
  - pose proof (C10_lowered_limit_locks_at_once s now
                  (limitAndCooldownPatch 1 10) 1) as H.
    discharge H. destruct H as (_ & _ & H).
    assert (C : cooldownChanged (limitAndCooldownPatch 1 10) (settingsOf s) = true)
      by (vm_compute; reflexivity).
    destruct (H C) as (B1 & B2 & B3 & B4).
    fold sB in B1, B3, B4.
    split; [exact B1|]. split; [exact B3|].
    rewrite B4. vm_compute. reflexivity.
Defined.

(** ** Further properties of the worker *)

(** [js], with the boolean conditions simplified as well. *)
Ltac jsb :=
  repeat (progress (js; rewrite ?andb_false_r, ?andb_true_r, ?orb_false_r;
                    cbn [negb andb orb fst snd])).

(** *** The lock and the passcode *)

(** X1.  The CLEAR_LOCK message unlocks without any passcode: from a locked
    state it clears [locked], the frozen usage and the in-memory lock,
    whatever passcode is configured; the usage counter and the other flags
    stay as they are. *)
Theorem X_clear_lock_needs_no_passcode (s : State) :
  locked (flagsOf s) = true ->
  let s' := next s CLEAR_LOCK in
  fst (step CLEAR_LOCK s) = RSuccess /\
  flagsOf s' = with_frozenTimeUsed None (with_locked false (flagsOf s)) /\
  isLocked (tk s') = false /\
  settingsOf s' = settingsOf s /\
  currentUsageMs (tk s') = currentUsageMs (tk s) /\
  usageOf s' = usageOf s.
Proof.
  intros L. unfold next, step, handleEvent, service.clearLockedState. views. js.
  cbn [fst snd]. js. repeat split.
Qed.

Lemma X_clear_lock_witness :
  let s := run (tracking (exampleSettings 1 5 true))
               (SET_PASSCODE (exampleLoad + 1500) "1234"
                :: tickEvents (ticksFrom (exampleLoad + 1000) 1000 58)) in
  passcodeHash (settingsOf s) = Some "1234" /\
  locked (flagsOf s) = true /\
  locked (flagsOf (next s CLEAR_LOCK)) = false /\
  isLocked (tk (next s CLEAR_LOCK)) = false.
Proof.
  intros s.
  pose proof (X_clear_lock_needs_no_passcode s) as H. discharge H.
  destruct H as (_ & A2 & A3 & _).
  split; [vm_compute; reflexivity|]. split; [vm_compute; reflexivity|].
  split; [rewrite A2; reflexivity | exact A3].
Defined.

(** When nothing is locked, CLEAR_LOCK changes none of the records. *)
Lemma clear_lock_unlocked s :
  locked (flagsOf s) = false ->
  flagsOf (next s CLEAR_LOCK) = flagsOf s /\ tk (next s CLEAR_LOCK) = tk s.
Proof.
  intros L. unfold next, step, handleEvent, service.clearLockedState. views. js.
  cbn [fst snd]. js. repeat split.
Qed.

(** X2.  Setting a passcode and validating: after SET_PASSCODE with a
    non-empty passcode [p], [validatePasscode] accepts [p] and rejects every
    other candidate (the stored value is compared as it is); the message
    leaves the usage record, the flags and the clock alone. *)
Theorem X_passcode_round_trip (s : State) (now : Z) (p q : string) :
  p <> "" ->
  let s' := next s (SET_PASSCODE now p) in
  (exists s1, rules.validatePasscode p s' = Ok true s1) /\
  (q <> p -> exists s1, rules.validatePasscode q s' = Ok false s1) /\
  usageOf s' = usageOf s /\ flagsOf s' = flagsOf s /\ tk s' = tk s /\
  dailyLimitMin (settingsOf s') = dailyLimitMin (settingsOf s).
Proof.
  intros Hp. apply String.eqb_neq in Hp.
  unfold next, step, handleEvent, rules.setPasscode, storage.updateSettings,
    storage.handleSettingsChange, rules.validatePasscode,
    RulesEngine.passcodeConfigured. views. js.
  rewrite Z.eqb_refl. cbn [negb]. js. cbn [fst snd]. js.
  rewrite String.eqb_refl. js.
  split; [eexists; reflexivity|].
  split; [| repeat split].
  intros Hq. assert (E : (p =? q)%string = false)
    by (apply String.eqb_neq; congruence).
  rewrite E. eexists; reflexivity.
Qed.

Lemma X_passcode_round_trip_witness :
  let s' := next (tracking (exampleSettings 30 5 true))
                 (SET_PASSCODE (exampleLoad + 1500) "1234") in
  (exists s1, rules.validatePasscode "1234" s' = Ok true s1) /\
  (exists s1, rules.validatePasscode "4321" s' = Ok false s1).
Proof.
  intros s'.
  assert (N : "1234" <> "") by discriminate.
  destruct (X_passcode_round_trip (tracking (exampleSettings 30 5 true))
              (exampleLoad + 1500) "1234" "4321" N) as (A & B & _).
  split; [exact A | apply B; discriminate].
Defined.

(** X3.  With no passcode configured (none stored, or the empty string),
    [validatePasscode] rejects every candidate. *)
Theorem X_no_passcode_validates_nothing (s : State) (q : string) :
  RulesEngine.passcodeConfigured (settingsOf s) = false ->
  exists s1, rules.validatePasscode q s = Ok false s1 /\
             settingsOf s1 = settingsOf s /\ flagsOf s1 = flagsOf s.
Proof.
  intros H. unfold rules.validatePasscode. views. js.
  eexists; split; [reflexivity|]. js. repeat split.
Qed.

Lemma X_no_passcode_validates_nothing_witness :
  exists s1,
    rules.validatePasscode "" (tracking (exampleSettings 30 5 true)) = Ok false s1.
Proof.
  pose proof (X_no_passcode_validates_nothing
                (tracking (exampleSettings 30 5 true)) "") as H.
  discharge H. destruct H as (s1 & E & _). exists s1. exact E.
Defined.

(** *** The daily reset and the clock's memory *)

(** X4.  The worker's daily reset writes storage only: the in-memory clock
    (counter, lock, tick anchor) is left as it is.  So a lock held in memory
    survives the rollover: the flags are back to their defaults, yet a tick
    after the rollover accumulates nothing and a tracking update does not
    start the clock. *)
Theorem X_daily_reset_keeps_clock_memory (s : State) (d : Z) :
  isLocked (tk s) = true ->
  let s1 := next s (ALARM_daily_reset d) in
  tk s1 = tk s /\
  (forall now idleState,
     let s2 := next s1 (ALARM_timekeeper_tick now idleState) in
     currentUsageMs (tk s2) = currentUsageMs (tk s) /\ isLocked (tk s2) = true) /\
  (forall now env,
     let s2 := next s1 (UPDATE_TRACKING now env) in
     isLocked (tk s2) = true /\
     currentUsageMs (tk s2) = currentUsageMs (tk s) /\
     (tickInterval (tk s) = false -> tickInterval (tk s2) = false) /\
     (isActive (tk s) = false -> isActive (tk s2) = false)).
Proof.
  intros L. cbv zeta.
  assert (T : tk (next s (ALARM_daily_reset d)) = tk s).
  { unfold next, step, handleEvent, storage.checkDailyReset. views. js.
    destruct (negb _); js; cbn [snd]; js; reflexivity. }
  split; [exact T|]. split.
  - intros now idleState. rewrite next_tick. unfold exec.
    assert (A : accumulates (next s (ALARM_daily_reset d)) now idleState = false).
    { unfold accumulates. rewrite T, L. cbn [negb].
      rewrite !andb_false_r. reflexivity. }
    destruct (tick_skip now idleState _ A) as (s2 & E & _ & _ & _ & _ & _ & _ & K).
    rewrite E. cbn [state_of].
    destruct K as [-> | ->]; red_fields; rewrite T; auto.
  - intros now env.
    set (s1 := next s (ALARM_daily_reset d)) in *.
    assert (L1 : isLocked (tk s1) = true) by (rewrite T; exact L).
    unfold next, step, handleEvent, service.updateTrackingImmediate,
      service.updateTrackingBody, try_finally. views. js.
    rewrite <- T.
    destruct (updateTrackingInProgress (svc s1)); js; cbn [snd]; js.
    { auto. }
    jsb.
    destruct (pausedToday _); jsb; [auto|].
    destruct (locked _); jsb.
    { destruct (stopInProgress (tk s1)) eqn:Hs.
      - rewrite stop_busy by (red_fields; assumption). jsb. auto.
      - rewrite stop_eq by (red_fields; assumption). jsb.
        repeat split; auto. }
    destruct (match suppressStopUntil (svc s1) with
              | Some u => negb (u =? 0) && (now <? u) | None => false end);
      jsb.
    + destruct (isTracking (svc s1) || popupOpen env && activeXTabAnywhere env)
        eqn:Tr; jsb.
      * unfold when. destruct (negb (tickInterval (tk s1))); jsb; auto.
      * destruct (isTracking (svc s1)); jsb; auto.
    + destruct (isTracking (svc s1)); jsb.
      * destruct (stopInProgress (tk s1)) eqn:Hs.
        -- rewrite stop_busy by (red_fields; assumption). jsb. auto.
        -- rewrite stop_eq by (red_fields; assumption). jsb.
           repeat split; auto.
      * auto.
Qed.

Lemma X_daily_reset_keeps_clock_memory_witness :
  let s := run (tracking (exampleSettings 1 5 true))
               (tickEvents (ticksFrom (exampleLoad + 1000) 1000 58)) in
  let d := exampleLoad + MS_PER_DAY in
  let s1 := next s (ALARM_daily_reset d) in
  locked (flagsOf s1) = false /\ isLocked (tk s1) = true /\
  currentUsageMs (tk (run s1 [UPDATE_TRACKING (d + 1000) onX;
                              ALARM_timekeeper_tick (d + 2000) idle_active]))
  = 58000.
Proof.
  intros s d s1.
  pose proof (X_daily_reset_keeps_clock_memory s d) as H. discharge H.
  destruct H as (T & _ & _).
  split; [vm_compute; reflexivity|].
  split; [fold s1 in T; rewrite T; vm_compute; reflexivity|].
  vm_compute. reflexivity.
Defined.

(** X5.  A bypass request never unlocks, whatever the passcode: the handler
    faults at its call of the unbound [clearLockedState], the message is
    answered with the error, and flags, usage and clock are as before. *)
Theorem X_bypass_request_never_unlocks (s : State) (passcode : string) :
  fst (step (BYPASS_REQUEST passcode) s)
  = RError "clearLockedState is not defined" /\
  flagsOf (next s (BYPASS_REQUEST passcode)) = flagsOf s /\
  usageOf (next s (BYPASS_REQUEST passcode)) = usageOf s /\
  tk (next s (BYPASS_REQUEST passcode)) = tk s.
Proof.
  destruct (handleBypassRequest_faults s passcode)
    as (s1 & E & A1 & A2 & A3 & A4 & A5 & A6).
  unfold next, step, handleEvent, bind. rewrite E. cbn [fst snd errorMessage].
  auto.
Qed.

(** *** Accounting of usage by the tick *)

(** X6.  A tick never lowers the usage counter, and it leaves the counter as
    it is whenever the host reports the user idle or the screen locked, the
    clock is inactive or has no anchor, less than 100 ms have passed, the
    extension is disabled, paused or locked. *)
Theorem X_tick_never_lowers_usage (s : State) (now : Z) (idleState : IdleState) :
  let s' := next s (ALARM_timekeeper_tick now idleState) in
  currentUsageMs (tk s) <= currentUsageMs (tk s') /\
  (accumulates s now idleState = false ->
     currentUsageMs (tk s') = currentUsageMs (tk s) /\
     flagsOf s' = flagsOf s /\ effects s' = effects s) /\
  (idleState <> idle_active -> currentUsageMs (tk s') = currentUsageMs (tk s)).
Proof.
  cbv zeta. rewrite next_tick. unfold exec.
  destruct (accumulates s now idleState) eqn:A.
  - pose proof (accumulates_delta _ _ _ A) as D.
    destruct (tick_accumulate now idleState s A) as (s' & E & _ & _ & _ & C & _).
    rewrite E. cbn [state_of]. rewrite C.
    split; [lia|]. split; [discriminate|].
    intros N. exfalso. unfold accumulates in A.
    destruct idleState; try congruence; rewrite andb_false_r in A; discriminate.
  - destruct (tick_skip now idleState s A) as (s' & E & _ & F & _ & _ & _ & Ef & K).
    rewrite E. cbn [state_of].
    assert (C : currentUsageMs (tk s') = currentUsageMs (tk s))
      by (destruct K as [-> | ->]; reflexivity).
    rewrite C. split; [lia|]. split; auto.
Qed.

(** A tick that accumulates below the limit buffer moves the anchor to its
    own instant and leaves the clock running. *)
Lemma tick_accumulate_below now idleState s :
  accumulates s now idleState = true ->
  let used := currentUsageMs (tk s) + (now - orElse (lastTickTime (tk s)) 0) in
  limitReached (settingsOf s) (flagsOf s) used = false ->
  exists s',
    timekeeper.tick now idleState s = Ok tt s' /\
    settingsOf s' = settingsOf s /\
    flagsOf s' = (if nudgeFires (settingsOf s) (flagsOf s) used
                  then with_nudged true (flagsOf s) else flagsOf s) /\
    currentUsageMs (tk s') = used /\
    lastTickTime (tk s') = Some now /\
    isActive (tk s') = true /\ isLocked (tk s') = false.
Proof.
  intros Hacc. pose proof Hacc as H. unfold accumulates in H.
  repeat (apply andb_true_iff in H; destruct H as [H ?]).
  destruct idleState; try discriminate.
  match goal with X : negb (isLocked _) = true |- _ => apply negb_true_iff in X end.
  match goal with X : negb (locked _) = true |- _ => apply negb_true_iff in X end.
  match goal with X : negb (pausedToday _) = true |- _ => apply negb_true_iff in X end.
  match goal with X : (100 <=? _) = true |- _ =>
    assert (D : (now - orElse (lastTickTime (tk s)) 0 <? 100) = false)
      by (apply Z.ltb_ge; apply Z.leb_le in X; exact X) end.
  cbv zeta. intros Hlim.
  unfold timekeeper.tick, timekeeper.getFreshData. js.
  set (st := orElse (st_settings (store s)) DEFAULT_SETTINGS) in *.
  set (fl := orElse (st_flags (store s)) DEFAULT_FLAGS) in *.
  destruct ((writeBackoffUntil (tk s) <=? now)
            && (usageSaveInterval (tk s) <=? now - lastUsageSave (tk s))); js.
  all: match goal with |- context [timekeeper.checkLimits ?u ?n ?s0] =>
         destruct (checkLimits_spec u n s0)
           as (s1 & E & A);
         [ views; red_fields; first [assumption | reflexivity] .. | ]
       end.
  all: rewrite E; exists s1; revert A; views; red_fields; fold st; fold fl.
  all: intros (A1 & A2 & A3 & A4 & A5 & A6 & A7 & A8 & A9).
  all: rewrite (A9 Hlim); red_fields.
  all: rewrite A1, A5; unfold flagsAfterCheck; rewrite Hlim.
  all: repeat split; auto.
Qed.

Lemma last_cons (r : list Z) : forall t a, last (t :: r) a = last r t.
Proof.
  induction r as [|u r IH]; intros t a.
  - reflexivity.
  - change (last (t :: u :: r) a) with (last (u :: r) a).
    rewrite (IH u a), (IH u t). reflexivity.
Qed.

Lemma last_cons_spaced t r a :
  spacedFrom t r -> t <= last r t /\ last (t :: r) a = last r t.
Proof.
  intros H. split; [|apply last_cons].
  revert t H. induction r as [|u r IH]; intros t H.
  - cbn. lia.
  - destruct H as [H1 H2]. specialize (IH u H2).
    rewrite last_cons. lia.
Qed.

Lemma limitReached_nudged st fl b used :
  limitReached st (with_nudged b fl) used = limitReached st fl used.
Proof. reflexivity. Qed.

Lemma active_ticks_run ts : forall s a,
  isActive (tk s) = true -> lastTickTime (tk s) = Some a -> 0 < a ->
  isLocked (tk s) = false -> enabled (settingsOf s) = true ->
  locked (flagsOf s) = false -> pausedToday (flagsOf s) = false ->
  spacedFrom a ts ->
  currentUsageMs (tk s) + (last ts a - a)
    < effectiveLimitMillis (settingsOf s) (flagsOf s) - tickBuffer ->
  let s' := run s (tickEvents (activeTicks ts)) in
  currentUsageMs (tk s') = currentUsageMs (tk s) + (last ts a - a) /\
  lastTickTime (tk s') = Some (last ts a) /\
  isActive (tk s') = true /\ locked (flagsOf s') = false /\
  isLocked (tk s') = false.
Proof.
  induction ts as [|t r IH]; intros s a Ha Hl Hpos Hil He Hlk Hp Hsp Hlim.
  - cbn [last activeTicks tickEvents map run fold_left].
    repeat split; auto. lia.
  - destruct Hsp as [Hd Hsp].
    destruct (last_cons_spaced t r a Hsp) as [Hge Hlast].
    rewrite Hlast in *.
    assert (Hacc : accumulates s t idle_active = true).
    { unfold accumulates. rewrite Ha, Hl, Hil, He, Hlk, Hp.
      cbn [truthyTime orElse negb andb].
      replace (a =? 0) with false by (symmetry; apply Z.eqb_neq; lia).
      replace (100 <=? t - a) with true by (symmetry; apply Z.leb_le; lia).
      reflexivity. }
    assert (Hbelow : limitReached (settingsOf s) (flagsOf s)
                       (currentUsageMs (tk s) + (t - orElse (lastTickTime (tk s)) 0))
                     = false).
    { unfold limitReached. rewrite Hl. cbn [orElse]. apply Z.leb_gt. lia. }
    destruct (tick_accumulate_below t idle_active s Hacc Hbelow)
      as (s1 & E & A1 & A2 & A3 & A4 & A5 & A6).
    rewrite Hl in A3, A2. cbn [orElse] in A3, A2.
    assert (N : next s (ALARM_timekeeper_tick t idle_active) = s1).
    { rewrite next_tick. unfold exec. rewrite E. reflexivity. }
    cbn [activeTicks tickEvents map fst snd]. unfold run. cbn [fold_left].
    rewrite N.
    assert (F : effectiveLimitMillis (settingsOf s1) (flagsOf s1)
                = effectiveLimitMillis (settingsOf s) (flagsOf s)).
    { rewrite A1, A2. destruct (nudgeFires _ _ _); reflexivity. }
    assert (Hlk1 : locked (flagsOf s1) = false).
    { rewrite A2. destruct (nudgeFires _ _ _); exact Hlk. }
    assert (Hp1 : pausedToday (flagsOf s1) = false).
    { rewrite A2. destruct (nudgeFires _ _ _); exact Hp. }
    assert (He1 : enabled (settingsOf s1) = true) by (rewrite A1; exact He).
    assert (Hlim1 : currentUsageMs (tk s1) + (last r t - t)
                    < effectiveLimitMillis (settingsOf s1) (flagsOf s1) - tickBuffer)
      by (rewrite F, A3; lia).
    assert (Hpos1 : 0 < t) by lia.
    destruct (IH s1 t A5 A4 Hpos1 A6 He1 Hlk1 Hp1 Hsp Hlim1)
      as (B1 & B2 & B3 & B4 & B5).
    unfold run, tickEvents, activeTicks in B1, B2, B3, B4, B5.
    rewrite B1, B2, B3, B4, B5, A3. repeat split; auto. lia.
Qed.

(** X7.  While the user is active and the limit buffer is not reached, a run
    of ticks counts the elapsed time exactly: the counter grows by the time
    from the anchor to the last tick, whatever the spacing of the ticks (each
    at least 100 ms after the one before), and the anchor is the last tick. *)
Theorem X_active_ticks_count_elapsed_time (s : State) (a : Z) (ts : list Z) :
  isActive (tk s) = true -> lastTickTime (tk s) = Some a -> 0 < a ->
  isLocked (tk s) = false -> enabled (settingsOf s) = true ->
  locked (flagsOf s) = false -> pausedToday (flagsOf s) = false ->
  spacedFrom a ts ->
  currentUsageMs (tk s) + (last ts a - a)
    < effectiveLimitMillis (settingsOf s) (flagsOf s) - tickBuffer ->
  let s' := run s (tickEvents (activeTicks ts)) in
  currentUsageMs (tk s') = currentUsageMs (tk s) + (last ts a - a) /\
  lastTickTime (tk s') = Some (last ts a) /\
  locked (flagsOf s') = false.
Proof.
  intros Ha Hl Hpos Hil He Hlk Hp Hsp Hlim.
  destruct (active_ticks_run ts s a Ha Hl Hpos Hil He Hlk Hp Hsp Hlim)
    as (B1 & B2 & _ & B4 & _).
  cbv zeta. auto.
Qed.

(** Ticks 1.3 s, 2.0 s and 4.5 s after the anchor: 4.5 s are counted. *)
Lemma X_active_ticks_count_elapsed_time_witness :
  let s := tracking (exampleSettings 30 5 true) in
  let a := exampleLoad + 1000 in
  currentUsageMs
    (tk (run s (tickEvents (activeTicks [a + 1300; a + 2000; a + 4500]))))
  = 4500.
Proof.
  intros s a.
  pose proof (X_active_ticks_count_elapsed_time s a
                [a + 1300; a + 2000; a + 4500]) as H.
  assert (H1 : isActive (tk s) = true) by (vm_compute; reflexivity).
  assert (H2 : lastTickTime (tk s) = Some a) by (vm_compute; reflexivity).
  assert (H3 : 0 < a) by (vm_compute; reflexivity).
  assert (H4 : isLocked (tk s) = false) by (vm_compute; reflexivity).
  assert (H5 : enabled (settingsOf s) = true) by (vm_compute; reflexivity).
  assert (H6 : locked (flagsOf s) = false) by (vm_compute; reflexivity).
  assert (H7 : pausedToday (flagsOf s) = false) by (vm_compute; reflexivity).
  assert (H8 : spacedFrom a [a + 1300; a + 2000; a + 4500])
    by (cbn [spacedFrom]; repeat split; lia).
  assert (H9 : currentUsageMs (tk s) + (last [a + 1300; a + 2000; a + 4500] a - a)
               < effectiveLimitMillis (settingsOf s) (flagsOf s) - tickBuffer)
    by (vm_compute; reflexivity).
  destruct (H H1 H2 H3 H4 H5 H6 H7 H8 H9) as (B1 & _).
  rewrite B1. vm_compute. reflexivity.
Defined.

(** *** Frames of the clock's operations *)

Ltac split_if :=
  match goal with
  | |- context [if ?b then _ else _] =>
      lazymatch b with
      | context [if _ then _ else _] => fail
      | _ => destruct b eqn:?
      end
  end.

Lemma sameCounter_refl s : sameCounter s s.
Proof. repeat split. Qed.

Lemma sameCounter_trans s1 s2 s3 :
  sameCounter s1 s2 -> sameCounter s2 s3 -> sameCounter s1 s3.
Proof.
  unfold sameCounter.
  intros (A1 & A2 & A3 & A4 & A5 & A6 & A7) (B1 & B2 & B3 & B4 & B5 & B6 & B7).
  repeat split; congruence.
Qed.

Lemma setActive_frame active now s :
  exists s', timekeeper.setActive active now s = Ok tt s' /\
             sameCounter s s' /\ svc s' = svc s /\ effects s' = effects s /\
             tickInterval (tk s') = tickInterval (tk s).
Proof.
  unfold timekeeper.setActive. js.
  repeat (split_if; js); destruct active; js;
    (eexists; split; [reflexivity|]); unfold sameCounter; js; repeat split.
Qed.

Lemma start_frame now s :
  isInitialized (tk s) = true ->
  exists s', timekeeper.start now s = Ok tt s' /\
             sameCounter s s' /\ svc s' = svc s /\ effects s' = effects s.
Proof.
  intros I. unfold timekeeper.start, timekeeper.syncWithStorage. js.
  repeat (split_if; js);
    (eexists; split; [reflexivity|]); unfold sameCounter; js; repeat split; auto.
Qed.

Lemma stop_frame now s :
  exists s', timekeeper.stop now s = Ok tt s' /\
             settingsOf s' = settingsOf s /\ flagsOf s' = flagsOf s /\
             svc s' = svc s /\ effects s' = effects s /\
             timers s' = timers s /\
             currentUsageMs (tk s') = currentUsageMs (tk s) /\
             isPaused (tk s') = isPaused (tk s) /\
             isLocked (tk s') = isLocked (tk s) /\
             isInitialized (tk s') = isInitialized (tk s) /\
             (currentUsageMs (tk s) <= 0 -> usageOf s' = usageOf s) /\
             (stopInProgress (tk s) = false ->
                isActive (tk s') = false /\ tickInterval (tk s') = false /\
                lastTickTime (tk s') = None /\
                (0 < currentUsageMs (tk s) ->
                   usageOf s' = mkUsage (currentUsageMs (tk s)) now
                                        (dateKey (usageOf s)))).
Proof.
  destruct (stopInProgress (tk s)) eqn:B.
  - rewrite stop_busy by assumption. eexists; split; [reflexivity|].
    repeat split; auto; discriminate.
  - rewrite stop_eq by assumption. eexists; split; [reflexivity|].
    unfold stopped. js.
    do 9 (split; [reflexivity|]).
    split.
    + intros L. replace (0 <? currentUsageMs (tk s)) with false
        by (symmetry; apply Z.ltb_ge; exact L). reflexivity.
    + intros _. do 3 (split; [reflexivity|]).
      intros L. replace (0 <? currentUsageMs (tk s)) with true
        by (symmetry; apply Z.ltb_lt; exact L). reflexivity.
Qed.

Lemma stop_sameCounter now s :
  currentUsageMs (tk s) = 0 ->
  exists s', timekeeper.stop now s = Ok tt s' /\
             sameCounter s s' /\ effects s' = effects s.
Proof.
  intros Z0.
  destruct (stop_frame now s)
    as (s' & E & A1 & A2 & A3 & A4 & A5 & A6 & A7 & A8 & A9 & A10 & _).
  exists s'. split; [exact E|]. unfold sameCounter.
  rewrite A10 by lia. repeat split; auto.
Qed.

(** One call of a clock operation inside a handler, replaced by its frame. *)
Ltac frame_call :=
  let s1 := fresh "s" in
  let E := fresh "E" in
  let F := fresh "F" in
  let G := fresh "G" in
  match goal with
  | |- context [timekeeper.stop ?n ?S] =>
      destruct (stop_sameCounter n S) as (s1 & E & F & G);
      [ js; congruence | ]
  | |- context [timekeeper.start ?n ?S] =>
      destruct (start_frame n S) as (s1 & E & F & _ & G);
      [ js; congruence | ]
  | |- context [timekeeper.setActive ?a ?n ?S] =>
      destruct (setActive_frame a n S) as (s1 & E & F & _ & G & _)
  end;
  rewrite E; unfold sameCounter in F; revert F G; js; intros F G;
  destruct F as (? & ? & ? & ? & ? & ? & ?).

Lemma updateTracking_frame now env s :
  currentUsageMs (tk s) = 0 -> isInitialized (tk s) = true ->
  exists s', service.updateTrackingImmediate now env s = Ok tt s' /\
             sameCounter s s' /\ effects s' = effects s.
Proof.
  intros Z0 I.
  unfold service.updateTrackingImmediate, service.updateTrackingBody. js.
  repeat first [ frame_call | split_if; js ];
    (eexists; split; [reflexivity|]); unfold sameCounter; js;
    repeat split; congruence.
Qed.

(** *** Manual reset, pause and resume *)

(** X8.  A manual reset that is not rate-limited (no reset request in the
    last 1500 ms, none in flight) zeroes the usage counter in memory and in
    storage, dated at the request, and writes every flag back to its default,
    the once-a-day snooze mark included; the in-memory lock and pause are
    released and the settings are left as they are. *)
Theorem X_manual_reset_clears_usage_and_flags
    (s : State) (now : Z) (env : TabEnv) :
  (forall l, lastResetRequestAt (svc s) = Some l -> l = 0 \/ 1500 <= now - l) ->
  resetInProgress (svc s) = false ->
  let s' := next s (MANUAL_RESET now env) in
  currentUsageMs (tk s') = 0 /\
  usageOf s' = mkUsage 0 now (getDateKey now) /\
  flagsOf s' = mkFlags false false false false false None /\
  isLocked (tk s') = false /\ isPaused (tk s') = false /\
  settingsOf s' = settingsOf s.
Proof.
  intros R P. cbv zeta.
  unfold next, step, handleEvent, service.manualReset, service.manualResetBody.
  js.
  assert (G : match lastResetRequestAt (svc s) with
              | Some l => negb (l =? 0) && (now - l <? 1500)
              | None => false
              end = false).
  { destruct (lastResetRequestAt (svc s)) as [l|]; [|reflexivity].
    destruct (R l eq_refl) as [-> | L]; [reflexivity|].
    replace (now - l <? 1500) with false by (symmetry; apply Z.ltb_ge; lia).
    apply andb_false_r. }
  rewrite G. js.
  destruct (stop_frame now
              (set_svc (with_resetInProgress true)
                 (set_svc (with_lastResetRequestAt (Some now)) s)))
    as (s1 & E & A1 & A2 & A3 & _).
  rewrite E. revert A1 A2 A3. js. intros A1 A2 A3.
  match goal with
  | |- context [service.updateTrackingImmediate now env ?S] =>
      destruct (updateTracking_frame now env S) as (s2 & E2 & F & _);
      [reflexivity | reflexivity |]
  end.
  rewrite E2. unfold sameCounter in F. revert F. js.
  intros (F1 & F2 & F3 & F4 & F5 & F6 & F7).
  cbn [fst snd]. js.
  repeat split; try assumption; try reflexivity; congruence.
Qed.

Lemma X_manual_reset_witness :
  let s := run (tracking (exampleSettings 1 5 true))
               (tickEvents (ticksFrom (exampleLoad + 1000) 1000 58)) in
  let s' := next s (MANUAL_RESET (exampleLoad + 90000) onX) in
  locked (flagsOf s) = true /\ currentUsageMs (tk s) = 58000 /\
  locked (flagsOf s') = false /\ currentUsageMs (tk s') = 0 /\
  isLocked (tk s') = false.
Proof.
  intros s s'.
  pose proof (X_manual_reset_clears_usage_and_flags s (exampleLoad + 90000) onX)
    as H.
  assert (H1 : forall l, lastResetRequestAt (svc s) = Some l ->
                         l = 0 \/ 1500 <= exampleLoad + 90000 - l).
  { assert (N : lastResetRequestAt (svc s) = None) by (vm_compute; reflexivity).
    intros l E. rewrite N in E. discriminate E. }
  assert (H2 : resetInProgress (svc s) = false) by (vm_compute; reflexivity).
  destruct (H H1 H2) as (A1 & A2 & A3 & A4 & _).
  fold s' in A1, A3, A4.
  split; [vm_compute; reflexivity|]. split; [vm_compute; reflexivity|].
  split; [rewrite A3; reflexivity|]. split; [exact A1 | exact A4].
Defined.

(** X9.  Pausing (a PAUSE_TOGGLE that is not rate-limited, from the unpaused
    state) sets [pausedToday], stops the clock and keeps the usage counter,
    flushing a positive counter to storage; a running snooze is ended, its
    flags [snoozed] and [locked] cleared.  No tick after it adds usage. *)
Theorem X_pause_stops_the_clock (s : State) (now : Z) (env : TabEnv) :
  1000 <= now - lastPauseToggle (svc s) ->
  pauseInProgress (svc s) = false ->
  pausedToday (flagsOf s) = false ->
  stopInProgress (tk s) = false ->
  let s' := next s (PAUSE_TOGGLE now env) in
  flagsOf s' = (if snoozed (flagsOf s)
                then with_pausedToday true
                       (with_locked false (with_snoozed false (flagsOf s)))
                else with_pausedToday true (flagsOf s)) /\
  isPaused (tk s') = true /\ isActive (tk s') = false /\
  tickInterval (tk s') = false /\ lastTickTime (tk s') = None /\
  currentUsageMs (tk s') = currentUsageMs (tk s) /\
  (0 < currentUsageMs (tk s) ->
     millisActive (usageOf s') = currentUsageMs (tk s)) /\
  (forall t idleState,
     currentUsageMs (tk (next s' (ALARM_timekeeper_tick t idleState)))
     = currentUsageMs (tk s)).
Proof.
  intros D P U B. cbv zeta.
  assert (K : let s' := next s (PAUSE_TOGGLE now env) in
              flagsOf s' = (if snoozed (flagsOf s)
                            then with_pausedToday true
                                   (with_locked false
                                      (with_snoozed false (flagsOf s)))
                            else with_pausedToday true (flagsOf s)) /\
              isPaused (tk s') = true /\ isActive (tk s') = false /\
              tickInterval (tk s') = false /\ lastTickTime (tk s') = None /\
              currentUsageMs (tk s') = currentUsageMs (tk s) /\
              (0 < currentUsageMs (tk s) ->
                 millisActive (usageOf s') = currentUsageMs (tk s))).
  { cbv zeta.
    unfold next, step, handleEvent, service.togglePause, service.togglePauseBody.
    js.
    replace (now - lastPauseToggle (svc s) <? 1000) with false
      by (symmetry; apply Z.ltb_ge; lia).
    js. cbn [Bool.eqb negb]. js.
    destruct (snoozed (orElse (st_flags (store s)) DEFAULT_FLAGS)) eqn:Sn; js.
    all: match goal with
         | |- context [timekeeper.stop ?n ?S] =>
             destruct (stop_frame n S)
               as (s1 & E & A1 & A2 & A3 & A4 & A5 & A6 & A7 & A8 & A9 & A10 & A11);
             rewrite E; revert A1 A2 A3 A4 A5 A6 A7 A8 A9 A10 A11; js;
             intros A1 A2 A3 A4 A5 A6 A7 A8 A9 A10 A11;
             destruct (A11 eq_refl) as (C1 & C2 & C3 & C4)
         end.
    all: cbn [fst snd]; js.
    all: split; [rewrite A2; try rewrite U; reflexivity|].
    all: do 5 (split; [first [assumption | reflexivity]|]).
    all: intros L; rewrite (C4 L); reflexivity. }
  cbv zeta in K. destruct K as (K1 & K2 & K3 & K4 & K5 & K6 & K7).
  do 6 (split; [assumption|]). split; [exact K7|].
  intros t idleState. rewrite next_tick. unfold exec.
  assert (A : accumulates (next s (PAUSE_TOGGLE now env)) t idleState = false).
  { unfold accumulates. rewrite K3. reflexivity. }
  destruct (tick_skip t idleState _ A) as (s2 & E & _ & _ & _ & _ & _ & _ & T).
  rewrite E. cbn [state_of].
  destruct T as [-> | ->]; red_fields; exact K6.
Qed.

Lemma X_pause_stops_the_clock_witness :
  let s := run (tracking (exampleSettings 30 5 true))
               (tickEvents (ticksFrom (exampleLoad + 1000) 1000 10)) in
  let s' := next s (PAUSE_TOGGLE (exampleLoad + 11500) onX) in
  currentUsageMs (tk s) = 10000 /\
  pausedToday (flagsOf s') = true /\ isActive (tk s') = false /\
  millisActive (usageOf s') = 10000 /\
  currentUsageMs
    (tk (run s' (tickEvents (ticksFrom (exampleLoad + 11500) 1000 5)))) = 10000.
Proof.
  intros s s'.
  pose proof (X_pause_stops_the_clock s (exampleLoad + 11500) onX) as H.
  discharge H. cbv zeta in H. destruct H as (A1 & _ & A3 & _ & _ & _ & A7 & _).
  fold s' in A1, A3, A7.
  assert (C : currentUsageMs (tk s) = 10000) by (vm_compute; reflexivity).
  split; [exact C|].
  split; [rewrite A1; vm_compute; reflexivity|].
  split; [exact A3|].
  split; [rewrite A7; [exact C | rewrite C; reflexivity]|].
  vm_compute. reflexivity.
Defined.

(** X10.  Resuming (a PAUSE_TOGGLE that is not rate-limited, from the paused
    state, the clock initialised) clears [pausedToday] and the in-memory
    pause and nothing else of the flags; the usage counter, in memory and in
    storage, and the in-memory lock are as they were. *)
Theorem X_resume_keeps_the_counter (s : State) (now : Z) (env : TabEnv) :
  1000 <= now - lastPauseToggle (svc s) ->
  pauseInProgress (svc s) = false ->
  pausedToday (flagsOf s) = true ->
  isInitialized (tk s) = true ->
  let s' := next s (PAUSE_TOGGLE now env) in
  flagsOf s' = with_pausedToday false (flagsOf s) /\
  isPaused (tk s') = false /\
  currentUsageMs (tk s') = currentUsageMs (tk s) /\
  usageOf s' = usageOf s /\
  isLocked (tk s') = isLocked (tk s) /\
  settingsOf s' = settingsOf s.
Proof.
  intros D P U I. cbv zeta.
  unfold next, step, handleEvent, service.togglePause, service.togglePauseBody.
  js.
  replace (now - lastPauseToggle (svc s) <? 1000) with false
    by (symmetry; apply Z.ltb_ge; lia).
  js. cbn [Bool.eqb negb]. js.
  repeat first [ frame_call | split_if; js ].
  all: cbn [fst snd]; js.
  all: repeat split; congruence.
Qed.

Lemma X_resume_keeps_the_counter_witness :
  let s := run (tracking (exampleSettings 30 5 true))
               (tickEvents (ticksFrom (exampleLoad + 1000) 1000 10)
                ++ [PAUSE_TOGGLE (exampleLoad + 11500) onX])%list in
  let s' := next s (PAUSE_TOGGLE (exampleLoad + 20000) onX) in
  pausedToday (flagsOf s) = true /\
  pausedToday (flagsOf s') = false /\ currentUsageMs (tk s') = 10000.
Proof.
  intros s s'.
  pose proof (X_resume_keeps_the_counter s (exampleLoad + 20000) onX) as H.
  discharge H. cbv zeta in H. destruct H as (A1 & _ & A3 & _).
  fold s' in A1, A3.
  split; [vm_compute; reflexivity|].
  split; [rewrite A1; reflexivity|].
  rewrite A3. vm_compute. reflexivity.
Defined.

(** *** Rate limits *)

(** X11.  Requests that come too fast change nothing at all: a PAUSE_TOGGLE
    within 1000 ms of the last one, a MANUAL_RESET within 1500 ms of the last
    one and an UPDATE_SETTINGS within 1000 ms of the last one leave the whole
    state as it is; the settings update is answered as debounced. *)
Theorem X_rapid_requests_change_nothing (s : State) (now : Z) :
  (forall env, now - lastPauseToggle (svc s) < 1000 ->
     step (PAUSE_TOGGLE now env) s = (RSuccess, s)) /\
  (forall env l, lastResetRequestAt (svc s) = Some l -> l <> 0 ->
     now - l < 1500 ->
     step (MANUAL_RESET now env) s = (RSuccess, s)) /\
  (forall patch resetUsage, now - lastSettingsUpdate (svc s) < 1000 ->
     step (UPDATE_SETTINGS now patch resetUsage) s = (RDebounced, s)).
Proof.
  split; [|split].
  - intros env L. unfold step, handleEvent, service.togglePause. js.
    replace (now - lastPauseToggle (svc s) <? 1000) with true
      by (symmetry; apply Z.ltb_lt; lia).
    reflexivity.
  - intros env l E N L. unfold step, handleEvent, service.manualReset. js.
    replace (l =? 0) with false by (symmetry; apply Z.eqb_neq; exact N).
    replace (now - l <? 1500) with true by (symmetry; apply Z.ltb_lt; lia).
    reflexivity.
  - intros patch resetUsage L.
    unfold step, handleEvent, Messages.updateSettings,
      Messages.updateSettingsBody. js.
    replace (now - lastSettingsUpdate (svc s) <? 1000) with true
      by (symmetry; apply Z.ltb_lt; lia).
    reflexivity.
Qed.

(** A second pause request 400 ms after the first leaves the extension
    paused, a second limit change 400 ms after the first leaves the first
    limit in place, and a second reset changes nothing. *)
Lemma X_rapid_requests_witness :
  let s := next (tracking (exampleSettings 30 5 true))
                (PAUSE_TOGGLE (exampleLoad + 5000) onX) in
  let s1 := next (tracking (exampleSettings 30 5 true))
                 (UPDATE_SETTINGS (exampleLoad + 5000) (limitPatch 20) false) in
  let s2 := next (tracking (exampleSettings 30 5 true))
                 (MANUAL_RESET (exampleLoad + 5000) onX) in
  next s (PAUSE_TOGGLE (exampleLoad + 5400) onX) = s /\
  pausedToday (flagsOf s) = true /\
  step (UPDATE_SETTINGS (exampleLoad + 5400) (limitPatch 10) false) s1
  = (RDebounced, s1) /\
  dailyLimitMin (settingsOf s1) = 20 /\
  next s2 (MANUAL_RESET (exampleLoad + 5400) onX) = s2.
Proof.
  intros s s1 s2.
  destruct (X_rapid_requests_change_nothing s (exampleLoad + 5400))
    as (A & _ & _).
  destruct (X_rapid_requests_change_nothing s1 (exampleLoad + 5400))
    as (_ & _ & C).
  destruct (X_rapid_requests_change_nothing s2 (exampleLoad + 5400))
    as (_ & B & _).
  split.
  { unfold next. rewrite (A onX); [reflexivity | vm_compute; reflexivity]. }
  split; [vm_compute; reflexivity|].
  split.
  { apply C. vm_compute. reflexivity. }
  split; [vm_compute; reflexivity|].
  unfold next.
  rewrite (B onX (exampleLoad + 5000));
    [reflexivity | vm_compute; reflexivity | vm_compute; discriminate
    | vm_compute; reflexivity].
Defined.

(** *** Persisted usage and restart *)






(** Ticks with the user idle, then active: the idle time is not counted. *)
Lemma X_tick_never_lowers_usage_witness :
  let s := tracking (exampleSettings 30 5 true) in
  let s1 := next s (ALARM_timekeeper_tick (exampleLoad + 61000) idle_idle) in
  let s2 := next s1 (ALARM_timekeeper_tick (exampleLoad + 62000) idle_active) in
  currentUsageMs (tk s1) = 0 /\ currentUsageMs (tk s2) = 1000.
Proof.
  intros s s1 s2.
  destruct (X_tick_never_lowers_usage s (exampleLoad + 61000) idle_idle)
    as (_ & _ & A).
  split.
  - unfold s1. rewrite A; [vm_compute; reflexivity | discriminate].
  - vm_compute. reflexivity.
Defined.

(** *** User activity and leaving X *)

(** X13.  A USER_ACTIVITY message never touches the usage counter or the
    stored records.  While the clock is paused it changes nothing at all;
    while the clock is locked it does not make it active; otherwise it makes
    an inactive clock active at once, anchored at the message, past the
    200 ms debounce of [setActive]. *)
Theorem X_user_activity (s : State) (now : Z) :
  let s' := next s (USER_ACTIVITY now) in
  currentUsageMs (tk s') = currentUsageMs (tk s) /\
  store s' = store s /\
  (isPaused (tk s) = true -> s' = s) /\
  (isLocked (tk s) = true -> isActive (tk s') = isActive (tk s)) /\
  (isPaused (tk s) = false -> isLocked (tk s) = false ->
   isActive (tk s) = false ->
     isActive (tk s') = true /\ lastTickTime (tk s') = Some now /\
     lastActiveChange (tk s') = now).
Proof.
  cbv zeta. unfold next, step, handleEvent, timekeeper.setActive. js.
  replace (now - (now - 300) <? 200) with false
    by (symmetry; apply Z.ltb_ge; lia).
  destruct (isPaused (tk s)) eqn:P; js; cbn [snd].
  { repeat split; try discriminate; auto. }
  destruct (isActive (tk s)) eqn:A; js; cbn [Bool.eqb snd]; js.
  { repeat split; try discriminate; auto. }
  destruct (isLocked (tk s)) eqn:L; js; cbn [snd]; js.
  { repeat split; try discriminate; auto. }
  repeat split; try discriminate; auto.
Qed.

Lemma X_user_activity_witness :
  let s := run (tracking (exampleSettings 30 5 true))
               [UPDATE_TRACKING (exampleLoad + 3000) (mkEnv false false false)] in
  let s' := next s (USER_ACTIVITY (exampleLoad + 3050)) in
  isActive (tk s) = false /\ isActive (tk s') = true /\
  lastTickTime (tk s') = Some (exampleLoad + 3050).
Proof.
  intros s s'.
  destruct (X_user_activity s (exampleLoad + 3050)) as (_ & _ & _ & _ & A).
  assert (H1 : isPaused (tk s) = false) by (vm_compute; reflexivity).
  assert (H2 : isLocked (tk s) = false) by (vm_compute; reflexivity).
  assert (H3 : isActive (tk s) = false) by (vm_compute; reflexivity).
  destruct (A H1 H2 H3) as (B1 & B2 & _).
  split; [exact H3|]. split; [exact B1 | exact B2].
Defined.

(** X14.  Leaving X stops the clock: a tracking update that finds no active X
    tab and no popup, while the worker was tracking and no stop-suppression
    window is open, clears [isTracking] and stops the clock; the counter is
    kept and, when positive, flushed to storage, and no tick after it adds
    usage. *)
Theorem X_leaving_x_stops_the_clock (s : State) (now : Z) (env : TabEnv) :
  updateTrackingInProgress (svc s) = false ->
  stopInProgress (tk s) = false ->
  isTracking (svc s) = true ->
  (forall u, suppressStopUntil (svc s) = Some u -> u <= now) ->
  activeXTabInFocusedWindow env = false -> popupOpen env = false ->
  pausedToday (flagsOf s) = false -> locked (flagsOf s) = false ->
  let s' := next s (UPDATE_TRACKING now env) in
  isTracking (svc s') = false /\
  isActive (tk s') = false /\ tickInterval (tk s') = false /\
  lastTickTime (tk s') = None /\
  currentUsageMs (tk s') = currentUsageMs (tk s) /\
  flagsOf s' = flagsOf s /\
  (0 < currentUsageMs (tk s) ->
     usageOf s' = mkUsage (currentUsageMs (tk s)) now (dateKey (usageOf s))) /\
  (forall t idleState,
     currentUsageMs (tk (next s' (ALARM_timekeeper_tick t idleState)))
     = currentUsageMs (tk s)).
Proof.
  intros H1 H2 H3 H4 H5 H6 P L. cbv zeta.
  assert (G : match suppressStopUntil (svc s) with
              | Some u => negb (u =? 0) && (now <? u)
              | None => false
              end = false).
  { destruct (suppressStopUntil (svc s)) as [u|]; [|reflexivity].
    specialize (H4 u eq_refl).
    replace (now <? u) with false by (symmetry; apply Z.ltb_ge; lia).
    apply andb_false_r. }
  assert (K : let s' := next s (UPDATE_TRACKING now env) in
              isTracking (svc s') = false /\
              isActive (tk s') = false /\ tickInterval (tk s') = false /\
              lastTickTime (tk s') = None /\
              currentUsageMs (tk s') = currentUsageMs (tk s) /\
              flagsOf s' = flagsOf s /\
              (0 < currentUsageMs (tk s) ->
                 usageOf s' = mkUsage (currentUsageMs (tk s)) now
                                      (dateKey (usageOf s)))).
  { cbv zeta.
    unfold next, step, handleEvent, service.updateTrackingImmediate,
      service.updateTrackingBody.
    js. rewrite ?G. jsb.
    match goal with
    | |- context [timekeeper.stop ?n ?S] =>
        destruct (stop_frame n S)
          as (s1 & E & A1 & A2 & A3 & A4 & A5 & A6 & A7 & A8 & A9 & A10 & A11);
        rewrite E; revert A1 A2 A3 A4 A5 A6 A7 A8 A9 A10 A11; js;
        intros A1 A2 A3 A4 A5 A6 A7 A8 A9 A10 A11;
        destruct (A11 eq_refl) as (C1 & C2 & C3 & C4)
    end.
    cbn [fst snd]. js. rewrite A3. js.
    repeat split; auto. }
  cbv zeta in K. destruct K as (K1 & K2 & K3 & K4 & K5 & K6 & K7).
  do 6 (split; [assumption|]). split; [exact K7|].
  intros t idleState. rewrite next_tick. unfold exec.
  assert (A : accumulates (next s (UPDATE_TRACKING now env)) t idleState = false).
  { unfold accumulates. rewrite K2. reflexivity. }
  destruct (tick_skip t idleState _ A) as (s2 & E & _ & _ & _ & _ & _ & _ & T).
  rewrite E. cbn [state_of].
  destruct T as [-> | ->]; red_fields; exact K5.
Qed.

Lemma X_leaving_x_witness :
  let s := run (tracking (exampleSettings 30 5 true))
               (tickEvents (ticksFrom (exampleLoad + 1000) 1000 10)) in
  let s' := next s (UPDATE_TRACKING (exampleLoad + 11500)
                                    (mkEnv false false false)) in
  isActive (tk s) = true /\ isActive (tk s') = false /\
  currentUsageMs (tk s') = 10000 /\ millisActive (usageOf s') = 10000.
Proof.
  intros s s'.
  pose proof (X_leaving_x_stops_the_clock s (exampleLoad + 11500)
                (mkEnv false false false)) as H.
  assert (H1 : updateTrackingInProgress (svc s) = false) by (vm_compute; reflexivity).
  assert (H2 : stopInProgress (tk s) = false) by (vm_compute; reflexivity).
  assert (H3 : isTracking (svc s) = true) by (vm_compute; reflexivity).
  assert (H4 : forall u, suppressStopUntil (svc s) = Some u ->
                         u <= exampleLoad + 11500).
  { assert (N : suppressStopUntil (svc s) = None) by (vm_compute; reflexivity).
    intros u E. rewrite N in E. discriminate E. }
  specialize (H H1 H2 H3 H4 eq_refl eq_refl).
  discharge H. cbv zeta in H.
  destruct H as (_ & A2 & _ & _ & A5 & _ & A7 & _).
  fold s' in A2, A5, A7.
  assert (C : currentUsageMs (tk s) = 10000) by (vm_compute; reflexivity).
  split; [vm_compute; reflexivity|]. split; [exact A2|].
  split; [rewrite A5; exact C|].
  rewrite A7; [exact C | rewrite C; reflexivity].
Defined.

(** *** The time remaining of a status report *)

(** X15.  The reported time remaining is never negative when unpaused; up to
    the limit, time remaining and time used add up to the limit in force,
    and past the limit the remaining time is zero.  While paused the report
    shows the whole daily budget as remaining and no usage, whatever the
    counter reads.  The clock's own report is the same function of the
    stored usage. *)
Theorem X_time_remaining_report (u : Z) (st : Settings) (fl : Flags) :
  let r := getTimeRemainingWithRealTime u st fl in
  let L := effectiveLimitMillis st fl in
  (pausedToday fl = true ->
     remaining r = dailyLimitMin st * 60 * 1000 /\ used r = 0 /\
     limit r = None /\ frozen r = None) /\
  (pausedToday fl = false ->
     limit r = Some L /\ frozen r = Some (locked fl) /\ used r = u /\
     0 <= remaining r /\
     (u <= L -> used r + remaining r = L) /\
     (L <= u -> remaining r = 0)) /\
  (forall s, settingsOf s = st -> flagsOf s = fl ->
     millisActive (usageOf s) = u ->
     exists s1, getTimeRemaining s = Ok r s1).
Proof.
  cbv zeta. unfold getTimeRemainingWithRealTime, effectiveLimitMillis.
  split; [|split].
  - intros ->. cbn. auto.
  - intros ->. destruct (locked fl); cbn [remaining used limit frozen];
      repeat split; lia.
  - intros s <- <- <-.
    unfold getTimeRemaining, timekeeper.getFreshData. js.
    destruct (pausedToday _); [eexists; reflexivity|].
    destruct (locked _); eexists; reflexivity.
Qed.

Lemma X_time_remaining_report_witness :
  let st := exampleSettings 30 5 true in
  remaining (getTimeRemainingWithRealTime 2000000 st DEFAULT_FLAGS) = 0 /\
  remaining (getTimeRemainingWithRealTime 2000000 st
               (with_pausedToday true DEFAULT_FLAGS)) = 1800000 /\
  used (getTimeRemainingWithRealTime 600000 st DEFAULT_FLAGS)
  + remaining (getTimeRemainingWithRealTime 600000 st DEFAULT_FLAGS) = 1800000.
Proof.
  intros st.
  destruct (X_time_remaining_report 2000000 st DEFAULT_FLAGS) as (_ & A & _).
  destruct (X_time_remaining_report 2000000 st
              (with_pausedToday true DEFAULT_FLAGS)) as (B & _ & _).
  destruct (X_time_remaining_report 600000 st DEFAULT_FLAGS) as (_ & C & _).
  cbv zeta in A, B, C.
  destruct (A eq_refl) as (_ & _ & _ & _ & _ & A6).
  destruct (B eq_refl) as (B1 & _).
  destruct (C eq_refl) as (_ & _ & _ & _ & C5 & _).
  split; [apply A6; vm_compute; discriminate|].
  split; [exact B1|].
  apply C5. vm_compute. discriminate.
Defined.

(** X16.  Right after the tick that locks, a status report is frozen and
    shows the counter as it stood at that tick, not the frozen usage stored
    in the flags: the flags say the whole limit was used, while the report
    still has the rest of the 2000 ms buffer as time remaining. *)
Theorem X_status_after_locking_tick (s : State) (now t : Z) :
  accumulates s now idle_active = true ->
  stopInProgress (tk s) = false ->
  let L := effectiveLimitMillis (settingsOf s) (flagsOf s) in
  let u := currentUsageMs (tk s) + (now - orElse (lastTickTime (tk s)) 0) in
  L - tickBuffer <= u -> u <= L ->
  let s' := next s (ALARM_timekeeper_tick now idle_active) in
  frozenTimeUsed (flagsOf s') = Some L /\
  exists r s1,
    getStatus_timeRemaining t s' = Ok r s1 /\
    frozen r = Some true /\ limit r = Some L /\
    used r = u /\ remaining r = L - u /\ remaining r <= tickBuffer.
Proof.
  intros A B. cbv zeta. intros Lo Hi.
  rewrite next_tick. unfold exec.
  assert (R : limitReached (settingsOf s) (flagsOf s)
                (currentUsageMs (tk s) + (now - orElse (lastTickTime (tk s)) 0))
              = true)
    by (unfold limitReached; apply Z.leb_le; exact Lo).
  destruct (tick_accumulate now idle_active s A)
    as (s' & E & A1 & A2 & A3 & A4 & A5 & A6 & A7 & A8).
  rewrite E. cbn [state_of].
  destruct (A8 R B) as (C1 & C2 & C3).
  unfold flagsAfterCheck in A5. rewrite R in A5.
  assert (Sn : snoozed (flagsOf s') = snoozed (flagsOf s)).
  { rewrite A5. unfold lockedFlags. destruct (nudgeFires _ _ _); reflexivity. }
  assert (Pa : pausedToday (flagsOf s') = false).
  { rewrite A5. unfold lockedFlags. unfold accumulates in A.
    repeat (apply andb_true_iff in A; destruct A as [A ?]).
    match goal with X : negb (pausedToday _) = true |- _ =>
      apply negb_true_iff in X end.
    destruct (nudgeFires _ _ _); red_fields; assumption. }
  assert (Lk : locked (flagsOf s') = true).
  { rewrite A5. unfold lockedFlags. reflexivity. }
  split.
  { rewrite A5. unfold lockedFlags. red_fields.
    destruct (nudgeFires _ _ _); reflexivity. }
  unfold getStatus_timeRemaining. js.
  eexists. eexists. split; [reflexivity|].
  unfold getTimeRemainingWithRealTime, timekeeper.getCurrentRealTimeUsage.
  revert Sn Pa Lk A1 Lo Hi. unfold effectiveLimitMillis, tickBuffer. js.
  intros Sn Pa Lk A1 Lo Hi. rewrite ?Pa, ?Lk, ?Sn, ?A1, ?C2, ?A4.
  destruct (isPaused (tk s')); cbn [andb remaining used limit frozen];
    repeat split; lia.
Qed.

Lemma X_status_after_locking_tick_witness :
  let s := run (tracking (exampleSettings 1 5 true))
               (tickEvents (ticksFrom (exampleLoad + 1000) 1000 57)) in
  let s' := next s (ALARM_timekeeper_tick (exampleLoad + 59000) idle_active) in
  frozenTimeUsed (flagsOf s') = Some 60000 /\
  exists r s1, getStatus_timeRemaining (exampleLoad + 70000) s' = Ok r s1 /\
               used r = 58000 /\ remaining r = 2000.
Proof.
  intros s s'.
  pose proof (X_status_after_locking_tick s (exampleLoad + 59000)
                (exampleLoad + 70000)) as H.
  discharge H. cbv zeta in H. discharge H.
  destruct H as (A & r & s1 & E & _ & _ & U & R & _).
  unfold s'.
  split; [rewrite A; vm_compute; reflexivity|].
  exists r, s1. split; [exact E|].
  split; [rewrite U | rewrite R]; vm_compute; reflexivity.
Defined.

(** *** Delivery of a message to a tab *)

Lemma delete_fresh key pending :
  Delivery.has key pending = false -> Delivery.delete key pending = pending.
Proof.
  unfold Delivery.has, Delivery.delete.
  induction pending as [|k r IH]; [reflexivity|].
  cbn [existsb filter]. intros H. apply orb_false_iff in H. destruct H as [H1 H2].
  rewrite H1. cbn [negb]. rewrite (IH H2). reflexivity.
Qed.

Lemma delete_add key pending :
  Delivery.has key pending = false ->
  Delivery.delete key (Delivery.add key pending) = pending.
Proof.
  intros H. unfold Delivery.add. rewrite H.
  unfold Delivery.delete. rewrite filter_app.
  fold (Delivery.delete key pending). rewrite (delete_fresh _ _ H).
  cbn [filter]. rewrite String.eqb_refl. cbn [negb]. apply app_nil_r.
Qed.

(** X17.  Delivery to a tab: a message whose key is already pending is not
    sent.  Otherwise the message is sent at least once and at most three
    times, and no more once an attempt succeeded; it counts as delivered
    exactly when one of the first three attempts succeeds; the content
    script is injected at most once, exactly when the first attempt finds no
    receiving end; the waits add up to at most 4000 ms; and the pending set
    is afterwards what it was before, delivered or not. *)
Theorem X_delivery_attempts (tab : Delivery.Tab) (key : string)
    (pending : list string) :
  let r := Delivery.ensureContentScriptAndSendMessage tab key pending in
  let actions := fst (fst r) in
  let ok := snd (fst r) in
  (Delivery.has key pending = true -> r = ([], false, pending)) /\
  (Delivery.has key pending = false ->
     snd r = pending /\
     (1 <= Delivery.countSends actions <= 3)%nat /\
     (ok = true <->
        exists i, (i < 3)%nat /\ Delivery.sendResult tab i = Delivery.Delivered) /\
     (forall i, (i < 3)%nat ->
        Delivery.sendResult tab i = Delivery.Delivered ->
        (forall j, (j < i)%nat ->
           Delivery.sendResult tab j <> Delivery.Delivered) ->
        Delivery.countSends actions = S i) /\
     Delivery.countInjections actions
     = match Delivery.sendResult tab 0 with
       | Delivery.NoReceivingEnd => 1%nat
       | _ => 0%nat
       end /\
     0 <= Delivery.totalDelay actions <= 4000).
Proof.
  cbv zeta. unfold Delivery.ensureContentScriptAndSendMessage.
  split; [intros ->; reflexivity|].
  intros H. rewrite H.
  destruct (Delivery.attempts tab Delivery.maxRetries 0) as [actions ok] eqn:E.
  cbn [fst snd]. split; [apply delete_add; exact H|].
  revert E. unfold Delivery.maxRetries, Delivery.attempts, Delivery.inject,
    Delivery.delays.
  cbn [nth Z.ltb Z.compare app].
  destruct (Delivery.sendResult tab 0) eqn:R0;
    destruct (Delivery.sendResult tab 1) eqn:R1;
    destruct (Delivery.sendResult tab 2) eqn:R2;
    destruct (Delivery.executeScriptOk tab);
    destruct (Delivery.insertCSSOk tab);
    cbn [app]; intros E; injection E as <- <-;
    cbn [Delivery.countSends Delivery.countInjections Delivery.totalDelay].
  all: split; [lia|].
  all: split;
    [ split;
      [ intros Hok; try discriminate Hok;
        first [ exists 0%nat; split; [lia | assumption]
              | exists 1%nat; split; [lia | assumption]
              | exists 2%nat; split; [lia | assumption] ]
      | intros (i & Hi & Ei);
        first [ reflexivity
              | destruct i as [|[|[|i]]];
                [congruence | congruence | congruence | lia] ] ]
    | ].
  all: split;
    [ intros i Hi Ei Hmin;
      destruct i as [|[|[|i]]]; try lia; try congruence;
      try (exfalso; apply (Hmin 0%nat); [lia | assumption]);
      try (exfalso; apply (Hmin 1%nat); [lia | assumption])
    | ].
  all: split; [reflexivity | lia].
Qed.

(** A tab without content script: the first attempt finds no receiving
    end, the script is injected, the second attempt succeeds. *)
Lemma X_delivery_attempts_witness :
  let tab := Delivery.mkTab
               (fun i => match i with
                         | O => Delivery.NoReceivingEnd
                         | _ => Delivery.Delivered
                         end) true true in
  let r := Delivery.ensureContentScriptAndSendMessage tab "7-SHOW_SOFT_LOCK"
             ["7-SHOW_NUDGE"] in
  snd r = ["7-SHOW_NUDGE"] /\ snd (fst r) = true /\
  Delivery.countSends (fst (fst r)) = 2%nat /\
  Delivery.ensureContentScriptAndSendMessage tab "7-SHOW_NUDGE" ["7-SHOW_NUDGE"]
  = ([], false, ["7-SHOW_NUDGE"]).
Proof.
  intros tab r.
  destruct (X_delivery_attempts tab "7-SHOW_SOFT_LOCK" ["7-SHOW_NUDGE"])
    as (_ & A).
  destruct (X_delivery_attempts tab "7-SHOW_NUDGE" ["7-SHOW_NUDGE"]) as (B & _).
  cbv zeta in A, B.
  destruct (A eq_refl) as (A1 & _ & A3 & A4 & _).
  split; [exact A1|].
  split; [apply A3; exists 1%nat; split; [lia | reflexivity]|].
  split.
  - apply (A4 1%nat); [lia | reflexivity |].
    intros j Hj. destruct j; [discriminate | lia].
  - apply B. reflexivity.
Defined.

(** *** Consistency of the stored flags *)

Lemma hoare_ret {A} (a : A) (Q : A -> Prop) : Q a -> hoare (ret a) Q.
Proof. intros H s I. split; assumption. Qed.

Lemma hoare_throw {A} e (Q : A -> Prop) : hoare (throw e) Q.
Proof. intros s I. exact I. Qed.

Lemma hoare_bind {A B} (m : M A) (k : A -> M B) (P : A -> Prop) (Q : B -> Prop) :
  hoare m P -> (forall a, P a -> hoare (k a) Q) -> hoare (bind m k) Q.
Proof.
  intros Hm Hk s I. unfold bind. specialize (Hm s I).
  destruct (m s) as [a s1 | e s1].
  - destruct Hm as [I1 Pa]. exact (Hk a Pa s1 I1).
  - exact Hm.
Qed.

Lemma hoare_weaken {A} (m : M A) (P Q : A -> Prop) :
  hoare m P -> (forall a, P a -> Q a) -> hoare m Q.
Proof.
  intros Hm W s I. specialize (Hm s I).
  destruct (m s); [destruct Hm; split; auto | exact Hm].
Qed.

Lemma hoare_bind_T {A B} (m : M A) (k : A -> M B) (Q : B -> Prop) :
  hoare m (fun _ => True) -> (forall a, hoare (k a) Q) -> hoare (bind m k) Q.
Proof. intros Hm Hk. apply (hoare_bind m k (fun _ => True)); auto. Qed.

Lemma hoare_gets {A} (f : State -> A) : hoare (gets f) (fun _ => True).
Proof. intros s I. split; [exact I | exact Logic.I]. Qed.

Lemma hoare_when b m :
  hoare m (fun _ => True) -> hoare (when b m) (fun _ => True).
Proof. intros H. destruct b; [exact H | apply hoare_ret; exact I]. Qed.

Lemma hoare_try_catch {A} (m : M A) h (Q : A -> Prop) :
  hoare m Q -> (forall e, hoare (h e) Q) -> hoare (try_catch m h) Q.
Proof.
  intros Hm Hh s I. unfold try_catch. specialize (Hm s I).
  destruct (m s) as [a s1 | e s1]; [exact Hm | exact (Hh e s1 Hm)].
Qed.

Lemma hoare_try_finally {A} (m : M A) f (Q : A -> Prop) :
  hoare m Q -> hoare f (fun _ => True) -> hoare (try_finally m f) Q.
Proof.
  intros Hm Hf s I. unfold try_finally. specialize (Hm s I).
  destruct (m s) as [a s1 | e s1].
  - destruct Hm as [I1 Qa]. specialize (Hf s1 I1).
    destruct (f s1); [destruct Hf; split; assumption | exact Hf].
  - specialize (Hf s1 Hm). destruct (f s1); [destruct Hf; assumption | exact Hf].
Qed.

Lemma hoare_modify f :
  (forall s, flagsOf (f s) = flagsOf s) -> hoare (modify f) (fun _ => True).
Proof.
  intros H s I. split; [|exact Logic.I]. unfold flagsInv. rewrite H. exact I.
Qed.

Lemma hoare_tkSet f : hoare (tkSet f) (fun _ => True).
Proof. apply hoare_modify. reflexivity. Qed.
Lemma hoare_svcSet f : hoare (svcSet f) (fun _ => True).
Proof. apply hoare_modify. reflexivity. Qed.
Lemma hoare_emit e : hoare (emit e) (fun _ => True).
Proof. apply hoare_modify. reflexivity. Qed.
Lemma hoare_set_timers f : hoare (modify (set_timers f)) (fun _ => True).
Proof. apply hoare_modify. reflexivity. Qed.

Lemma hoare_getSettings : hoare storage.getSettings (fun _ => True).
Proof.
  intros s I. rewrite getSettings_eq. split; [exact I | exact Logic.I].
Qed.
Lemma hoare_getUsageToday : hoare storage.getUsageToday (fun _ => True).
Proof.
  intros s I. rewrite getUsageToday_eq. split; [exact I | exact Logic.I].
Qed.
Lemma hoare_getFlags : hoare storage.getFlags flagsOk.
Proof. intros s I. rewrite getFlags_eq. split; exact I. Qed.
Lemma hoare_getFlags_T : hoare storage.getFlags (fun _ => True).
Proof. apply (hoare_weaken _ _ _ hoare_getFlags). auto. Qed.

Lemma hoare_setFlags v : flagsOk v -> hoare (storage.setFlags v) (fun _ => True).
Proof. intros H s I. split; [exact H | exact Logic.I]. Qed.
Lemma hoare_setSettings v : hoare (storage.setSettings v) (fun _ => True).
Proof. apply hoare_modify. reflexivity. Qed.
Lemma hoare_setUsageToday v : hoare (storage.setUsageToday v) (fun _ => True).
Proof. apply hoare_modify. reflexivity. Qed.

Lemma hoare_clear : hoare storage.clear (fun _ => True).
Proof.
  intros s I. split; [|exact Logic.I]. split; cbn; discriminate.
Qed.

Create HintDb hoare.
#[local] Hint Resolve hoare_getSettings hoare_getUsageToday hoare_getFlags_T
  hoare_setSettings hoare_setUsageToday hoare_clear hoare_tkSet hoare_svcSet
  hoare_emit hoare_set_timers : hoare.

(** A flags value built from a consistent one. *)
Ltac flags_ok :=
  match goal with
  | |- flagsOk _ =>
      repeat match goal with
             | H : flagsOk ?f |- _ =>
                 destruct H; destruct f
             end;
      unfold flagsOk in *; cbn in *; split; intros;
      first [assumption | discriminate | congruence | auto]
  end.

Ltac pending_ok :=
  let f := fresh "f" in
  let E := fresh "E" in
  unfold pendingOk; cbn [snd]; intros f E;
  first [ discriminate E
        | injection E as <-; flags_ok
        | solve [auto] ].

(** One step through the syntax of a handler. *)
Ltac hoare_step :=
  lazymatch goal with
  | |- hoare (bind storage.getFlags _) _ =>
      apply (hoare_bind _ _ flagsOk); [apply hoare_getFlags | intros ? ?]
  | |- hoare (bind _ _) _ => apply hoare_bind_T; [| intro]
  | |- hoare (ret _) _ => apply hoare_ret; first [exact I | pending_ok]
  | |- hoare (throw _) _ => apply hoare_throw
  | |- hoare (gets _) _ => apply hoare_gets
  | |- hoare (when _ _) _ => apply hoare_when
  | |- hoare (try_catch _ _) _ => apply hoare_try_catch; [| intro]
  | |- hoare (try_finally _ _) _ => apply hoare_try_finally
  | |- hoare (storage.setFlags _) _ => apply hoare_setFlags; flags_ok
  | |- hoare (if ?b then _ else _) _ => destruct b
  | |- hoare (match ?x with _ => _ end) _ => destruct x
  | |- hoare _ _ => solve [auto with hoare]
  end.

Ltac hoare_tac := repeat hoare_step.

Lemma hoare_updateUsageToday f :
  hoare (storage.updateUsageToday f) (fun _ => True).
Proof. unfold storage.updateUsageToday. hoare_tac. Qed.
Lemma hoare_checkDailyReset now :
  hoare (storage.checkDailyReset now) (fun _ => True).
Proof. unfold storage.checkDailyReset. hoare_tac. Qed.
Lemma hoare_handleSettingsChange o n now :
  hoare (storage.handleSettingsChange o n now) (fun _ => True).
Proof. unfold storage.handleSettingsChange. hoare_tac. Qed.
#[local] Hint Resolve hoare_updateUsageToday hoare_checkDailyReset
  hoare_handleSettingsChange : hoare.

Lemma hoare_storage_updateSettings f now :
  hoare (storage.updateSettings f now) (fun _ => True).
Proof. unfold storage.updateSettings. hoare_tac. Qed.
#[local] Hint Resolve hoare_storage_updateSettings : hoare.

Lemma hoare_validatePasscode p : hoare (rules.validatePasscode p) (fun _ => True).
Proof. unfold rules.validatePasscode. hoare_tac. Qed.
Lemma hoare_setPasscode p now : hoare (rules.setPasscode p now) (fun _ => True).
Proof. unfold rules.setPasscode. hoare_tac. Qed.
Lemma hoare_syncWithStorage : hoare timekeeper.syncWithStorage (fun _ => True).
Proof. unfold timekeeper.syncWithStorage. hoare_tac. Qed.
Lemma hoare_getFreshData : hoare timekeeper.getFreshData (fun _ => True).
Proof. unfold timekeeper.getFreshData. hoare_tac. Qed.
Lemma hoare_stop now : hoare (timekeeper.stop now) (fun _ => True).
Proof. unfold timekeeper.stop. hoare_tac. Qed.
Lemma hoare_setActive a now : hoare (timekeeper.setActive a now) (fun _ => True).
Proof. unfold timekeeper.setActive. hoare_tac. Qed.
#[local] Hint Resolve hoare_validatePasscode hoare_setPasscode
  hoare_syncWithStorage hoare_getFreshData hoare_stop hoare_setActive : hoare.

Lemma hoare_start now : hoare (timekeeper.start now) (fun _ => True).
Proof. unfold timekeeper.start. hoare_tac. Qed.
Lemma hoare_triggerNudge : hoare timekeeper.triggerNudge (fun _ => True).
Proof. unfold timekeeper.triggerNudge, storage.updateFlags. hoare_tac. Qed.
Lemma hoare_triggerLimit now : hoare (timekeeper.triggerLimit now) (fun _ => True).
Proof. unfold timekeeper.triggerLimit, storage.updateFlags. hoare_tac. Qed.
#[local] Hint Resolve hoare_start hoare_triggerNudge hoare_triggerLimit : hoare.

Lemma hoare_checkLimits u now : hoare (timekeeper.checkLimits u now) (fun _ => True).
Proof. unfold timekeeper.checkLimits. hoare_tac. Qed.
#[local] Hint Resolve hoare_checkLimits : hoare.

Lemma hoare_tick now idleState :
  hoare (timekeeper.tick now idleState) (fun _ => True).
Proof. unfold timekeeper.tick. hoare_tac. Qed.

Lemma hoare_updateTrackingImmediate now env :
  hoare (service.updateTrackingImmediate now env) (fun _ => True).
Proof.
  unfold service.updateTrackingImmediate, service.updateTrackingBody. hoare_tac.
Qed.
#[local] Hint Resolve hoare_tick hoare_updateTrackingImmediate : hoare.

Lemma hoare_snoozeTimerCallback c now :
  hoare (service.snoozeTimerCallback c now) (fun _ => True).
Proof. unfold service.snoozeTimerCallback, storage.updateFlags. hoare_tac. Qed.
Lemma hoare_handleSnoozeRequest now :
  hoare (service.handleSnoozeRequest now) (fun _ => True).
Proof. unfold service.handleSnoozeRequest, storage.updateFlags. hoare_tac. Qed.
Lemma hoare_clearLockedState : hoare service.clearLockedState (fun _ => True).
Proof. unfold service.clearLockedState, storage.updateFlags. hoare_tac. Qed.
Lemma hoare_handleBypassRequest p :
  hoare (service.handleBypassRequest p) (fun _ => True).
Proof.
  unfold service.handleBypassRequest, service.global_clearLockedState. hoare_tac.
Qed.
Lemma hoare_togglePause now env : hoare (service.togglePause now env) (fun _ => True).
Proof.
  unfold service.togglePause, service.togglePauseBody, storage.updateFlags.
  hoare_tac.
Qed.
Lemma hoare_manualReset now env : hoare (service.manualReset now env) (fun _ => True).
Proof. unfold service.manualReset, service.manualResetBody. hoare_tac. Qed.
#[local] Hint Resolve hoare_snoozeTimerCallback hoare_handleSnoozeRequest
  hoare_clearLockedState hoare_handleBypassRequest hoare_togglePause
  hoare_manualReset : hoare.

Lemma hoare_dailyLimitChange now o patch :
  hoare (Messages.dailyLimitChange now o patch) pendingOk.
Proof. unfold Messages.dailyLimitChange. hoare_tac. Qed.

Lemma hoare_cooldownChange now o patch b (fu : option Flags) :
  (forall f, fu = Some f -> flagsOk f) ->
  hoare (Messages.cooldownChange now o patch b fu) pendingOk.
Proof. intros H. unfold Messages.cooldownChange. hoare_tac. Qed.

Lemma hoare_writeUpdates st u (fu : option Flags) :
  (forall f, fu = Some f -> flagsOk f) ->
  hoare (Messages.writeUpdates st u fu) (fun _ => True).
Proof.
  intros H. unfold Messages.writeUpdates.
  apply hoare_bind_T; [auto with hoare | intros _].
  apply hoare_bind_T; [destruct u; [auto with hoare | apply hoare_ret; exact I] |].
  intros _. destruct fu as [f|]; [|apply hoare_ret; exact I].
  apply hoare_setFlags. apply H. reflexivity.
Qed.

Lemma hoare_updateSettings now patch resetUsage :
  hoare (Messages.updateSettings now patch resetUsage) (fun _ => True).
Proof.
  unfold Messages.updateSettings, Messages.updateSettingsBody.
  apply hoare_try_catch; [| intro; apply hoare_ret; exact I].
  apply hoare_bind_T; [apply hoare_gets | intro c].
  destruct (now - lastSettingsUpdate c <? 1000); [apply hoare_ret; exact I|].
  apply hoare_bind_T; [auto with hoare | intros _].
  apply hoare_bind_T; [auto with hoare | intros oldSettings].
  apply (hoare_bind _ _ pendingOk); [apply hoare_dailyLimitChange |].
  intros [lockNow fu1] P1.
  apply (hoare_bind _ _ pendingOk); [apply hoare_cooldownChange; exact P1 |].
  intros [uu2 fu2] P2.
  apply (hoare_bind _ _ pendingOk).
  { destruct resetUsage; hoare_tac. }
  intros [uu fu] P3.
  apply hoare_bind_T; [apply hoare_writeUpdates; exact P3 | intros _].
  hoare_tac.
Qed.
#[local] Hint Resolve hoare_updateSettings : hoare.

Lemma hoare_fireSnoozeTimer now : hoare (fireSnoozeTimer now) (fun _ => True).
Proof.
  unfold fireSnoozeTimer.
  apply hoare_bind_T; [apply hoare_gets | intro l].
  destruct (takeDue now l) as [[x r]|]; hoare_tac.
Qed.
#[local] Hint Resolve hoare_fireSnoozeTimer : hoare.

Lemma hoare_handleEvent ev : hoare (handleEvent ev) (fun _ => True).
Proof. destruct ev; unfold handleEvent; hoare_tac. Qed.

Lemma flagsInv_next s ev : flagsInv s -> flagsInv (next s ev).
Proof.
  intros I. unfold next, step. pose proof (hoare_handleEvent ev s I) as H.
  destruct (handleEvent ev s); cbn [snd]; [destruct H; assumption | exact H].
Qed.

(** X18.  The stored flags stay consistent through every event: in every
    state reached from a consistent one (a fresh installation is one), a
    lock always comes with a stored frozen usage, which the popup displays,
    and a running snooze is always marked as the day's snooze. *)
Theorem X_flags_stay_consistent (s : State) (evs : list Event) :
  flagsInv s ->
  let s' := run s evs in
  (locked (flagsOf s') = true -> frozenTimeUsed (flagsOf s') <> None) /\
  (snoozed (flagsOf s') = true -> snoozeUsedToday (flagsOf s') = true).
Proof.
  cbv zeta. unfold run. revert s.
  induction evs as [|ev evs IH]; intros s I.
  - exact I.
  - cbn [fold_left]. apply IH. apply flagsInv_next. exact I.
Qed.

Lemma X_flags_stay_consistent_witness :
  let s := run (exampleWorker (exampleSettings 1 5 true))
               ([ALARM_daily_reset exampleLoad;
                 UPDATE_TRACKING (exampleLoad + 1000) onX]
                ++ tickEvents (ticksFrom (exampleLoad + 1000) 1000 58)
                ++ [SNOOZE_REQUEST (exampleLoad + 60000)])%list in
  snoozed (flagsOf s) = true /\ snoozeUsedToday (flagsOf s) = true.
Proof.
  intros s.
  assert (I : flagsInv (exampleWorker (exampleSettings 1 5 true)))
    by (split; cbn; discriminate).
  pose proof (X_flags_stay_consistent
                (exampleWorker (exampleSettings 1 5 true))
                ([ALARM_daily_reset exampleLoad;
                  UPDATE_TRACKING (exampleLoad + 1000) onX]
                 ++ tickEvents (ticksFrom (exampleLoad + 1000) 1000 58)
                 ++ [SNOOZE_REQUEST (exampleLoad + 60000)])%list I) as H.
  cbv zeta in H. fold s in H. destruct H as (_ & B).
  assert (E : snoozed (flagsOf s) = true) by (vm_compute; reflexivity).
  split; [exact E | exact (B E)].
Defined.
